(** * Tightlock: the GA4 Measurement Protocol destination and the Airflow client

    A shallow embedding of

    - [dags/destinations/ga4mp.py]  (class [Destination]),
    - [dags/utils.py]               (dataclass [RunResult]),
    - [tightlock_api/app/clients.py] (class [AirflowClient]),

    and the properties of the validate-then-send pipeline, of the diagnostic
    classifier and of the polling client.

    Python values are an inductive type [pyval]; a [dict] is an association
    list in insertion order; an object is its attribute dictionary.  Code with
    effects (HTTP calls, logging, sleeping, random draws, exceptions) runs in
    the monad [M]: a function from the state of the outside world to a result
    (a value or a raised exception) and the next state.  The state is kept
    when an exception is raised, as in Python.

    JSON numbers are integers here.  The draws of [random.uniform] and the
    durations of sleeps are Python [float]s, that is binary64 values with
    their arithmetic: Rocq's primitive [float].  The transport failure of a
    request is the [ConnectionError] class, the one the source handles. *)

From Stdlib Require Import ZArith List String Ascii Bool Lia Sorted DecimalString.
From Stdlib Require Import PrimFloat SpecFloat FloatOps FloatAxioms.
Import ListNotations.
Local Open Scope string_scope.
Local Open Scope Z_scope.

Set Implicit Arguments.
Local Set Warnings "-register-all".

(** ** The [errors] module *)

Module Errors.

(** Modelled from the spec: the enumeration [ErrorNameIDMap] of [errors.py],
    which [ga4mp.py] imports and which is not among the sources.  The
    specification has one code for each known invalid field, a generic one
    for invalid values, and retryable and terminal transport codes; the
    members are the ones [ga4mp.py] names. *)

Inductive ErrorNameIDMap : Type :=
| GA4_HOOK_ERROR_VALUE_REQUIRED_CLIENT_ID
| GA4_HOOK_ERROR_VALUE_INVALID_USER_ID
| GA4_HOOK_ERROR_VALUE_INVALID_TIMESTAMP_MICROS
| GA4_HOOK_ERROR_VALUE_INVALID_USER_PROPERTIES
| GA4_HOOK_ERROR_VALUE_INVALID_NON_PERSONALIZED_ADS
| GA4_HOOK_ERROR_VALUE_INVALID_EVENTS
| GA4_HOOK_ERROR_VALUE_INVALID_EVENTS_PARAMS
| GA4_HOOK_ERROR_VALUE_INVALID_EVENTS_PARAMS_ITEMS
| GA4_HOOK_ERROR_INVALID_VALUES
| RETRIABLE_GA4_HOOK_ERROR_HTTP_ERROR
| NON_RETRIABLE_ERROR_EVENT_NOT_SENT
| RETRIABLE_GA_HOOK_ERROR_HTTP_ERROR.

End Errors.
Export Errors.

(** ** Python values *)

Module Py.

(** [Any]: what a JSON body, a configuration, an event or an attribute may
    hold.  [VErrorId] is a member of [ErrorNameIDMap]; [VLogger] is a logger
    object, the only value with an [info] method. *)
Inductive pyval : Type :=
| VNone
| VBool (b : bool)
| VInt (z : Z)
| VStr (s : string)
| VList (l : list pyval)
| VDict (d : list (string * pyval))
| VErrorId (e : ErrorNameIDMap)
| VLogger (name : string).

Definition pydict : Type := list (string * pyval).

(** [bool(v)] *)
Definition truthy (v : pyval) : bool :=
  match v with
  | VNone => false
  | VBool b => b
  | VInt z => negb (z =? 0)
  | VStr s => negb (s =? "")%string
  | VList l => match l with [] => false | _ :: _ => true end
  | VDict d => match d with [] => false | _ :: _ => true end
  | VErrorId _ => true
  | VLogger _ => true
  end.

(** [a or b] *)
Definition py_or (a b : pyval) : pyval := if truthy a then a else b.

(** [d.get(k)] seen as an option, [d.get(k, default)] and [k in d] *)
Fixpoint dict_get (d : pydict) (k : string) : option pyval :=
  match d with
  | [] => None
  | (k', v) :: d' => if (k' =? k)%string then Some v else dict_get d' k
  end.

Definition dict_get_default (d : pydict) (k : string) (default : pyval) : pyval :=
  match dict_get d k with Some v => v | None => default end.

Definition dict_get_none (d : pydict) (k : string) : pyval :=
  dict_get_default d k VNone.

Definition dict_has (d : pydict) (k : string) : bool :=
  match dict_get d k with Some _ => true | None => false end.

(** [d[k] = v]: a present key keeps its place, a new one goes last. *)
Fixpoint dict_set (d : pydict) (k : string) (v : pyval) : pydict :=
  match d with
  | [] => [(k, v)]
  | (k', v') :: d' =>
      if (k' =? k)%string then (k', v) :: d' else (k', v') :: dict_set d' k v
  end.

(** [v == s] for a string [s]: values of another type are unequal to it. *)
Definition pyval_eq_str (v : pyval) (s : string) : bool :=
  match v with
  | VStr s' => (s' =? s)%string
  | _ => false
  end.

(** [needle in hay] on strings: [needle] occurs as a substring. *)
Fixpoint str_contains (needle hay : string) : bool :=
  String.prefix needle hay ||
  match hay with
  | EmptyString => false
  | String _ hay' => str_contains needle hay'
  end.

End Py.
Export Py.

(** ** The outside world and the effect monad *)

Module Effects.

(** Exceptions the modelled code raises or meets.

    Modelled from the spec: the two [DataOutConnector...] classes of
    [errors.py], which is not among the sources, failures that carry an
    error code; [msg] and [error_num] are the keyword arguments the source
    passes, [None] when a [raise] leaves one out. *)
Inductive exn : Type :=
| DataOutConnectorValueError (msg : option string) (error_num : option pyval)
| DataOutConnectorSendUnsuccessfulError (msg : option string) (error_num : option pyval)
| ConnectionError
| JSONDecodeError
| KeyError
| TypeError
| AttributeError
| IndexError
| ValueError
| SyntaxError
| OverflowError.

Inductive result (A : Type) : Type :=
| Ok (a : A)
| Raise (e : exn).
Arguments Ok {A} a.
Arguments Raise {A} e.

Inductive http_method : Type := GET | POST.

Record Request : Type := mkRequest {
  req_method : http_method;
  req_url : string;
  req_json : option pyval
}.

(** [response.status_code], and [response.json()] as an option: [None] when
    the body does not decode as JSON. *)
Record Response : Type := mkResponse {
  status_code : Z;
  json_body : option pyval
}.

Inductive Reply : Type :=
| ConnectionFailed
| Responded (r : Response).

Definition Exchange : Type := (Request * Reply)%type.

(** One call of [logging.error(fmt, *args)] or of a logger's [info]. *)
Record LogRecord : Type := mkLogRecord {
  log_level : string;
  log_fmt : string;
  log_args : list pyval
}.

(** The world answers a request from the exchanges so far and the request;
    [uniform] lists the successive results of [random.uniform(0, 1)];
    [sleeps] are the durations slept so far. *)
Record World : Type := mkWorld {
  net : list Exchange -> Request -> Reply;
  history : list Exchange;
  log : list LogRecord;
  uniform : nat -> float;
  draws : nat;
  sleeps : list float
}.

Definition M (A : Type) : Type := World -> result A * World.

Definition ret {A} (a : A) : M A := fun w => (Ok a, w).

Definition raise {A} (e : exn) : M A := fun w => (Raise e, w).

Definition bind {A B} (c : M A) (k : A -> M B) : M B :=
  fun w =>
    match c w with
    | (Ok a, w') => k a w'
    | (Raise e, w') => (Raise e, w')
    end.

(** [try: c  except ...: h e]; the handler answers [None] for an exception
    its [except] clause does not name, which then propagates. *)
Definition try_except {A} (c : M A) (h : exn -> option (M A)) : M A :=
  fun w =>
    match c w with
    | (Ok a, w') => (Ok a, w')
    | (Raise e, w') =>
        match h e with
        | Some k => k w'
        | None => (Raise e, w')
        end
    end.

Definition lift {A} (r : result A) : M A := fun w => (r, w).

Declare Scope py_scope.
Delimit Scope py_scope with py.
Notation "x <- c ;; k" := (bind c (fun x => k))
  (at level 100, c at next level, right associativity) : py_scope.
Notation "c ;;; k" := (bind c (fun _ => k))
  (at level 100, right associativity) : py_scope.
Local Open Scope py_scope.

(** [requests.post(url, json=...)] and [httpx]'s [client.get(url)]: the
    request and the world's answer are appended to the history. *)
Definition send_request (req : Request) : M Response :=
  fun w =>
    let rep := net w (history w) req in
    let w' := mkWorld (net w) (history w ++ [(req, rep)]) (log w)
                      (uniform w) (draws w) (sleeps w) in
    match rep with
    | ConnectionFailed => (Raise ConnectionError, w')
    | Responded r => (Ok r, w')
    end.

(** The URL argument must be a string: the libraries refuse another value
    with an exception that is a [ValueError]. *)
Definition url_string (v : pyval) : M string :=
  match v with
  | VStr s => ret s
  | _ => raise ValueError
  end.

Definition requests_post (url : pyval) (json : pyval) : M Response :=
  url <- url_string url ;;
  send_request (mkRequest POST url (Some json)).

Definition client_get (url : string) : M Response :=
  send_request (mkRequest GET url None).

Definition client_post (url : string) (json : pyval) : M Response :=
  send_request (mkRequest POST url (Some json)).

(** [response.json()] *)
Definition response_json (r : Response) : M pyval :=
  match json_body r with
  | Some v => ret v
  | None => raise JSONDecodeError
  end.

Definition emit_log (level fmt : string) (args : list pyval) : M unit :=
  fun w =>
    (Ok tt, mkWorld (net w) (history w) (log w ++ [mkLogRecord level fmt args])
                    (uniform w) (draws w) (sleeps w)).

(** [random.uniform(0, 1)] *)
Definition random_uniform : M float :=
  fun w =>
    (Ok (uniform w (draws w)),
     mkWorld (net w) (history w) (log w) (uniform w) (S (draws w)) (sleeps w)).

(** What [time.sleep(d)] raises for a [float] [d], if anything.  CPython
    refuses a NaN with a [ValueError]; it then turns the seconds into
    nanoseconds, [d * 1e9] as a [float], which must fit a signed 64-bit
    count, or it raises [OverflowError]; and a negative count is a
    [ValueError]. *)
Definition sleep_error (d : float) : option exn :=
  if PrimFloat.is_nan d then Some ValueError
  else
    let ns := (d * 1e9)%float in
    if negb ((- 0x1p63 <=? ns) && (ns <? 0x1p63))%float then Some OverflowError
    else if (ns <? 0)%float then Some ValueError
    else None.

Definition time_sleep (d : float) : M unit :=
  fun w =>
    match sleep_error d with
    | Some e => (Raise e, w)
    | None => (Ok tt, mkWorld (net w) (history w) (log w) (uniform w) (draws w)
                              (sleeps w ++ [d]))
    end.

(** *** Numbers

    An argument that is a number is an [int], which is unbounded, or a
    [float]. *)
Inductive pynum : Type :=
| NInt (z : Z)
| NFloat (f : float).

(** [float(z)], which Python applies to the [int] operand of an operation
    with a [float]: the nearest [float], a tie going to the even one, and an
    [OverflowError] for an [int] beyond the largest [float]. *)
Definition float_of_int (z : Z) : result float :=
  let f := SF2Prim (binary_normalize prec emax z 0 false) in
  if PrimFloat.is_infinity f then Raise OverflowError else Ok f.

Definition to_float (a : pynum) : result float :=
  match a with
  | NInt z => float_of_int z
  | NFloat f => Ok f
  end.

(** [2 ** k] for an [int] [k]: an [int], and for a negative [k] the
    [float] [2.0 ** k]. *)
Definition pow2 (k : Z) : pynum :=
  if k <? 0 then NFloat (Z.ldexp 1 k) else NInt (2 ^ k).

(** [a * b]: exact on two [int]s, otherwise the product of the two as
    [float]s. *)
Definition num_mul (a b : pynum) : result pynum :=
  match a, b with
  | NInt x, NInt y => Ok (NInt (x * y))
  | _, _ =>
      match to_float a with
      | Raise e => Raise e
      | Ok x =>
          match to_float b with
          | Raise e => Raise e
          | Ok y => Ok (NFloat (x * y)%float)
          end
      end
  end.

(** [a + x] for a [float] [x] *)
Definition num_add_float (a : pynum) (x : float) : result float :=
  match to_float a with
  | Raise e => Raise e
  | Ok y => Ok (y + x)%float
  end.

(** Reading an attribute of an object, subscripting and membership. *)
Definition getattr (self : pydict) (name : string) : M pyval :=
  match dict_get self name with
  | Some v => ret v
  | None => raise AttributeError
  end.

(** [v[k]] for a string key *)
Definition getitem_str (v : pyval) (k : string) : M pyval :=
  match v with
  | VDict d => match dict_get d k with Some x => ret x | None => raise KeyError end
  | _ => raise TypeError
  end.

(** [v[0]] *)
Definition getitem_0 (v : pyval) : M pyval :=
  match v with
  | VList l => match l with x :: _ => ret x | [] => raise IndexError end
  | VStr s =>
      match s with
      | String c _ => ret (VStr (String c EmptyString))
      | EmptyString => raise IndexError
      end
  | VDict _ => raise KeyError
  | _ => raise TypeError
  end.

(** [v.get(k, default)]: only a dict has the method. *)
Definition method_get (v : pyval) (k : string) (default : pyval) : M pyval :=
  match v with
  | VDict d => ret (dict_get_default d k default)
  | _ => raise AttributeError
  end.

(** [logger.info(msg)]: only a logger has the method. *)
Definition method_info (v : pyval) (msg : string) : M unit :=
  match v with
  | VLogger _ => emit_log "INFO" msg []
  | _ => raise AttributeError
  end.

(** [s in v] for a string [s] *)
Definition py_contains (s : string) (v : pyval) : M bool :=
  match v with
  | VStr hay => ret (str_contains s hay)
  | VList l => ret (existsb (fun x => pyval_eq_str x s) l)
  | VDict d => ret (dict_has d s)
  | _ => raise TypeError
  end.

(** [len(v)] *)
Definition py_len (v : pyval) : M Z :=
  match v with
  | VList l => ret (Z.of_nat (List.length l))
  | VDict d => ret (Z.of_nat (List.length d))
  | VStr s => ret (Z.of_nat (String.length s))
  | _ => raise TypeError
  end.

End Effects.
Export Effects.

(** ** [dags/utils.py]: the run result *)

Module Utils.

Record RunResult : Type := mkRunResult {
  successful_hits : Z;
  failed_hits : Z;
  error_messages : list string;
  dry_run : bool
}.

(** [RunResult()] with the defaults of the dataclass *)
Definition RunResult_default : RunResult := mkRunResult 0 0 [] false.

(** [RunResult.__add__] *)
Definition RunResult_add (self other : RunResult) : RunResult :=
  let sh := successful_hits self + successful_hits other in
  let fh := failed_hits self + failed_hits other in
  let em := (error_messages self ++ error_messages other)%list in
  let dr := dry_run self || dry_run other in
  mkRunResult sh fh em dr.

(** The dataclass [ValidationResult]; [messages] holds whatever the caller
    passes, the dataclass does not check it. *)
Record ValidationResult : Type := mkValidationResult {
  is_valid : bool;
  messages : pyval
}.

(** The inner loop of [DrillMixin._parse_data]:
    [for i, field in enumerate(fields): event_dict[field] = event[i]],
    from index [i] on. *)
Fixpoint parse_row (fields : list string) (i : nat) (event : list pyval)
    (event_dict : pydict) : result pydict :=
  match fields with
  | [] => Ok event_dict
  | field :: rest =>
      match nth_error event i with
      | Some v => parse_row rest (S i) event (dict_set event_dict field v)
      | None => Raise IndexError
      end
  end.

(** The outer loop, with the events built so far. *)
Fixpoint parse_rows (fields : list string) (rows : list (list pyval))
    (events : list pydict) : result (list pydict) :=
  match rows with
  | [] => Ok events
  | event :: rest =>
      match parse_row fields 0 event [] with
      | Ok event_dict => parse_rows fields rest (events ++ [event_dict])
      | Raise e => Raise e
      end
  end.

Definition _parse_data (fields : list string) (rows : list (list pyval))
  : result (list pydict) :=
  parse_rows fields rows [].

End Utils.
Export Utils.

(** ** [dags/destinations/ga4mp.py] *)

Module GA4MP.

Local Open Scope py_scope.

Definition _GA_EVENT_POST_URL : string :=
  "https://www.google-analytics.com/mp/collect".
Definition _GA_EVENT_VALIDATION_URL : string :=
  "https://www.google-analytics.com/debug/mp/collect".

Definition _FIREBASE_ID_COLUMN : string := "app_instance_id".
Definition _GTAG_ID_COLUMN : string := "client_id".

(** The immutable dict [_ERROR_TYPES], in insertion order. *)
Definition _ERROR_TYPES : list (string * ErrorNameIDMap) :=
  [ ("client_id", GA4_HOOK_ERROR_VALUE_REQUIRED_CLIENT_ID);
    ("user_id", GA4_HOOK_ERROR_VALUE_INVALID_USER_ID);
    ("timestamp_micros", GA4_HOOK_ERROR_VALUE_INVALID_TIMESTAMP_MICROS);
    ("user_properties", GA4_HOOK_ERROR_VALUE_INVALID_USER_PROPERTIES);
    ("non_personalized_ads", GA4_HOOK_ERROR_VALUE_INVALID_NON_PERSONALIZED_ADS);
    ("events", GA4_HOOK_ERROR_VALUE_INVALID_EVENTS);
    ("events.params", GA4_HOOK_ERROR_VALUE_INVALID_EVENTS_PARAMS);
    ("events.params.items", GA4_HOOK_ERROR_VALUE_INVALID_EVENTS_PARAMS_ITEMS) ].

(** [_ERROR_TYPES[name]] *)
Fixpoint error_types_get (table : list (string * ErrorNameIDMap)) (name : string)
  : option ErrorNameIDMap :=
  match table with
  | [] => None
  | (k, code) :: rest => if (k =? name)%string then Some code else error_types_get rest name
  end.

(** [PayloadTypes.FIREBASE.value] and [PayloadTypes.GTAG.value] *)
Definition FIREBASE : string := "firebase".
Definition GTAG : string := "gtag".

Section Destination.

(** Python's [str(v)] (also what [format] and an f-string put for [v]), the
    [value] of a member of [ErrorNameIDMap], and the [error_num] an exception
    of [errors.py] has when it is raised without one. *)
Variable py_str : pyval -> string.
Variable error_value : ErrorNameIDMap -> pyval.
Variable default_error_num : pyval.

(** [error.error_num] *)
Definition error_num_of (error_num : option pyval) : pyval :=
  match error_num with
  | Some v => v
  | None => default_error_num
  end.

Definition _validate_credentials (self : pydict) : M unit :=
  api_secret <- getattr self "api_secret" ;;
  if negb (truthy api_secret) then
    config <- getattr self "config" ;;
    raise (DataOutConnectorValueError
             (Some ("Missing API secret in config: " ++ py_str config)) None)
  else
    payload_type <- getattr self "payload_type" ;;
    if negb (pyval_eq_str payload_type FIREBASE || pyval_eq_str payload_type GTAG) then
      payload_type <- getattr self "payload_type" ;;
      raise (DataOutConnectorValueError
               (Some ("Unsupport payload_type: " ++ py_str payload_type
                      ++ ". Supported payload_type is gtag or firebase.")) None)
    else
      payload_type <- getattr self "payload_type" ;;
      missing_app_id <-
        (if pyval_eq_str payload_type FIREBASE
         then firebase_app_id <- getattr self "firebase_app_id" ;;
              ret (negb (truthy firebase_app_id))
         else ret false) ;;
      if (missing_app_id : bool) then
        raise (DataOutConnectorValueError
                 (Some ("Wrong payload_type or missing firebase_app_id. Please make sure "
                        ++ "firebase_app_id is set when payload_type is firebase.")) None)
      else
        payload_type <- getattr self "payload_type" ;;
        missing_measurement_id <-
          (if pyval_eq_str payload_type GTAG
           then measurement_id <- getattr self "measurement_id" ;;
                ret (negb (truthy measurement_id))
           else ret false) ;;
        if (missing_measurement_id : bool) then
          raise (DataOutConnectorValueError
                   (Some ("Wrong payload_type or missing measurement_id. Please make sure "
                          ++ "measurement_id is set when payload_type is gtag.")) None)
        else ret tt.

Definition _build_api_url (self : pydict) (is_post : bool) : M string :=
  payload_type <- getattr self "payload_type" ;;
  query_url <-
    (if pyval_eq_str payload_type GTAG
     then api_secret <- getattr self "api_secret" ;;
          measurement_id <- getattr self "measurement_id" ;;
          ret ("api_secret=" ++ py_str api_secret
               ++ "&measurement_id=" ++ py_str measurement_id)
     else api_secret <- getattr self "api_secret" ;;
          firebase_app_id <- getattr self "firebase_app_id" ;;
          ret ("api_secret=" ++ py_str api_secret
               ++ "&firebase_app_id=" ++ py_str firebase_app_id)) ;;
  if is_post
  then ret (_GA_EVENT_POST_URL ++ "?" ++ query_url)
  else ret (_GA_EVENT_VALIDATION_URL ++ "?" ++ query_url).

(** [Destination(config)]: the attribute dictionary of the new object. *)
Definition __init__ (config : pydict) : M pydict :=
  let self := dict_set [] "config" (VDict config) in
  let self := dict_set self "payload_type" (dict_get_none config "payload_type") in
  let self := dict_set self "api_secret" (dict_get_none config "api_secret") in
  payload_type <- getattr self "payload_type" ;;
  self <-
    (if pyval_eq_str payload_type FIREBASE
     then ret (dict_set self "firebase_app_id" (dict_get_none config "firebase_app_id"))
     else
       payload_type <- getattr self "payload_type" ;;
       if pyval_eq_str payload_type GTAG
       then ret (dict_set self "measurement_id" (dict_get_none config "measurement_id"))
       else ret self) ;;
  let self := dict_set self "non_personalized_ads"
                (py_or (dict_get_none config "non_personalized_ads") (VBool false)) in
  let self := dict_set self "user_properties"
                (py_or (dict_get_none config "user_properties") VNone) in
  let self := dict_set self "debug"
                (py_or (dict_get_none config "debug") (VBool false)) in
  _validate_credentials self ;;;
  post_url <- _build_api_url self true ;;
  let self := dict_set self "post_url" (VStr post_url) in
  validate_url <- _build_api_url self false ;;
  let self := dict_set self "validate_url" (VStr validate_url) in
  ret self.

(** The loop of [_parse_validate_result] over the keys of [_ERROR_TYPES]. *)
Fixpoint classify_loop (names : list string) (field_path description : pyval) : M unit :=
  match names with
  | [] => ret tt
  | property_name :: rest =>
      hit <- (if pyval_eq_str field_path property_name
              then ret true
              else py_contains property_name description) ;;
      if (hit : bool) then
        match error_types_get _ERROR_TYPES property_name with
        | Some code =>
            raise (DataOutConnectorValueError None (Some (VErrorId code)))
        | None => raise KeyError
        end
      else classify_loop rest field_path description
  end.

Definition _parse_validate_result (event : pydict) (response : Response) : M unit :=
  if status_code response >=? 500 then
    raise (DataOutConnectorValueError None
             (Some (VErrorId RETRIABLE_GA4_HOOK_ERROR_HTTP_ERROR)))
  else if negb (status_code response =? 200) then
    raise (DataOutConnectorValueError None
             (Some (VErrorId NON_RETRIABLE_ERROR_EVENT_NOT_SENT)))
  else
    validation_result <-
      try_except (response_json response)
        (fun err =>
           match err with
           | JSONDecodeError =>
               Some (raise (DataOutConnectorValueError None
                              (Some (error_value RETRIABLE_GA4_HOOK_ERROR_HTTP_ERROR))))
           | _ => None
           end) ;;
    validation_messages <- getitem_str validation_result "validationMessages" ;;
    if negb (truthy validation_messages) then ret tt
    else
      validation_messages <- getitem_str validation_result "validationMessages" ;;
      message <- getitem_0 validation_messages ;;
      field_path <- method_get message "fieldPath" (VStr "") ;;
      description <- method_get message "description" (VStr "") ;;
      classify_loop (map fst _ERROR_TYPES) field_path description ;;;
      emit_log "ERROR" "fieldPath: %s, description: %s" [field_path; description] ;;;
      raise (DataOutConnectorValueError None
               (Some (VErrorId GA4_HOOK_ERROR_INVALID_VALUES))).

Definition _send_validate_request (self : pydict) (payload : pydict) : M Response :=
  let validating_payload := payload in
  let validating_payload :=
    dict_set validating_payload "validationBehavior" (VStr "ENFORCE_RECOMMENDATIONS") in
  try_except
    (validate_url <- getattr self "validate_url" ;;
     requests_post validate_url (VDict validating_payload))
    (fun err =>
       match err with
       | ConnectionError =>
           Some (raise (DataOutConnectorValueError None
                          (Some (VErrorId RETRIABLE_GA4_HOOK_ERROR_HTTP_ERROR))))
       | _ => None
       end).

(** The body of the [for] loop of [_get_valid_and_invalid_events]: the
    payload built for one event. *)
Definition build_payload (self : pydict) (event : pydict) : M pydict :=
  let payload : pydict := [] in
  payload_type <- getattr self "payload_type" ;;
  payload <-
    (if pyval_eq_str payload_type FIREBASE
     then ret (dict_set payload "app_instance_id"
                 (dict_get_default event "app_instance_id" (VStr "")))
     else
       payload_type <- getattr self "payload_type" ;;
       if pyval_eq_str payload_type GTAG
       then ret (dict_set payload "client_id"
                   (VStr (py_str (dict_get_default event "client_id" (VStr "")))))
       else ret payload) ;;
  let payload := dict_set payload "user_id"
                   (VStr (py_str (dict_get_default event "user_id" (VStr "")))) in
  non_personalized_ads <- getattr self "non_personalized_ads" ;;
  let payload := dict_set payload "non_personalized_ads" non_personalized_ads in
  user_properties <- getattr self "user_properties" ;;
  payload <-
    (if truthy user_properties
     then user_properties <- getattr self "user_properties" ;;
          ret (dict_set payload "user_properties" user_properties)
     else ret payload) ;;
  let payload :=
    dict_set payload "events"
      (VList [VDict [("name", dict_get_default event "event_name" (VStr ""));
                     ("params",
                      VDict [("engagement_time_msec",
                              dict_get_default event "engagement_time_msec" (VStr ""));
                             ("session_id",
                              dict_get_default event "session_id" (VStr ""))])]]) in
  ret payload.

(** [for i, event in enumerate(events)] of [_get_valid_and_invalid_events],
    from index [i] on, with the two lists built so far. *)
Fixpoint validate_events (self : pydict) (i : nat) (events : list pydict)
    (valid_events : list (nat * pydict))
    (invalid_indices_and_errors : list (nat * pyval))
  : M (list (nat * pydict) * list (nat * pyval)) :=
  match events with
  | [] => ret (valid_events, invalid_indices_and_errors)
  | event :: rest =>
      payload <- build_payload self event ;;
      lists <-
        try_except
          (response <- _send_validate_request self payload ;;
           _parse_validate_result event response ;;;
           ret ((valid_events ++ [(i, payload)])%list, invalid_indices_and_errors))
          (fun error =>
             match error with
             | DataOutConnectorValueError _ error_num =>
                 Some (ret (valid_events,
                            (invalid_indices_and_errors
                               ++ [(i, error_num_of error_num)])%list))
             | _ => None
             end) ;;
      validate_events self (S i) rest (fst lists) (snd lists)
  end.

Definition _get_valid_and_invalid_events (self : pydict) (events : list pydict)
  : M (list (nat * pydict) * list (nat * pyval)) :=
  validate_events self 0 events [] [].

Definition _send_payload (self : pydict) (payload : pydict) : M unit :=
  debug <- getattr self "debug" ;;
  if truthy debug then
    logger <- getattr self "log" ;;
    match logger with
    | VLogger _ =>
        post_url <- getattr self "post_url" ;;
        method_info logger
          ("Debug mode: Simulating sending event to GA4 (data will not
          actually be sent). URL:" ++ py_str post_url
           ++ ". payload data:" ++ py_str (VDict payload) ++ ".")
    | _ => raise AttributeError
    end
  else
    try_except
      (post_url <- getattr self "post_url" ;;
       response <- requests_post post_url (VDict payload) ;;
       if (status_code response <? 200) || (status_code response >=? 300) then
         raise (DataOutConnectorSendUnsuccessfulError
                  (Some "Sending payload to GA did not complete successfully.")
                  (Some (VErrorId RETRIABLE_GA_HOOK_ERROR_HTTP_ERROR)))
       else ret tt)
      (fun err =>
         match err with
         | ConnectionError =>
             Some (raise (DataOutConnectorSendUnsuccessfulError
                            (Some "Sending payload to GA did not complete successfully.")
                            (Some (VErrorId RETRIABLE_GA_HOOK_ERROR_HTTP_ERROR))))
         | _ => None
         end).

(** [for valid_event in valid_events] of [send_data] *)
Fixpoint send_events (self : pydict) (valid_events : list (nat * pydict))
    (invalid_indices_and_errors : list (nat * pyval)) : M (list (nat * pyval)) :=
  match valid_events with
  | [] => ret invalid_indices_and_errors
  | valid_event :: rest =>
      invalid_indices_and_errors <-
        try_except
          (let event := snd valid_event in
           _send_payload self event ;;;
           ret invalid_indices_and_errors)
          (fun error =>
             match error with
             | DataOutConnectorSendUnsuccessfulError _ error_num
             | DataOutConnectorValueError _ error_num =>
                 let index := fst valid_event in
                 Some (ret (invalid_indices_and_errors
                              ++ [(index, error_num_of error_num)])%list)
             | _ => None
             end) ;;
      send_events self rest invalid_indices_and_errors
  end.

(** [send_data]; the [print] calls, which only write to the standard
    output, are left out. *)
Definition send_data (self : pydict) (input_data : list pydict) (dry_run : bool)
  : M RunResult :=
  lists <- _get_valid_and_invalid_events self input_data ;;
  let valid_events := fst lists in
  let invalid_indices_and_errors := snd lists in
  invalid_indices_and_errors <-
    (if negb dry_run
     then send_events self valid_events invalid_indices_and_errors
     else ret invalid_indices_and_errors) ;;
  let run_result :=
    mkRunResult (Z.of_nat (List.length valid_events))
                (Z.of_nat (List.length invalid_indices_and_errors))
                (map (fun error => py_str (snd error)) invalid_indices_and_errors)
                dry_run in
  ret run_result.

Definition fields (self : pydict) : M (list string) :=
  payload_type <- getattr self "payload_type" ;;
  let id_column_name :=
    if pyval_eq_str payload_type FIREBASE then _FIREBASE_ID_COLUMN else _GTAG_ID_COLUMN in
  ret ([id_column_name]
         ++ ["user_id"; "event_name"; "engagement_time_msec"; "session_id"])%list.

Definition batch_size : Z := 10000.

(** [validate]; [timestamp_micros], which the source takes from the clock,
    is an argument. *)
Definition validate (self : pydict) (timestamp_micros : Z) : M ValidationResult :=
  let payload : pydict :=
    [("timestamp_micros", VInt timestamp_micros);
     ("non_personalized_ads", VBool false);
     ("events", VList []);
     ("validationBehavior", VStr "ENFORCE_RECOMMENDATIONS")] in
  payload_type <- getattr self "payload_type" ;;
  let payload :=
    if pyval_eq_str payload_type GTAG
    then dict_set payload "client_id" (VStr "validation_client_id")
    else dict_set payload "app_instance_id" (VStr "cccccccccccccccccccccccccccccccc") in
  response <- _send_validate_request self payload ;;
  validation_response <- response_json response ;;
  validation_messages <- getitem_str validation_response "validationMessages" ;;
  n <- py_len validation_messages ;;
  if n <? 1
  then ret (mkValidationResult true (VList []))
  else ret (mkValidationResult false validation_messages).

End Destination.

End GA4MP.

(** ** [tightlock_api/app/clients.py] *)

Module Clients.

Local Open Scope py_scope.

Definition _AIRFLOW_BASE_URL : string := "http://airflow-webserver:8080".

(** [self.base_url], set by [AirflowClient.__init__] *)
Definition base_url : string := _AIRFLOW_BASE_URL ++ "/api/v1".

(** Modelled from the spec: [Activation], [RunLog] and [RunLogsResponse] of
    [models.py], which is not among the sources; the fields are the ones the
    data model of the spec lists and [clients.py] reads or passes. *)
Record Activation : Type := mkActivation {
  name : string;
  source : pydict;
  destination : pydict;
  schedule : pyval
}.

Record RunLog : Type := mkRunLog {
  activation_name : string;
  source_name : pyval;
  destination_name : pyval;
  run_schedule : pyval;
  state : pyval;
  run_at : pyval;
  run_type : pyval;
  run_result : RunResult
}.

Record RunLogsResponse : Type := mkRunLogsResponse {
  run_logs : list RunLog;
  total_entries : pyval
}.

(** Modelled from the spec: the constructor, applied to keyword
    arguments, of the [RunResult] of
    [models.py]: the four fields of the spec's data model with the defaults
    of [utils.RunResult]; another keyword or a value of another type is
    refused. *)
Fixpoint strings_of (l : list pyval) : option (list string) :=
  match l with
  | [] => Some []
  | VStr s :: l' =>
      match strings_of l' with
      | Some r => Some (s :: r)
      | None => None
      end
  | _ :: _ => None
  end.

Fixpoint RunResult_kwargs (kwargs : pydict) (acc : RunResult) : result RunResult :=
  match kwargs with
  | [] => Ok acc
  | (k, v) :: rest =>
      if (k =? "successful_hits")%string then
        match v with
        | VInt z => RunResult_kwargs rest
                      (mkRunResult z (failed_hits acc) (error_messages acc) (dry_run acc))
        | _ => Raise TypeError
        end
      else if (k =? "failed_hits")%string then
        match v with
        | VInt z => RunResult_kwargs rest
                      (mkRunResult (successful_hits acc) z (error_messages acc) (dry_run acc))
        | _ => Raise TypeError
        end
      else if (k =? "error_messages")%string then
        match v with
        | VList l =>
            match strings_of l with
            | Some em => RunResult_kwargs rest
                           (mkRunResult (successful_hits acc) (failed_hits acc) em (dry_run acc))
            | None => Raise TypeError
            end
        | _ => Raise TypeError
        end
      else if (k =? "dry_run")%string then
        match v with
        | VBool b => RunResult_kwargs rest
                       (mkRunResult (successful_hits acc) (failed_hits acc)
                                    (error_messages acc) b)
        | _ => Raise TypeError
        end
      else Raise TypeError
  end.

(** [RunResult] applied to the unpacked [v], which must be a mapping. *)
Definition RunResult_of (v : pyval) : M RunResult :=
  match v with
  | VDict kwargs => lift (RunResult_kwargs kwargs RunResult_default)
  | _ => raise TypeError
  end.

(** [s.split(sep)] for a non-empty separator: [skip] counts the characters
    of a separator just met that are still to pass, [cur] is the piece read
    so far, last character first. *)
Fixpoint rev_string (acc s : string) : string :=
  match s with
  | EmptyString => acc
  | String c s' => rev_string (String c acc) s'
  end.

Fixpoint split_go (sep : string) (skip : nat) (cur : string) (s : string) : list string :=
  match s with
  | EmptyString => [rev_string "" cur]
  | String c s' =>
      match skip with
      | S k => split_go sep k cur s'
      | O =>
          if String.prefix sep s
          then rev_string "" cur :: split_go sep (String.length sep - 1) "" s'
          else split_go sep 0 (String c cur) s'
      end
  end.

Definition str_split (s sep : string) : list string := split_go sep 0 "" s.

(** [v.split(sep)[1]] *)
Definition split_second (v : pyval) (sep : string) : M pyval :=
  match v with
  | VStr s =>
      match nth_error (str_split s sep) 1 with
      | Some piece => ret (VStr piece)
      | None => raise IndexError
      end
  | _ => raise AttributeError
  end.

(** [for x in v] *)
Definition py_iter (v : pyval) : M (list pyval) :=
  match v with
  | VList l => ret l
  | VDict d => ret (map (fun kv => VStr (fst kv)) d)
  | VStr s => ret (map (fun c => VStr (String c EmptyString)) (list_ascii_of_string s))
  | _ => raise TypeError
  end.

(** [d[k]] for a dict with string keys and any hashable key [k] *)
Fixpoint activation_get (d : list (string * Activation)) (k : string) : option Activation :=
  match d with
  | [] => None
  | (k', a) :: d' => if (k' =? k)%string then Some a else activation_get d' k
  end.

Definition activation_getitem (d : list (string * Activation)) (k : pyval) : M Activation :=
  match k with
  | VStr s => match activation_get d s with Some a => ret a | None => raise KeyError end
  | VList _ | VDict _ => raise TypeError
  | _ => raise KeyError
  end.

Definition in_forcelist (status : Z) (status_forcelist : list Z) : bool :=
  existsb (Z.eqb status) status_forcelist.

Section AirflowClient.

(** Python's [str(v)] (what an f-string puts for [v]) and [ast.literal_eval]
    on a string, which answers a value or raises. *)
Variable py_str : pyval -> string.
Variable literal_eval : string -> result pyval.

Definition ast_literal_eval (v : pyval) : M pyval :=
  match v with
  | VStr s => lift (literal_eval s)
  | _ => raise ValueError
  end.

Definition _post_request (url : string) (body : pyval) : M Response :=
  client_post url body.

(** The [while] loop of [_get_request].  [retries_left] only counts down
    from [max_retries] and the loop runs while it is positive: [fuel] is
    [Z.to_nat retries_left], so it never runs out before the loop ends. *)
Fixpoint get_request_loop (fuel : nat) (url : string) (status_forcelist : list Z)
    (max_retries : Z) (backoff_in_seconds : pynum) (retries_left : Z)
    (response : Response) : M Response :=
  if (retries_left >? 0) && in_forcelist (status_code response) status_forcelist then
    match fuel with
    | O => ret response
    | S fuel' =>
        let retries_tried := max_retries - retries_left in
        backoff <- lift (num_mul backoff_in_seconds (pow2 retries_tried)) ;;
        jitter <- random_uniform ;;
        sleep <- lift (num_add_float backoff jitter) ;;
        time_sleep sleep ;;;
        response <- client_get url ;;
        let retries_left := retries_left - 1 in
        get_request_loop fuel' url status_forcelist max_retries backoff_in_seconds
                         retries_left response
    end
  else ret response.

Definition _get_request (url : string) (status_forcelist : list Z)
    (max_retries : Z) (backoff_in_seconds : pynum) : M Response :=
  response <- client_get url ;;
  let retries_left := max_retries in
  get_request_loop (Z.to_nat retries_left) url status_forcelist max_retries
                   backoff_in_seconds retries_left response.

(** The defaults of [_get_request]'s keyword arguments *)
Definition default_status_forcelist : list Z := [404].
Definition default_max_retries : Z := 3.
Definition default_backoff_in_seconds : pynum := NInt 1.

Definition _get_dag_run_xcom (dag_id dag_run_id : pyval) (xcom_key : string) : M Response :=
  let task_id := dag_id in
  let url := base_url ++ "/dags/" ++ py_str dag_id ++ "/dagRuns/" ++ py_str dag_run_id
             ++ "/taskInstances/" ++ py_str task_id ++ "/xcomEntries/" ++ xcom_key in
  response <- _get_request url [] default_max_retries default_backoff_in_seconds ;;
  ret response.

Definition _build_run_log_response (activation : Activation) (run : pyval)
    (run_result : RunResult) : M RunLog :=
  let default_str_value := VStr "Missing" in
  source_ref <- getitem_str (VDict (source activation)) "$ref" ;;
  source_name <- split_second source_ref "#/sources/" ;;
  destination_ref <- getitem_str (VDict (destination activation)) "$ref" ;;
  destination_name <- split_second destination_ref "#/destinations/" ;;
  state <- method_get run "state" VNone ;;
  end_date <- method_get run "end_date" VNone ;;
  run_type <- method_get run "run_type" VNone ;;
  let run_log :=
    mkRunLog (name activation)
             (py_or source_name default_str_value)
             (py_or destination_name default_str_value)
             (py_or (schedule activation) (VStr "None"))
             (py_or state default_str_value)
             (py_or end_date default_str_value)
             (py_or run_type default_str_value)
             run_result in
  ret run_log.

(** [for run in runs] of [list_dag_runs] *)
Fixpoint list_dag_runs_loop (activation_by_dag_id : list (string * Activation))
    (runs : list pyval) (run_logs : list RunLog) : M (list RunLog) :=
  match runs with
  | [] => ret run_logs
  | run :: rest =>
      dag_id <- getitem_str run "dag_id" ;;
      dag_run_id <- getitem_str run "dag_run_id" ;;
      let xcom_key := "run_result" in
      run_result_response <- _get_dag_run_xcom dag_id dag_run_id xcom_key ;;
      run_result_json <- response_json run_result_response ;;
      value <- method_get run_result_json "value" VNone ;;
      run_result <- ast_literal_eval (py_or value (VStr "{}")) ;;
      activation <- activation_getitem activation_by_dag_id dag_id ;;
      run_result <- RunResult_of run_result ;;
      run_log <- _build_run_log_response activation run run_result ;;
      list_dag_runs_loop activation_by_dag_id rest (run_logs ++ [run_log])%list
  end.

Definition list_dag_runs (activation_by_dag_id : list (string * Activation))
    (offset limit : Z) : M RunLogsResponse :=
  let dag_ids := map (fun kv => VStr (fst kv)) activation_by_dag_id in
  let order_by := "-execution_date" in
  let url := base_url ++ "/dags/~/dagRuns/list" in
  let payload :=
    VDict [("dag_ids", VList dag_ids);
           ("order_by", VStr order_by);
           ("page_offset", VInt offset);
           ("page_limit", VInt limit)] in
  list_response <- _post_request url payload ;;
  list_response_json <- response_json list_response ;;
  runs <- method_get list_response_json "dag_runs" VNone ;;
  total_entries <- method_get list_response_json "total_entries" VNone ;;
  runs <- py_iter runs ;;
  run_logs <- list_dag_runs_loop activation_by_dag_id runs [] ;;
  let response := mkRunLogsResponse run_logs total_entries in
  ret response.

(** Python's [str.lower], and the constructor of the [ValidationResult] of
    [models.py] (not among the sources) applied to keyword arguments. *)
Variable py_lower : string -> string.
Variable ValidationResult_new : pydict -> result ValidationResult.

(** [trigger]; [now_date], the formatted reading of the clock, is an
    argument. *)
Definition trigger (now_date : string) (dag_prefix dag_suffix : string) (conf : pyval)
  : M Response :=
  let body := VDict [("logical_date", VStr now_date);
                     ("conf", py_or conf (VDict []))] in
  let url := base_url ++ "/dags/" ++ dag_prefix ++ dag_suffix ++ "/dagRuns" in
  _post_request url body.

Definition _validate_target (now_date : string) (target_class target_name : string)
    (target_config : pyval) : M ValidationResult :=
  let conf := VDict [("target_name", VStr target_name); ("target_config", target_config)] in
  let dag_id := "validate_" ++ py_lower target_class in
  let task_id := dag_id in
  trigger_result <- trigger now_date dag_id "" conf ;;
  content <- response_json trigger_result ;;
  dag_run_id <- getitem_str content "dag_run_id" ;;
  let url := base_url ++ "/dags/" ++ dag_id ++ "/dagRuns/" ++ py_str dag_run_id
             ++ "/taskInstances/" ++ task_id ++ "/xcomEntries/return_value" in
  xcom_response <- _get_request url default_status_forcelist default_max_retries
                                default_backoff_in_seconds ;;
  if negb (status_code xcom_response =? 200) then
    lift (ValidationResult_new
            [("is_valid", VBool false);
             ("messages", VStr ("Target `" ++ target_name ++ "` is unavailable."))])
  else
    parsed_xcom_response <- response_json xcom_response ;;
    value <- getitem_str parsed_xcom_response "value" ;;
    validation_result <- ast_literal_eval value ;;
    match validation_result with
    | VDict kwargs => lift (ValidationResult_new kwargs)
    | _ => raise TypeError
    end.

Definition validate_source (now_date : string) (source_name : string)
    (source_config : pyval) : M ValidationResult :=
  _validate_target now_date "Source" source_name source_config.

Definition validate_destination (now_date : string) (destination_name : string)
    (destination_config : pyval) : M ValidationResult :=
  _validate_target now_date "Destination" destination_name destination_config.

End AirflowClient.

End Clients.

(** ** Vocabulary of the specification *)

Module Spec.

(** The outcome of validating one event: valid, or invalid with a code. *)
Inductive ValidationOutcome : Type :=
| Valid
| Invalid (code : ErrorNameIDMap).

(** *** The diagnostic classifier and the validator, in the words of the
    specification *)

(** A table entry matches a diagnostic when the field path equals its
    canonical name or the name occurs as a substring of the description. *)
Definition entry_matches (field_path description name : string) : Prop :=
  field_path = name \/ exists l r, description = l ++ name ++ r.

Definition entry_matchesb (field_path description name : string) : bool :=
  (field_path =? name)%string || str_contains name description.

(** [code] is the classification of the diagnostic: the code of the first
    entry of the table that matches, or the generic code when none does. *)
Definition classified (field_path description : string) (code : ErrorNameIDMap) : Prop :=
  (exists pre name post,
      GA4MP._ERROR_TYPES = (pre ++ (name, code) :: post)%list
      /\ entry_matches field_path description name
      /\ Forall (fun entry => ~ entry_matches field_path description (fst entry)) pre)
  \/ (Forall (fun entry => ~ entry_matches field_path description (fst entry))
              GA4MP._ERROR_TYPES
      /\ code = GA4_HOOK_ERROR_INVALID_VALUES).

Definition classify_spec (field_path description : string) : ErrorNameIDMap :=
  match find (fun entry => entry_matchesb field_path description (fst entry))
             GA4MP._ERROR_TYPES with
  | Some entry => snd entry
  | None => GA4_HOOK_ERROR_INVALID_VALUES
  end.

(** The six cases of the validator (section 4.3 of the specification) on
    what the sandbox answered; [None] for an answer of another shape than
    the interface fixes (a JSON object whose [validationMessages] is a list,
    the first message an object with strings for [fieldPath] and
    [description] where it has them). *)
Definition validator_spec (reply : Reply) : option ValidationOutcome :=
  match reply with
  | ConnectionFailed => Some (Invalid RETRIABLE_GA4_HOOK_ERROR_HTTP_ERROR)
  | Responded r =>
      if status_code r >=? 500 then Some (Invalid RETRIABLE_GA4_HOOK_ERROR_HTTP_ERROR)
      else if negb (status_code r =? 200) then Some (Invalid NON_RETRIABLE_ERROR_EVENT_NOT_SENT)
      else
        match json_body r with
        | None => Some (Invalid RETRIABLE_GA4_HOOK_ERROR_HTTP_ERROR)
        | Some (VDict d) =>
            match dict_get d "validationMessages" with
            | Some (VList []) => Some Valid
            | Some (VList (VDict m :: _)) =>
                match dict_get_default m "fieldPath" (VStr ""),
                      dict_get_default m "description" (VStr "") with
                | VStr field_path, VStr description =>
                    Some (Invalid (classify_spec field_path description))
                | _, _ => None
                end
            | _ => None
            end
        | Some _ => None
        end
  end.

(** The [error_num] the validator passes for [code]: the member of the
    enumeration, and only for a 200 response whose body is not JSON the
    member's [value]. *)
Definition error_num_for (error_value : ErrorNameIDMap -> pyval) (reply : Reply)
    (code : ErrorNameIDMap) : pyval :=
  match reply with
  | ConnectionFailed => VErrorId code
  | Responded r =>
      if status_code r =? 200 then
        match json_body r with
        | None => error_value code
        | Some _ => VErrorId code
        end
      else VErrorId code
  end.

(** A 200 answer whose body is not parseable JSON. *)
Definition unparseable (reply : Reply) : bool :=
  match reply with
  | ConnectionFailed => false
  | Responded r =>
      (status_code r =? 200)
      && match json_body r with None => true | Some _ => false end
  end.

Definition well_formed_reply (reply : Reply) : bool :=
  match validator_spec reply with Some _ => true | None => false end.

(** The sandbox, reached at [url], answers every request in a well-formed
    way. *)
Definition well_formed_sandbox (url : string) (w : World) : Prop :=
  forall h req, req_url req = url -> well_formed_reply (net w h req) = true.

Definition reply_valid (reply : Reply) : bool :=
  match validator_spec reply with Some Valid => true | _ => false end.

Definition reply_invalid (reply : Reply) : bool :=
  match validator_spec reply with Some (Invalid _) => true | _ => false end.

(** The sender's failure: no response, or a status outside [200, 300). *)
Definition reply_send_failed (reply : Reply) : bool :=
  match reply with
  | ConnectionFailed => true
  | Responded r => (status_code r <? 200) || (status_code r >=? 300)
  end.

(** The number of exchanges with [url], among [h], whose reply satisfies [f]. *)
Definition count_on (url : string) (f : Reply -> bool) (h : list Exchange) : nat :=
  List.length (filter (fun ex => (req_url (fst ex) =? url)%string && f (snd ex)) h).

(** The world after one more exchange, and a world that differs from
    another by its log only. *)
Definition record_exchange (w : World) (req : Request) : World :=
  mkWorld (net w) (history w ++ [(req, net w (history w) req)])%list (log w)
          (uniform w) (draws w) (sleeps w).

(** The request [_send_validate_request] posts for a payload. *)
Definition validate_request (url : string) (payload : pydict) : Request :=
  mkRequest POST url
    (Some (VDict (dict_set payload "validationBehavior" (VStr "ENFORCE_RECOMMENDATIONS")))).

(** The request [_send_payload] posts for a payload, and the failure it
    raises. *)
Definition post_request (url : string) (payload : pydict) : Request :=
  mkRequest POST url (Some (VDict payload)).

Definition send_failure : exn :=
  DataOutConnectorSendUnsuccessfulError
    (Some "Sending payload to GA did not complete successfully.")
    (Some (VErrorId RETRIABLE_GA_HOOK_ERROR_HTTP_ERROR)).

Definition record_log (w : World) (r : LogRecord) : World :=
  mkWorld (net w) (history w) (log w ++ [r])%list (uniform w) (draws w) (sleeps w).

(** The record [_parse_validate_result] logs for a diagnostic it does not
    know. *)
Definition unmatched_record (field_path description : string) : LogRecord :=
  mkLogRecord "ERROR" "fieldPath: %s, description: %s"
              [VStr field_path; VStr description].

Definition same_but_log (w w' : World) : Prop :=
  net w' = net w /\ history w' = history w /\ uniform w' = uniform w
  /\ draws w' = draws w /\ sleeps w' = sleeps w.

(** From [w] to [w'] the world changed only by exchanges whose requests
    satisfy [P] (appended to the history), log records, sleeps and draws. *)
Definition extends_on (P : Request -> Prop) (w w' : World) : Prop :=
  net w' = net w /\ uniform w' = uniform w /\
  exists new, history w' = (history w ++ new)%list /\ Forall (fun ex => P (fst ex)) new.

(** The computation [c] issues only requests that satisfy [P]. *)
Definition only_requests {A} (P : Request -> Prop) (c : M A) : Prop :=
  forall w r w', c w = (r, w') -> extends_on P w w'.


Definition to_post_url (self : pydict) (req : Request) : Prop :=
  dict_get self "post_url" = Some (VStr (req_url req)).

(** The URL an attribute of a destination holds. *)
Definition url_attr (self : pydict) (name : string) : string :=
  match dict_get self name with
  | Some (VStr url) => url
  | _ => ""
  end.

(** *** The polling client *)

(** The server answers every request. *)
Definition answers (w : World) : Prop :=
  forall h req, net w h req <> ConnectionFailed.

(** The request [_get_request] makes. *)
Definition get_of (url : string) : Request := mkRequest GET url None.

(** The wait before the retry number [k] without the jitter,
    [backoff_in_seconds * 2**k], and with it, in Python's arithmetic. *)
Definition backoff (backoff_in_seconds : pynum) (k : Z) : result pynum :=
  num_mul backoff_in_seconds (pow2 k).

Definition wait (backoff_in_seconds : pynum) (k : Z) (jitter : float) : result float :=
  match backoff backoff_in_seconds k with
  | Raise e => Raise e
  | Ok b => num_add_float b jitter
  end.

(** The first [n] waits, with the draws [jitter], are durations that Python
    computes and [time.sleep] accepts. *)
Definition waits_accepted (backoff_in_seconds : pynum) (jitter : nat -> float) (n : nat)
  : Prop :=
  forall k, (k < n)%nat ->
    exists d, wait backoff_in_seconds (Z.of_nat k) (jitter k) = Ok d
              /\ sleep_error d = None.

(** A base that is not negative, and the order of two waits without the
    jitter: of two [int]s, or of two [float]s as Python compares them. *)
Definition non_negative (a : pynum) : bool :=
  match a with
  | NInt z => 0 <=? z
  | NFloat f => (0 <=? f)%float
  end.

Definition num_leb (a b : pynum) : bool :=
  match a, b with
  | NInt x, NInt y => x <=? y
  | NFloat x, NFloat y => (x <=? y)%float
  | _, _ => false
  end.

(** [q] doubled [j] times, the exponent of the least digit of a binary64
    number whose digits and exponent add up to [x], and the binary64 number
    [2.0 ** k] as the standard writes it: 53 digits, the first a one. *)
Definition dbl (j : nat) (q : positive) : positive := Nat.iter j xO q.

Definition fexp64 : Z -> Z := SpecFloat.fexp prec emax.

Definition pow2_sf (k : Z) : spec_float := S754_finite false (dbl 52 1) (k - 52).

(** The status of an answer is one of the not-ready list. *)
Definition not_ready (status_forcelist : list Z) (reply : Reply) : Prop :=
  exists r, reply = Responded r
            /\ Clients.in_forcelist (status_code r) status_forcelist = true.

(** The URL of a run's result artifact, as [_get_dag_run_xcom] builds it. *)
Definition xcom_url (py_str : pyval -> string) (dag_id dag_run_id : pyval)
    (xcom_key : string) : string :=
  Clients.base_url ++ "/dags/" ++ py_str dag_id ++ "/dagRuns/" ++ py_str dag_run_id
  ++ "/taskInstances/" ++ py_str dag_id ++ "/xcomEntries/" ++ xcom_key.

(** What [Destination.__init__] leaves on a destination it accepts. *)
Record constructed (self : pydict) : Prop := mkConstructed {
  c_payload_type :
    exists pt, dict_get self "payload_type" = Some pt
               /\ (pyval_eq_str pt GA4MP.FIREBASE || pyval_eq_str pt GA4MP.GTAG) = true;
  c_non_personalized_ads : exists v, dict_get self "non_personalized_ads" = Some v;
  c_user_properties : exists v, dict_get self "user_properties" = Some v;
  c_debug : exists v, dict_get self "debug" = Some v;
  c_urls :
    exists q, dict_get self "post_url" = Some (VStr (GA4MP._GA_EVENT_POST_URL ++ "?" ++ q))
              /\ dict_get self "validate_url"
                 = Some (VStr (GA4MP._GA_EVENT_VALIDATION_URL ++ "?" ++ q));
  c_log : dict_get self "log" = None
}.

End Spec.
Export Spec.

(** ** Concrete inputs

    Instances of what the model takes as parameters, and the destinations,
    batches and worlds the examples run on. *)

Module Examples.

Definition member_name (e : ErrorNameIDMap) : string :=
  match e with
  | GA4_HOOK_ERROR_VALUE_REQUIRED_CLIENT_ID => "GA4_HOOK_ERROR_VALUE_REQUIRED_CLIENT_ID"
  | GA4_HOOK_ERROR_VALUE_INVALID_USER_ID => "GA4_HOOK_ERROR_VALUE_INVALID_USER_ID"
  | GA4_HOOK_ERROR_VALUE_INVALID_TIMESTAMP_MICROS =>
      "GA4_HOOK_ERROR_VALUE_INVALID_TIMESTAMP_MICROS"
  | GA4_HOOK_ERROR_VALUE_INVALID_USER_PROPERTIES =>
      "GA4_HOOK_ERROR_VALUE_INVALID_USER_PROPERTIES"
  | GA4_HOOK_ERROR_VALUE_INVALID_NON_PERSONALIZED_ADS =>
      "GA4_HOOK_ERROR_VALUE_INVALID_NON_PERSONALIZED_ADS"
  | GA4_HOOK_ERROR_VALUE_INVALID_EVENTS => "GA4_HOOK_ERROR_VALUE_INVALID_EVENTS"
  | GA4_HOOK_ERROR_VALUE_INVALID_EVENTS_PARAMS => "GA4_HOOK_ERROR_VALUE_INVALID_EVENTS_PARAMS"
  | GA4_HOOK_ERROR_VALUE_INVALID_EVENTS_PARAMS_ITEMS =>
      "GA4_HOOK_ERROR_VALUE_INVALID_EVENTS_PARAMS_ITEMS"
  | GA4_HOOK_ERROR_INVALID_VALUES => "GA4_HOOK_ERROR_INVALID_VALUES"
  | RETRIABLE_GA4_HOOK_ERROR_HTTP_ERROR => "RETRIABLE_GA4_HOOK_ERROR_HTTP_ERROR"
  | NON_RETRIABLE_ERROR_EVENT_NOT_SENT => "NON_RETRIABLE_ERROR_EVENT_NOT_SENT"
  | RETRIABLE_GA_HOOK_ERROR_HTTP_ERROR => "RETRIABLE_GA_HOOK_ERROR_HTTP_ERROR"
  end.

(** [str] on the values the examples print: [None], booleans, integers,
    strings and members of the enumeration.  The text of a container or of
    a logger, which no example depends on, is abridged. *)
Definition py_str (v : pyval) : string :=
  match v with
  | VNone => "None"
  | VBool true => "True"
  | VBool false => "False"
  | VInt z => NilZero.string_of_int (Z.to_int z)
  | VStr s => s
  | VList _ => "[...]"
  | VDict _ => "{...}"
  | VErrorId e => "ErrorNameIDMap." ++ member_name e
  | VLogger _ => "<Logger>"
  end.

(** Identifiers for the members, standing for the ones of [errors.py], and
    the [error_num] of an exception raised without one. *)
Definition error_value (e : ErrorNameIDMap) : pyval :=
  match e with
  | GA4_HOOK_ERROR_VALUE_REQUIRED_CLIENT_ID => VInt 1
  | GA4_HOOK_ERROR_VALUE_INVALID_USER_ID => VInt 2
  | GA4_HOOK_ERROR_VALUE_INVALID_TIMESTAMP_MICROS => VInt 3
  | GA4_HOOK_ERROR_VALUE_INVALID_USER_PROPERTIES => VInt 4
  | GA4_HOOK_ERROR_VALUE_INVALID_NON_PERSONALIZED_ADS => VInt 5
  | GA4_HOOK_ERROR_VALUE_INVALID_EVENTS => VInt 6
  | GA4_HOOK_ERROR_VALUE_INVALID_EVENTS_PARAMS => VInt 7
  | GA4_HOOK_ERROR_VALUE_INVALID_EVENTS_PARAMS_ITEMS => VInt 8
  | GA4_HOOK_ERROR_INVALID_VALUES => VInt 9
  | RETRIABLE_GA4_HOOK_ERROR_HTTP_ERROR => VInt 10
  | NON_RETRIABLE_ERROR_EVENT_NOT_SENT => VInt 11
  | RETRIABLE_GA_HOOK_ERROR_HTTP_ERROR => VInt 12
  end.

Definition default_error_num : pyval := VInt 0.

(** A world with an empty past that answers with [net] and draws [jitter]. *)
Definition world_of (net : list Exchange -> Request -> Reply) (jitter : nat -> float)
  : World :=
  mkWorld net [] [] jitter 0 [].

Definition no_jitter : nat -> float := fun _ => 0%float.

Definition is_sandbox_url (url : string) : bool :=
  String.prefix GA4MP._GA_EVENT_VALIDATION_URL url.

Definition no_messages : pyval := VDict [("validationMessages", VList [])].

Definition one_message (field_path description : string) : pyval :=
  VDict [("validationMessages",
          VList [VDict [("fieldPath", VStr field_path);
                        ("description", VStr description);
                        ("validationCode", VStr "VALUE_INVALID")]])].

(** The sandbox finds nothing to say; production answers with [status]. *)
Definition net_accepting (status : Z) : list Exchange -> Request -> Reply :=
  fun _ req =>
    if is_sandbox_url (req_url req)
    then Responded (mkResponse 200 (Some no_messages))
    else Responded (mkResponse status None).

(** The sandbox objects to an empty [client_id]; production answers 200. *)
Definition has_empty_client_id (req : Request) : bool :=
  match req_json req with
  | Some (VDict payload) => pyval_eq_str (dict_get_none payload "client_id") ""
  | _ => false
  end.

Definition net_checking_client_id : list Exchange -> Request -> Reply :=
  fun _ req =>
    if is_sandbox_url (req_url req)
    then Responded (mkResponse 200
           (Some (if has_empty_client_id req
                  then one_message "client_id" "Measurement requires a client_id."
                  else no_messages)))
    else Responded (mkResponse 200 None).

(** The sandbox answers 200 with a JSON object that lacks the key. *)
Definition net_without_key : list Exchange -> Request -> Reply :=
  fun _ _ => Responded (mkResponse 200 (Some (VDict []))).

Definition config_gtag : pydict :=
  [("payload_type", VStr "gtag"); ("api_secret", VStr "s3cret");
   ("measurement_id", VStr "G-12345")].

Definition config_gtag_debug : pydict :=
  [("payload_type", VStr "gtag"); ("api_secret", VStr "s3cret");
   ("measurement_id", VStr "G-12345"); ("debug", VBool true)].

Definition constructed_or_empty (r : result pydict * World) : pydict :=
  match fst r with
  | Ok self => self
  | Raise _ => []
  end.

(** [Destination(config_gtag)] and [Destination(config_gtag_debug)] *)
Definition destination_gtag : pydict :=
  Eval vm_compute in
    constructed_or_empty (GA4MP.__init__ py_str config_gtag (world_of (net_accepting 200) no_jitter)).

Definition destination_gtag_debug : pydict :=
  Eval vm_compute in
    constructed_or_empty
      (GA4MP.__init__ py_str config_gtag_debug (world_of (net_accepting 200) no_jitter)).

Definition event (client_id : string) : pydict :=
  [("client_id", VStr client_id); ("user_id", VStr "u1"); ("event_name", VStr "purchase");
   ("engagement_time_msec", VInt 100); ("session_id", VStr "42")].

Definition run_send_data (self : pydict) (events : list pydict) (dry : bool) (w : World) :=
  GA4MP.send_data py_str error_value default_error_num self events dry w.

(** *** The Airflow client *)

(** [ast.literal_eval] on the strings the examples hold: the empty dict, the
    dict a run leaves as its result, and the text of a dataclass instance,
    which is a call and no literal (a [ValueError]).  On any other string
    this instance raises; the general statements hold for every
    [literal_eval]. *)
Definition result_literal : string :=
  "{'successful_hits': 3, 'failed_hits': 1, 'error_messages': ['e'], 'dry_run': False}".

Definition result_repr : string :=
  "RunResult(successful_hits=3, failed_hits=1, error_messages=['e'], dry_run=False)".

Definition literal_eval (s : string) : result pyval :=
  if (s =? "{}")%string then Ok (VDict [])
  else if (s =? result_literal)%string then
    Ok (VDict [("successful_hits", VInt 3); ("failed_hits", VInt 1);
               ("error_messages", VList [VStr "e"]); ("dry_run", VBool false)])
  else Raise ValueError.

Definition activations : list (string * Clients.Activation) :=
  [("ga4_dag",
    Clients.mkActivation "nightly"
      [("$ref", VStr "#/sources/warehouse")]
      [("$ref", VStr "#/destinations/ga4")]
      (VStr "@daily"))].

Definition one_run : pyval :=
  VDict [("dag_id", VStr "ga4_dag"); ("dag_run_id", VStr "manual_1");
         ("state", VStr "success"); ("end_date", VStr "2023-05-01T00:00:00Z");
         ("run_type", VStr "manual")].

Definition run_list : pyval :=
  VDict [("dag_runs", VList [one_run]); ("total_entries", VInt 1)].

(** Airflow answers the run list with one run, and the request for its
    result with [artifact]. *)
Definition net_airflow (artifact : pyval) : list Exchange -> Request -> Reply :=
  fun _ req =>
    match req_method req with
    | POST => Responded (mkResponse 200 (Some run_list))
    | GET => Responded (mkResponse 200 (Some artifact))
    end.

Definition artifact (value : pyval) : pyval := VDict [("value", value)].

Definition run_list_dag_runs (w : World) :=
  Clients.list_dag_runs py_str literal_eval activations 0 50 w.

(** The server of scenario D: 404 for the first three requests, then 200. *)
Definition net_not_ready_thrice : list Exchange -> Request -> Reply :=
  fun h _ =>
    if (List.length h <? 3)%nat
    then Responded (mkResponse 404 None)
    else Responded (mkResponse 200 (Some (VDict [("value", VStr "{}")]))).

End Examples.

(** ** Vocabulary for the rest of the code *)

Module SpecMore.

(** The message of the configuration error [Destination.__init__] raises
    for [config], [None] for a configuration it accepts. *)
Definition config_error (py_str : pyval -> string) (config : pydict) : option string :=
  let payload_type := dict_get_none config "payload_type" in
  if negb (truthy (dict_get_none config "api_secret")) then
    Some ("Missing API secret in config: " ++ py_str (VDict config))
  else if negb (pyval_eq_str payload_type GA4MP.FIREBASE
                || pyval_eq_str payload_type GA4MP.GTAG) then
    Some ("Unsupport payload_type: " ++ py_str payload_type
          ++ ". Supported payload_type is gtag or firebase.")
  else if pyval_eq_str payload_type GA4MP.FIREBASE
          && negb (truthy (dict_get_none config "firebase_app_id")) then
    Some ("Wrong payload_type or missing firebase_app_id. Please make sure "
          ++ "firebase_app_id is set when payload_type is firebase.")
  else if pyval_eq_str payload_type GA4MP.GTAG
          && negb (truthy (dict_get_none config "measurement_id")) then
    Some ("Wrong payload_type or missing measurement_id. Please make sure "
          ++ "measurement_id is set when payload_type is gtag.")
  else None.

(** The query string both URLs of a destination end with. *)
Definition query_of (py_str : pyval -> string) (config : pydict) : string :=
  if pyval_eq_str (dict_get_none config "payload_type") GA4MP.GTAG
  then "api_secret=" ++ py_str (dict_get_none config "api_secret")
       ++ "&measurement_id=" ++ py_str (dict_get_none config "measurement_id")
  else "api_secret=" ++ py_str (dict_get_none config "api_secret")
       ++ "&firebase_app_id=" ++ py_str (dict_get_none config "firebase_app_id").

(** The identity field of the payloads of a destination built from
    [config], and the other scheme's field. *)
Definition identity_field (config : pydict) : string :=
  if pyval_eq_str (dict_get_none config "payload_type") GA4MP.FIREBASE
  then "app_instance_id" else "client_id".

Definition other_identity_field (config : pydict) : string :=
  if pyval_eq_str (dict_get_none config "payload_type") GA4MP.FIREBASE
  then "client_id" else "app_instance_id".

(** The two lists of the validation stage, read off the payloads and the
    answers of the sandbox, for the events from index [i] on. *)
Fixpoint verdicts (error_value : ErrorNameIDMap -> pyval) (i : nat)
    (payloads : list pydict) (replies : list Reply)
  : list (nat * pydict) * list (nat * pyval) :=
  match payloads, replies with
  | payload :: payloads', reply :: replies' =>
      let rest := verdicts error_value (S i) payloads' replies' in
      match validator_spec reply with
      | Some Valid => ((i, payload) :: fst rest, snd rest)
      | Some (Invalid code) =>
          (fst rest, (i, error_num_for error_value reply code) :: snd rest)
      | None => rest
      end
  | _, _ => ([], [])
  end.

(** The entries the send stage adds, read off the answers of production. *)
Fixpoint send_verdicts (valid : list (nat * pydict)) (replies : list Reply)
  : list (nat * pyval) :=
  match valid, replies with
  | valid_event :: valid', reply :: replies' =>
      if reply_send_failed reply
      then (fst valid_event, VErrorId RETRIABLE_GA_HOOK_ERROR_HTTP_ERROR)
             :: send_verdicts valid' replies'
      else send_verdicts valid' replies'
  | _, _ => []
  end.

(** The payloads the sandbox found valid, in order. *)
Definition validated (payloads : list pydict) (replies : list Reply) : list pydict :=
  map fst (filter (fun pr => reply_valid (snd pr)) (combine payloads replies)).

(** The payload [Destination.validate] probes the sandbox with. *)
Definition validation_probe (config : pydict) (timestamp_micros : Z) : pydict :=
  [("timestamp_micros", VInt timestamp_micros);
   ("non_personalized_ads", VBool false);
   ("events", VList []);
   ("validationBehavior", VStr "ENFORCE_RECOMMENDATIONS");
   if pyval_eq_str (dict_get_none config "payload_type") GA4MP.GTAG
   then ("client_id", VStr "validation_client_id")
   else ("app_instance_id", VStr "cccccccccccccccccccccccccccccccc")].

(** [v or "Missing"] *)
Definition or_missing (v : pyval) : pyval := py_or v (VStr "Missing").

(** The request [list_dag_runs] opens with. *)
Definition run_list_request (activation_by_dag_id : list (string * Clients.Activation))
    (offset limit : Z) : Request :=
  mkRequest POST (Clients.base_url ++ "/dags/~/dagRuns/list")
    (Some (VDict [("dag_ids", VList (map (fun kv => VStr (fst kv)) activation_by_dag_id));
                  ("order_by", VStr "-execution_date");
                  ("page_offset", VInt offset);
                  ("page_limit", VInt limit)])).

(** The runs of a run list as the loop of [list_dag_runs] goes through
    them, and the request for the result of one of them. *)
Definition listed_runs (body : pydict) : list pyval :=
  match dict_get_default body "dag_runs" VNone with
  | VList l => l
  | VDict d => map (fun kv => VStr (fst kv)) d
  | VStr s => map (fun c => VStr (String c EmptyString)) (list_ascii_of_string s)
  | _ => []
  end.

Definition run_request (py_str : pyval -> string) (run : pyval) : option Request :=
  match run with
  | VDict fields =>
      match dict_get fields "dag_id", dict_get fields "dag_run_id" with
      | Some dag_id, Some dag_run_id =>
          Some (get_of (xcom_url py_str dag_id dag_run_id "run_result"))
      | _, _ => None
      end
  | _ => None
  end.

(** The request [_validate_target] opens with: the run of the validation
    DAG, which carries the target under [conf]. *)
Definition validation_trigger (py_lower : string -> string)
    (now_date target_class target_name : string) (target_config : pyval) : Request :=
  mkRequest POST
    (Clients.base_url ++ "/dags/" ++ ("validate_" ++ py_lower target_class) ++ "/dagRuns")
    (Some (VDict [("logical_date", VStr now_date);
                  ("conf", VDict [("target_name", VStr target_name);
                                  ("target_config", target_config)])])).

(** Where [_validate_target] looks for the verdict of the run. *)
Definition validation_result_url (py_str : pyval -> string) (py_lower : string -> string)
    (target_class : string) (dag_run_id : pyval) : string :=
  Clients.base_url ++ "/dags/" ++ ("validate_" ++ py_lower target_class) ++ "/dagRuns/"
    ++ py_str dag_run_id ++ "/taskInstances/" ++ ("validate_" ++ py_lower target_class)
    ++ "/xcomEntries/return_value".

(** The keyword arguments of the verdict for a target that gave no result. *)
Definition unavailable (target_name : string) : pydict :=
  [("is_valid", VBool false);
   ("messages", VStr ("Target `" ++ target_name ++ "` is unavailable."))].

(** The waits [_validate_target] may make, with the defaults of
    [_get_request]: 1, 2 and 4 seconds, each plus the next draw. *)
Definition default_waits (w : World) : list float :=
  [(1 + uniform w (draws w + 0)%nat)%float;
   (2 + uniform w (draws w + 1)%nat)%float;
   (4 + uniform w (draws w + 2)%nat)%float].

End SpecMore.
Export SpecMore.

(** ** Instances for the examples of the rest of the code *)

Module MoreExamples.
Import Examples.

(** [str.lower] on the letters of ASCII. *)
Definition lower_ascii (c : ascii) : ascii :=
  let n := nat_of_ascii c in
  if ((65 <=? n) && (n <=? 90))%nat then ascii_of_nat (n + 32) else c.

Fixpoint py_lower (s : string) : string :=
  match s with
  | EmptyString => EmptyString
  | String c s' => String (lower_ascii c) (py_lower s')
  end.

(** The constructor of [ValidationResult] on keyword arguments: it wants
    [is_valid] and [messages] and nothing else. *)
Definition ValidationResult_new (kwargs : pydict) : result ValidationResult :=
  match dict_get kwargs "is_valid", dict_get kwargs "messages" with
  | Some (VBool b), Some m =>
      if forallb (fun kv => (fst kv =? "is_valid") || (fst kv =? "messages"))%string kwargs
      then Ok (mkValidationResult b m)
      else Raise TypeError
  | _, _ => Raise TypeError
  end.

(** The verdict a validation run leaves, and [ast.literal_eval] knowing it. *)
Definition verdict_literal : string := "{'is_valid': True, 'messages': []}".

Definition literal_eval_verdict (s : string) : result pyval :=
  if (s =? verdict_literal)%string
  then Ok (VDict [("is_valid", VBool true); ("messages", VList [])])
  else literal_eval s.

(** Airflow starts the validation run and has its verdict ready at the
    fourth request of the whole exchange. *)
Definition started_run : Response :=
  mkResponse 200 (Some (VDict [("dag_run_id", VStr "manual_7")])).

Definition net_validation : list Exchange -> Request -> Reply :=
  fun h req =>
    match req_method req with
    | POST => Responded started_run
    | GET =>
        if (List.length h <? 3)%nat
        then Responded (mkResponse 404 None)
        else Responded (mkResponse 200 (Some (VDict [("value", VStr verdict_literal)])))
    end.

(** Airflow cannot be reached. *)
Definition net_down : list Exchange -> Request -> Reply :=
  fun _ _ => ConnectionFailed.

Definition nightly : Clients.Activation :=
  Clients.mkActivation "nightly"
    [("$ref", VStr "#/sources/warehouse")]
    [("$ref", VStr "#/destinations/ga4")]
    (VStr "@daily").

Definition row : list pyval :=
  [VStr "c1"; VStr "u1"; VStr "purchase"; VInt 100; VStr "42"].

End MoreExamples.

(** * Properties *)

Unset Implicit Arguments.

(** ** The effect monad *)

Module EffectFacts.

Local Open Scope py_scope.

Lemma bind_ok {A B} (c : M A) (k : A -> M B) w a w' :
  c w = (Ok a, w') -> bind c k w = k a w'.
Proof. intros H. unfold bind. now rewrite H. Qed.

Lemma bind_raise {A B} (c : M A) (k : A -> M B) w e w' :
  c w = (Raise e, w') -> bind c k w = (Raise e, w').
Proof. intros H. unfold bind. now rewrite H. Qed.

Lemma bind_assoc {A B C} (c : M A) (f : A -> M B) (g : B -> M C) w :
  bind c (fun a => bind (f a) g) w = bind (bind c f) g w.
Proof. unfold bind. destruct (c w) as [[a|e] w1]; reflexivity. Qed.

Lemma getattr_some self name v w :
  dict_get self name = Some v -> getattr self name w = (Ok v, w).
Proof. intros H. unfold getattr. now rewrite H. Qed.

Lemma getattr_none self name w :
  dict_get self name = None -> getattr self name w = (Raise AttributeError, w).
Proof. intros H. unfold getattr. now rewrite H. Qed.

Lemma extends_on_refl P w : extends_on P w w.
Proof.
  repeat split. exists []. split; [now rewrite app_nil_r | constructor].
Qed.


Lemma extends_on_weaken (P Q : Request -> Prop) w w' :
  (forall r, P r -> Q r) -> extends_on P w w' -> extends_on Q w w'.
Proof.
  intros PQ (N & U & n & H & F). repeat split; trivial.
  exists n. split; trivial. eapply Forall_impl; [|exact F]. intros ex. apply PQ.
Qed.

Section OnlyRequests.

Variable P : Request -> Prop.

Lemma only_ret {A} (a : A) : only_requests P (ret a).
Proof. intros w r w' H. injection H as <- <-. apply extends_on_refl. Qed.

Lemma only_raise {A} e : only_requests P (@raise A e).
Proof. intros w r w' H. injection H as <- <-. apply extends_on_refl. Qed.

Lemma only_lift {A} (x : result A) : only_requests P (lift x).
Proof. intros w r w' H. injection H as <- <-. apply extends_on_refl. Qed.



Lemma only_emit_log level fmt args : only_requests P (emit_log level fmt args).
Proof.
  intros w r w' H. injection H as <- <-. repeat split.
  exists []. split; [cbn; now rewrite app_nil_r | constructor].
Qed.

Lemma only_random_uniform : only_requests P random_uniform.
Proof.
  intros w r w' H. injection H as <- <-. repeat split.
  exists []. split; [cbn; now rewrite app_nil_r | constructor].
Qed.

Lemma only_time_sleep d : only_requests P (time_sleep d).
Proof.
  intros w r w' H. unfold time_sleep in H.
  destruct (sleep_error d); injection H as <- <-; [apply extends_on_refl|].
  repeat split. exists []. split; [cbn; now rewrite app_nil_r | constructor].
Qed.


Lemma only_getattr self name : only_requests P (getattr self name).
Proof. unfold getattr. destruct (dict_get self name); [apply only_ret | apply only_raise]. Qed.

Lemma only_getitem_str v k : only_requests P (getitem_str v k).
Proof.
  unfold getitem_str. destruct v; try apply only_raise.
  destruct (dict_get d k); [apply only_ret | apply only_raise].
Qed.

Lemma only_getitem_0 v : only_requests P (getitem_0 v).
Proof.
  unfold getitem_0. destruct v as [| | |s|l| | |]; try apply only_raise.
  - destruct s; [apply only_raise | apply only_ret].
  - destruct l; [apply only_raise | apply only_ret].
Qed.

Lemma only_method_get v k d : only_requests P (method_get v k d).
Proof. unfold method_get. destruct v; try apply only_raise. apply only_ret. Qed.

Lemma only_method_info v msg : only_requests P (method_info v msg).
Proof. unfold method_info. destruct v; try apply only_raise. apply only_emit_log. Qed.

Lemma only_py_contains s v : only_requests P (py_contains s v).
Proof. unfold py_contains. destruct v; try apply only_raise; apply only_ret. Qed.

Lemma only_response_json r : only_requests P (response_json r).
Proof. unfold response_json. destruct (json_body r); [apply only_ret | apply only_raise]. Qed.

Lemma only_url_string v : only_requests P (url_string v).
Proof. unfold url_string. destruct v; try apply only_raise. apply only_ret. Qed.

End OnlyRequests.



Create HintDb only.
#[export] Hint Resolve only_ret only_raise only_lift only_emit_log only_random_uniform
  only_time_sleep only_getattr only_getitem_str only_getitem_0 only_method_get
  only_method_info only_py_contains only_response_json only_url_string : only.


End EffectFacts.
Import EffectFacts.

(** ** Strings *)

Module StringFacts.

Lemma prefix_iff p : forall s, String.prefix p s = true <-> exists r, s = p ++ r.
Proof.
  induction p as [|c p IH]; intros s.
  - split; [intros _; now exists s | now destruct s].
  - destruct s as [|c' s]; cbn [String.prefix];
      [split; [discriminate | intros (r & H); discriminate H]|].
    destruct (Ascii.ascii_dec c c') as [->|N].
    + rewrite IH. split; intros (r & H); exists r.
      * cbn. now rewrite H.
      * cbn in H. now injection H.
    + split; [discriminate | intros (r & H); cbn in H; injection H; congruence].
Qed.

Lemma str_contains_iff n : forall h,
  str_contains n h = true <-> exists l r, h = l ++ n ++ r.
Proof.
  induction h as [|c h IH]; cbn [str_contains]; rewrite orb_true_iff.
  - split.
    + intros [H|H]; [|discriminate]. apply prefix_iff in H as (r & H).
      exists "", r. exact H.
    + intros (l & r & H). left. apply prefix_iff. exists r.
      destruct l; [exact H | discriminate H].
  - split.
    + intros [H|H].
      * apply prefix_iff in H as (r & H). exists "", r. exact H.
      * apply IH in H as (l & r & H). exists (String c l), r. cbn. now rewrite H.
    + intros (l & r & H). destruct l as [|c' l].
      * left. apply prefix_iff. exists r. exact H.
      * right. apply IH. exists l, r. cbn in H. now injection H.
Qed.

Lemma entry_matchesb_iff field_path description name :
  entry_matchesb field_path description name = true
  <-> entry_matches field_path description name.
Proof.
  unfold entry_matchesb, entry_matches.
  now rewrite orb_true_iff, String.eqb_eq, str_contains_iff.
Qed.

Lemma entry_matchesb_false field_path description name :
  entry_matchesb field_path description name = false
  <-> ~ entry_matches field_path description name.
Proof.
  rewrite <- entry_matchesb_iff. now destruct (entry_matchesb _ _ _).
Qed.

End StringFacts.
Import StringFacts.

(** ** Lists of indices *)

Module ListFacts.

Lemma StronglySorted_seq i n : StronglySorted lt (seq i n).
Proof.
  revert i. induction n as [|n IH]; intros i; cbn [seq]; constructor.
  - apply IH.
  - apply Forall_forall. intros k Hk. apply in_seq in Hk. lia.
Qed.

Lemma StronglySorted_filter {A} (R : A -> A -> Prop) (p : A -> bool) l :
  StronglySorted R l -> StronglySorted R (filter p l).
Proof.
  induction 1 as [|a l Hl IH Ha]; cbn [filter]; [constructor|].
  destruct (p a); [|exact IH]. constructor; [exact IH|].
  apply Forall_forall. intros x Hx. apply filter_In in Hx as [Hx _].
  rewrite Forall_forall in Ha. now apply Ha.
Qed.

(** The two lists a predicate splits [0 .. n-1] into. *)
Lemma filter_seq_partition (p : nat -> bool) n vs ws :
  vs = filter p (seq 0 n) ->
  ws = filter (fun k => negb (p k)) (seq 0 n) ->
  (List.length vs + List.length ws = n)%nat
  /\ (forall k, (k < n)%nat ->
                (In k vs /\ ~ In k ws) \/ (~ In k vs /\ In k ws))
  /\ (forall k, In k vs \/ In k ws -> (k < n)%nat)
  /\ StronglySorted lt vs /\ StronglySorted lt ws.
Proof.
  intros -> ->. repeat split.
  - rewrite filter_length. apply length_seq.
  - intros k Hk. assert (Hin : In k (seq 0 n)) by (apply in_seq; lia).
    rewrite !filter_In. destruct (p k); cbn [negb]; [left | right]; intuition congruence.
  - intros k. rewrite !filter_In, in_seq. intuition lia.
  - apply StronglySorted_filter, StronglySorted_seq.
  - apply StronglySorted_filter, StronglySorted_seq.
Qed.

End ListFacts.
Import ListFacts.

Module GA4MPFacts.
Import GA4MP.
Local Open Scope py_scope.

Section Destination.

Variable py_str : pyval -> string.
Variable error_value : ErrorNameIDMap -> pyval.
Variable default_error_num : pyval.

(** *** The classifier *)

Lemma find_first {A} (f : A -> bool) (t : list A) e :
  find f t = Some e ->
  exists pre post, t = (pre ++ e :: post)%list /\ f e = true
                   /\ Forall (fun x => f x = false) pre.
Proof.
  induction t as [|x t IH]; cbn [find]; [discriminate|].
  destruct (f x) eqn:E.
  - intros [= <-]. exists [], t. repeat split; trivial.
  - intros H. destruct (IH H) as (pre & post & -> & He & Hpre).
    exists (x :: pre), post. repeat split; trivial. now constructor.
Qed.

Lemma find_none_all {A} (f : A -> bool) (t : list A) :
  find f t = None -> Forall (fun x => f x = false) t.
Proof.
  induction t as [|x t IH]; cbn [find]; [constructor|].
  destruct (f x) eqn:E; [discriminate|]. intros H. constructor; auto.
Qed.

Lemma find_after {A} (f : A -> bool) pre e post :
  Forall (fun x => f x = false) pre -> f e = true ->
  find f (pre ++ e :: post) = Some e.
Proof.
  induction 1 as [|x pre Hx _ IH]; intros He; cbn [find app].
  - now rewrite He.
  - rewrite Hx. now apply IH.
Qed.

Lemma find_all_none {A} (f : A -> bool) (t : list A) :
  Forall (fun x => f x = false) t -> find f t = None.
Proof.
  induction 1 as [|x t Hx _ IH]; cbn [find]; [reflexivity|]. now rewrite Hx.
Qed.

Lemma classify_spec_classified field_path description :
  classified field_path description (classify_spec field_path description).
Proof.
  unfold classified, classify_spec.
  destruct (find _ _ERROR_TYPES) as [[name code]|] eqn:E.
  - left. apply find_first in E as (pre & post & Ht & He & Hpre).
    exists pre, name, post. repeat split; trivial.
    + now apply entry_matchesb_iff.
    + eapply Forall_impl; [|exact Hpre]. intros x. apply entry_matchesb_false.
  - right. split; [|reflexivity]. apply find_none_all in E.
    eapply Forall_impl; [|exact E]. intros x. apply entry_matchesb_false.
Qed.

Lemma classified_unique field_path description code :
  classified field_path description code -> code = classify_spec field_path description.
Proof.
  unfold classified, classify_spec.
  intros [(pre & name & post & -> & Hm & Hpre) | (Hall & ->)].
  - rewrite (@find_after _ (fun entry => entry_matchesb field_path description (fst entry))
               pre (name, code) post); [reflexivity| |].
    + eapply Forall_impl; [|exact Hpre]. intros x. apply entry_matchesb_false.
    + now apply entry_matchesb_iff.
  - rewrite find_all_none; [reflexivity|].
    eapply Forall_impl; [|exact Hall]. intros x. apply entry_matchesb_false.
Qed.

(** The loop over the keys of the table, run on two strings. *)
Lemma classify_loop_run field_path description w : forall names,
  classify_loop names (VStr field_path) (VStr description) w =
  match find (entry_matchesb field_path description) names with
  | Some property_name =>
      (match error_types_get _ERROR_TYPES property_name with
       | Some code => Raise (DataOutConnectorValueError None (Some (VErrorId code)))
       | None => Raise KeyError
       end, w)
  | None => (Ok tt, w)
  end.
Proof.
  induction names as [|n names IH]; cbn [classify_loop find]; [reflexivity|].
  unfold entry_matchesb at 1. unfold bind. cbn [pyval_eq_str py_contains].
  destruct (field_path =? n)%string; cbn [orb ret].
  - now destruct (error_types_get _ERROR_TYPES n).
  - destruct (str_contains n description).
    + now destruct (error_types_get _ERROR_TYPES n).
    + exact IH.
Qed.

(** Looking the matching key up in the table gives the code of the first
    entry that matches. *)
Lemma classify_table field_path description :
  match find (entry_matchesb field_path description) (map fst _ERROR_TYPES) with
  | Some property_name => error_types_get _ERROR_TYPES property_name
  | None => Some GA4_HOOK_ERROR_INVALID_VALUES
  end = Some (classify_spec field_path description).
Proof.
  unfold classify_spec, _ERROR_TYPES. cbn [map fst find snd].
  repeat (match goal with
          | |- context [if ?b then _ else _] => destruct b; try reflexivity
          end).
Qed.

(** *** The validator *)

Lemma same_but_log_refl w : same_but_log w w.
Proof. now repeat split. Qed.

Lemma same_but_log_record w r : same_but_log w (record_log w r).
Proof. now repeat split. Qed.

(** [_parse_validate_result] on a 200 response that carries a diagnostic. *)
Lemma parse_diagnostic_run event r w d m rest field_path description :
  status_code r = 200 ->
  json_body r = Some (VDict d) ->
  dict_get d "validationMessages" = Some (VList (VDict m :: rest)) ->
  dict_get_default m "fieldPath" (VStr "") = VStr field_path ->
  dict_get_default m "description" (VStr "") = VStr description ->
  _parse_validate_result error_value event r w =
  (Raise (DataOutConnectorValueError None
            (Some (VErrorId (classify_spec field_path description)))),
   match find (entry_matchesb field_path description) (map fst _ERROR_TYPES) with
   | Some _ => w
   | None => record_log w (unmatched_record field_path description)
   end).
Proof.
  intros Hs Hj Hd Hf Hdesc. unfold _parse_validate_result.
  rewrite Hs. cbn [Z.geb Z.compare Z.eqb Pos.compare Pos.compare_cont Pos.eqb negb].
  unfold response_json. rewrite Hj.
  unfold bind at 1. unfold try_except, ret.
  unfold bind at 1. unfold getitem_str at 1. rewrite Hd. unfold ret.
  cbn [truthy negb].
  unfold bind at 1. unfold getitem_str at 1. rewrite Hd. unfold ret.
  unfold bind at 1. cbn [getitem_0]. unfold ret.
  unfold bind at 1. cbn [method_get]. unfold ret. rewrite Hf.
  unfold bind at 1. rewrite Hdesc.
  unfold bind at 1. rewrite classify_loop_run.
  pose proof (classify_table field_path description) as T.
  destruct (find _ (map fst _ERROR_TYPES)) as [n|].
  - rewrite T. reflexivity.
  - injection T as <-. reflexivity.
Qed.

Lemma send_validate_run self payload url w :
  dict_get self "validate_url" = Some (VStr url) ->
  _send_validate_request self payload w =
  (match net w (history w) (validate_request url payload) with
   | ConnectionFailed =>
       Raise (DataOutConnectorValueError None
                (Some (VErrorId RETRIABLE_GA4_HOOK_ERROR_HTTP_ERROR)))
   | Responded r => Ok r
   end,
   record_exchange w (validate_request url payload)).
Proof.
  intros Hu. unfold _send_validate_request, try_except, bind, getattr.
  rewrite Hu. unfold ret, requests_post, url_string, bind, ret, send_request.
  fold (validate_request url payload). unfold record_exchange.
  destruct (net w (history w) (validate_request url payload)); reflexivity.
Qed.

(** [_parse_validate_result] on a response of a shape the interface fixes. *)
Lemma parse_run event r w outcome :
  validator_spec (Responded r) = Some outcome ->
  exists w', same_but_log w w' /\
    match outcome with
    | Valid => _parse_validate_result error_value event r w = (Ok tt, w')
    | Invalid code =>
        _parse_validate_result error_value event r w
        = (Raise (DataOutConnectorValueError None
                    (Some (error_num_for error_value (Responded r) code))), w')
    end.
Proof.
  cbn [validator_spec error_num_for]. intros H.
  destruct (status_code r >=? 500) eqn:E500.
  { injection H as <-. exists w. split; [apply same_but_log_refl|].
    unfold _parse_validate_result. rewrite E500.
    destruct (Z.eqb_spec (status_code r) 200) as [E|_]; [|reflexivity].
    rewrite E in E500. discriminate E500. }
  destruct (status_code r =? 200) eqn:E200; cbn [negb] in H.
  2:{ injection H as <-. exists w. split; [apply same_but_log_refl|].
      unfold _parse_validate_result. now rewrite E500, E200. }
  apply Z.eqb_eq in E200.
  destruct (json_body r) as [body|] eqn:Ej.
  2:{ injection H as <-. exists w. split; [apply same_but_log_refl|].
      unfold _parse_validate_result. rewrite E200. cbn.
      unfold bind, try_except, response_json. now rewrite Ej. }
  destruct body as [| | | | |d| |]; try discriminate H.
  destruct (dict_get d "validationMessages") as [vm|] eqn:Ed; [|discriminate H].
  destruct vm as [| | | |msgs| | |]; try discriminate H.
  destruct msgs as [|m rest].
  { injection H as <-. exists w. split; [apply same_but_log_refl|].
    unfold _parse_validate_result. rewrite E200. cbn.
    unfold bind, try_except, response_json. rewrite Ej. unfold ret.
    unfold getitem_str. now rewrite Ed. }
  destruct m as [| | | | |m| |]; try discriminate H.
  destruct (dict_get_default m "fieldPath" (VStr "")) as [| | |fp| | | |] eqn:Ef;
    try discriminate H.
  destruct (dict_get_default m "description" (VStr "")) as [| | |desc| | | |] eqn:Edesc;
    try discriminate H.
  injection H as <-.
  eexists. split; [|eapply parse_diagnostic_run; eassumption].
  destruct (find _ _); [apply same_but_log_refl | apply same_but_log_record].
Qed.

Lemma same_but_log_trans w1 w2 w3 :
  same_but_log w1 w2 -> same_but_log w2 w3 -> same_but_log w1 w3.
Proof. unfold same_but_log. intuition congruence. Qed.

(** The validator: [_send_validate_request] followed by
    [_parse_validate_result], as in the [try] block of
    [_get_valid_and_invalid_events]. *)
Lemma validator_run self payload event url w outcome :
  dict_get self "validate_url" = Some (VStr url) ->
  validator_spec (net w (history w) (validate_request url payload)) = Some outcome ->
  exists w',
    same_but_log (record_exchange w (validate_request url payload)) w' /\
    bind (_send_validate_request self payload)
         (_parse_validate_result error_value event) w
    = (match outcome with
       | Valid => Ok tt
       | Invalid code =>
           Raise (DataOutConnectorValueError None
                    (Some (error_num_for error_value
                             (net w (history w) (validate_request url payload)) code)))
       end, w').
Proof.
  intros Hu H. unfold bind. erewrite send_validate_run by exact Hu.
  destruct (net w (history w) (validate_request url payload)) as [|r].
  - injection H as <-. eexists. split; [apply same_but_log_refl | reflexivity].
  - eapply parse_run in H. destruct H as (w' & Hs & H). exists w'. split; [exact Hs|].
    destruct outcome; exact H.
Qed.

(** *** The validation stage *)

Lemma build_payload_ok self event :
  constructed self ->
  exists payload, forall w, build_payload py_str self event w = (Ok payload, w).
Proof.
  intros [(pt & Hpt & _) (npa & Hnpa) (up & Hup) _ _ _].
  unfold build_payload, bind, getattr. rewrite Hpt, Hnpa, Hup. unfold ret.
  destruct (pyval_eq_str pt FIREBASE); [|destruct (pyval_eq_str pt GTAG)];
    destruct (truthy up); eexists; intros w; reflexivity.
Qed.

Lemma count_on_cons_hit url f req reply h :
  req_url req = url -> f reply = true ->
  count_on url f ((req, reply) :: h) = S (count_on url f h).
Proof.
  intros Hu Hf. unfold count_on. cbn [filter fst snd].
  rewrite Hu, String.eqb_refl, Hf. reflexivity.
Qed.

Lemma count_on_cons_miss url f req reply h :
  f reply = false ->
  count_on url f ((req, reply) :: h) = count_on url f h.
Proof.
  intros Hf. unfold count_on. cbn [filter fst snd].
  rewrite Hf, andb_false_r. reflexivity.
Qed.

Lemma filter_seq_above (p q : nat -> bool) i n :
  (forall k, S i <= k -> p k = q k)%nat ->
  filter p (seq (S i) n) = filter q (seq (S i) n).
Proof.
  intros H. apply filter_ext_in. intros k Hk. apply in_seq in Hk. apply H. lia.
Qed.

(** The [try] statement in the loop of [_get_valid_and_invalid_events]. *)
Lemma validate_try_run self url payload event i valid invalid w outcome :
  dict_get self "validate_url" = Some (VStr url) ->
  validator_spec (net w (history w) (validate_request url payload)) = Some outcome ->
  exists w',
    try_except
      (response <- _send_validate_request self payload ;;
       _parse_validate_result error_value event response ;;;
       ret ((valid ++ [(i, payload)])%list, invalid))
      (fun error =>
         match error with
         | DataOutConnectorValueError _ error_num =>
             Some (ret (A := list (nat * pydict) * list (nat * pyval))
                       (valid, (invalid ++ [(i, error_num_of default_error_num error_num)])%list))
         | _ => None
         end) w
    = (Ok match outcome with
          | Valid => ((valid ++ [(i, payload)])%list, invalid)
          | Invalid code =>
              (valid,
               (invalid
                  ++ [(i, error_num_for error_value
                            (net w (history w) (validate_request url payload)) code)])%list)
          end, w')
    /\ same_but_log (record_exchange w (validate_request url payload)) w'.
Proof.
  intros Hu Eo.
  destruct (@validator_run self payload event url w outcome Hu Eo) as (w1 & Hs & Hrun).
  unfold try_except. rewrite bind_assoc. unfold bind at 1. rewrite Hrun.
  exists w1. split; [|exact Hs]. now destruct outcome.
Qed.

Lemma validate_events_run self url :
  constructed self ->
  dict_get self "validate_url" = Some (VStr url) ->
  forall events i valid invalid w,
    well_formed_sandbox url w ->
    exists V I w' new p,
      validate_events py_str error_value default_error_num self i events valid invalid w
      = (Ok ((valid ++ V)%list, (invalid ++ I)%list), w')
      /\ net w' = net w
      /\ history w' = (history w ++ new)%list
      /\ Forall (fun ex => req_url (fst ex) = url) new
      /\ List.length new = List.length events
      /\ List.length V = count_on url reply_valid new
      /\ List.length I = count_on url reply_invalid new
      /\ map fst V = filter p (seq i (List.length events))
      /\ map fst I = filter (fun k => negb (p k)) (seq i (List.length events)).
Proof.
  intros Hc Hu. induction events as [|event rest IH]; intros i valid invalid w Hwf.
  - exists [], [], w, [], (fun _ => true). cbn. rewrite !app_nil_r. repeat split; constructor.
  - cbn [validate_events].
    destruct (build_payload_ok self event Hc) as (payload & Hp).
    unfold bind at 1. rewrite Hp.
    set (req := validate_request url payload).
    pose proof (Hwf (history w) req eq_refl) as Hr. unfold well_formed_reply in Hr.
    destruct (validator_spec (net w (history w) req)) as [outcome|] eqn:Eo;
      [clear Hr | discriminate Hr].
    destruct (@validate_try_run self url payload event i valid invalid w outcome Hu Eo)
      as (w1 & Htry & (N1 & H1 & _)).
    fold req in H1. cbn [record_exchange net history] in N1, H1.
    assert (Hwf1 : well_formed_sandbox url w1).
    { intros h r Hr. rewrite N1. now apply Hwf. }
    unfold bind at 1. rewrite Htry.
    assert (Hh : forall new w',
               history w' = (history w1 ++ new)%list ->
               history w' = (history w ++ (req, net w (history w) req) :: new)%list).
    { intros new w' H. rewrite H, H1, <- app_assoc. reflexivity. }
    destruct outcome as [|code]; cbn [fst snd].
    + destruct (IH (S i) (valid ++ [(i, payload)])%list invalid w1 Hwf1)
        as (V & I & w' & new & p & Hrun & N & H & Fu & Ln & LV & LI & MV & MI).
      rewrite Hrun.
      exists ((i, payload) :: V), I, w', ((req, net w (history w) req) :: new),
             (fun k => (k =? i)%nat || p k).
      rewrite <- app_assoc. cbn [app List.length map fst seq filter].
      rewrite Nat.eqb_refl. cbn [orb negb].
      repeat split; trivial.
      * congruence.
      * now apply Hh.
      * constructor; trivial.
      * now rewrite Ln.
      * rewrite count_on_cons_hit; [now rewrite LV | reflexivity |].
        unfold reply_valid. now rewrite Eo.
      * rewrite count_on_cons_miss; [exact LI|]. unfold reply_invalid. now rewrite Eo.
      * rewrite MV. f_equal. apply filter_seq_above. intros k Hk.
        destruct (Nat.eqb_spec k i); [lia | reflexivity].
      * rewrite MI. apply filter_seq_above. intros k Hk.
        destruct (Nat.eqb_spec k i); [lia | reflexivity].
    + destruct (IH (S i) valid
                  (invalid ++ [(i, error_num_for error_value (net w (history w) req) code)])%list
                  w1 Hwf1)
        as (V & I & w' & new & p & Hrun & N & H & Fu & Ln & LV & LI & MV & MI).
      fold req. rewrite Hrun.
      exists V, ((i, error_num_for error_value (net w (history w) req) code) :: I), w',
             ((req, net w (history w) req) :: new),
             (fun k => negb (k =? i)%nat && p k).
      rewrite <- app_assoc. cbn [app List.length map fst seq filter].
      rewrite Nat.eqb_refl. cbn [andb negb].
      repeat split; trivial.
      * congruence.
      * now apply Hh.
      * constructor; trivial.
      * now rewrite Ln.
      * rewrite count_on_cons_miss; [exact LV|]. unfold reply_valid. now rewrite Eo.
      * rewrite count_on_cons_hit; [now rewrite LI | reflexivity |].
        unfold reply_invalid. now rewrite Eo.
      * rewrite MV. apply filter_seq_above. intros k Hk.
        destruct (Nat.eqb_spec k i); [lia | reflexivity].
      * rewrite MI. f_equal. apply filter_seq_above. intros k Hk.
        destruct (Nat.eqb_spec k i); [lia | reflexivity].
Qed.

(** *** The send stage *)

Lemma send_payload_run self payload url debug w :
  dict_get self "debug" = Some debug -> truthy debug = false ->
  dict_get self "post_url" = Some (VStr url) ->
  _send_payload py_str self payload w =
  (if reply_send_failed (net w (history w) (post_request url payload))
   then Raise send_failure else Ok tt,
   record_exchange w (post_request url payload)).
Proof.
  intros Hd Ht Hu. unfold _send_payload, bind at 1, getattr at 1.
  rewrite Hd. unfold ret at 1. rewrite Ht.
  unfold try_except, bind, getattr. rewrite Hu.
  unfold ret, requests_post, url_string, bind, ret, send_request.
  fold (post_request url payload). unfold record_exchange, reply_send_failed.
  destruct (net w (history w) (post_request url payload)) as [|r]; [reflexivity|].
  destruct ((status_code r <? 200) || (status_code r >=? 300)); reflexivity.
Qed.

Lemma send_payload_debug_no_logger self payload debug w :
  dict_get self "debug" = Some debug -> truthy debug = true ->
  dict_get self "log" = None ->
  _send_payload py_str self payload w = (Raise AttributeError, w).
Proof.
  intros Hd Ht Hl. unfold _send_payload, bind, getattr.
  rewrite Hd. unfold ret. rewrite Ht, Hl. reflexivity.
Qed.

Lemma send_events_run self url debug :
  dict_get self "debug" = Some debug -> truthy debug = false ->
  dict_get self "post_url" = Some (VStr url) ->
  forall valid invalid w,
    exists F w' new,
      send_events py_str default_error_num self valid invalid w
      = (Ok (invalid ++ F)%list, w')
      /\ net w' = net w
      /\ history w' = (history w ++ new)%list
      /\ Forall (fun ex => req_url (fst ex) = url) new
      /\ List.length new = List.length valid
      /\ List.length F = count_on url reply_send_failed new.
Proof.
  intros Hd Ht Hu. induction valid as [|[i payload] rest IH]; intros invalid w.
  - exists [], w, []. cbn. rewrite !app_nil_r. repeat split; constructor.
  - cbn [send_events snd fst]. unfold bind at 1, try_except, bind at 1.
    rewrite (send_payload_run self payload url debug w Hd Ht Hu).
    set (req := post_request url payload).
    set (w1 := record_exchange w req).
    destruct (reply_send_failed (net w (history w) req)) eqn:Ef.
    + cbn [send_failure error_num_of]. unfold ret at 1.
      destruct (IH (invalid ++ [(i, VErrorId RETRIABLE_GA_HOOK_ERROR_HTTP_ERROR)])%list w1)
        as (F & w' & new & Hrun & N & H & Fu & Ln & LF).
      rewrite Hrun.
      exists ((i, VErrorId RETRIABLE_GA_HOOK_ERROR_HTTP_ERROR) :: F), w',
             ((req, net w (history w) req) :: new).
      rewrite <- app_assoc. cbn [app List.length].
      repeat split; trivial.
      * rewrite H. cbn [w1 record_exchange history]. now rewrite <- app_assoc.
      * constructor; trivial.
      * now rewrite Ln.
      * rewrite count_on_cons_hit; [now rewrite LF | reflexivity | exact Ef].
    + unfold ret at 1.
      destruct (IH invalid w1) as (F & w' & new & Hrun & N & H & Fu & Ln & LF).
      rewrite Hrun.
      exists F, w', ((req, net w (history w) req) :: new).
      cbn [app List.length].
      repeat split; trivial.
      * rewrite H. cbn [w1 record_exchange history]. now rewrite <- app_assoc.
      * constructor; trivial.
      * now rewrite Ln.
      * rewrite count_on_cons_miss; [exact LF | exact Ef].
Qed.






Lemma init_constructed config w self w' :
  __init__ py_str config w = (Ok self, w') -> w' = w /\ constructed self.
Proof.
  unfold __init__, _validate_credentials, _build_api_url, bind, getattr, ret, raise.
  set (pt := dict_get_none config "payload_type").
  set (secret := dict_get_none config "api_secret").
  cbn [dict_set dict_get String.eqb Ascii.eqb Bool.eqb].
  intros H.
  repeat (match type of H with
          | context [if ?b then _ else _] => destruct b eqn:?
          end; cbn [dict_set dict_get String.eqb Ascii.eqb Bool.eqb negb orb] in H);
    try discriminate.
  all: injection H as <- <-; split; [reflexivity|].
  all: constructor; cbn [dict_get String.eqb Ascii.eqb Bool.eqb]; eauto.
  all: try (eexists; split; reflexivity).
  all: match goal with
       | E : pyval_eq_str ?p _ = true |- _ =>
           exists p; split; [reflexivity | rewrite E; auto using orb_true_r]
       end.
Qed.

(** *** The whole of [send_data] *)

Lemma init_debug config w self w' :
  __init__ py_str config w = (Ok self, w') ->
  dict_get self "debug" = Some (py_or (dict_get_none config "debug") (VBool false)).
Proof.
  unfold __init__, _validate_credentials, _build_api_url, bind, getattr, ret, raise.
  cbn [dict_set dict_get String.eqb Ascii.eqb Bool.eqb].
  intros H.
  repeat (match type of H with
          | context [if ?b then _ else _] => destruct b eqn:?
          end; cbn [dict_set dict_get String.eqb Ascii.eqb Bool.eqb negb orb] in H);
    try discriminate.
  all: injection H as <- <-; reflexivity.
Qed.

Lemma truthy_py_or_false v : truthy (py_or v (VBool false)) = truthy v.
Proof. unfold py_or. destruct (truthy v) eqn:E; [exact E | reflexivity]. Qed.


Lemma count_on_app url f h1 h2 :
  count_on url f (h1 ++ h2) = (count_on url f h1 + count_on url f h2)%nat.
Proof. unfold count_on. now rewrite filter_app, length_app. Qed.

Lemma count_on_other_url url url' f h :
  Forall (fun ex => req_url (fst ex) = url') h -> url' <> url ->
  count_on url f h = 0%nat.
Proof.
  intros Hall Hne. unfold count_on.
  induction Hall as [|ex h Hex _ IH]; cbn [filter]; [reflexivity|].
  rewrite Hex. destruct (String.eqb_spec url' url) as [E|_]; [contradiction|].
  exact IH.
Qed.

Lemma count_on_all url h :
  Forall (fun ex => req_url (fst ex) = url) h ->
  count_on url (fun _ => true) h = List.length h.
Proof.
  intros Hall. unfold count_on.
  induction Hall as [|ex h Hex _ IH]; cbn [filter List.length]; [reflexivity|].
  rewrite Hex, String.eqb_refl. cbn [andb List.length]. now rewrite IH.
Qed.


Lemma send_data_dry_run self vurl :
  constructed self ->
  dict_get self "validate_url" = Some (VStr vurl) ->
  forall events w,
    well_formed_sandbox vurl w ->
    exists rr w' new,
      send_data py_str error_value default_error_num self events true w = (Ok rr, w')
      /\ history w' = (history w ++ new)%list
      /\ Forall (fun ex => req_url (fst ex) = vurl) new
      /\ List.length new = List.length events
      /\ successful_hits rr = Z.of_nat (count_on vurl reply_valid new)
      /\ failed_hits rr = Z.of_nat (count_on vurl reply_invalid new)
      /\ (count_on vurl reply_valid new + count_on vurl reply_invalid new
          = List.length events)%nat
      /\ List.length (error_messages rr) = count_on vurl reply_invalid new
      /\ dry_run rr = true.
Proof.
  intros Hc Hu events w Hwf.
  destruct (validate_events_run self vurl Hc Hu events 0%nat [] [] w Hwf)
    as (V & I & w' & new & p & Hrun & N & H & Fu & Ln & LV & LI & MV & MI).
  unfold send_data, _get_valid_and_invalid_events, bind at 1. rewrite Hrun.
  cbn [negb fst snd app]. unfold bind, ret.
  eexists _, w', new. split; [reflexivity|]. cbn [successful_hits failed_hits error_messages dry_run].
  rewrite length_map, LV, LI. repeat split; trivial.
  destruct (filter_seq_partition p (List.length events) _ _ MV MI) as (L & _).
  rewrite !length_map in L. now rewrite <- LV, <- LI.
Qed.

Lemma send_data_live_run self vurl purl debug :
  constructed self ->
  dict_get self "validate_url" = Some (VStr vurl) ->
  dict_get self "post_url" = Some (VStr purl) ->
  dict_get self "debug" = Some debug -> truthy debug = false ->
  forall events w,
    well_formed_sandbox vurl w ->
    exists rr w' sandbox production,
      send_data py_str error_value default_error_num self events false w = (Ok rr, w')
      /\ history w' = (history w ++ sandbox ++ production)%list
      /\ Forall (fun ex => req_url (fst ex) = vurl) sandbox
      /\ Forall (fun ex => req_url (fst ex) = purl) production
      /\ List.length sandbox = List.length events
      /\ List.length production = count_on vurl reply_valid sandbox
      /\ (count_on vurl reply_valid sandbox + count_on vurl reply_invalid sandbox
          = List.length events)%nat
      /\ successful_hits rr = Z.of_nat (count_on vurl reply_valid sandbox)
      /\ failed_hits rr = Z.of_nat (count_on vurl reply_invalid sandbox
                                    + count_on purl reply_send_failed production)
      /\ List.length (error_messages rr)
         = (count_on vurl reply_invalid sandbox
            + count_on purl reply_send_failed production)%nat
      /\ dry_run rr = false.
Proof.
  intros Hc Hu Hp Hd Ht events w Hwf.
  destruct (validate_events_run self vurl Hc Hu events 0%nat [] [] w Hwf)
    as (V & I & w1 & new & p & Hrun & N & H & Fu & Ln & LV & LI & MV & MI).
  unfold send_data, _get_valid_and_invalid_events, bind at 1. rewrite Hrun.
  cbn [negb fst snd app].
  destruct (send_events_run self purl debug Hd Ht Hp V I w1)
    as (F & w' & newS & HrunS & NS & HS & FuS & LnS & LF).
  unfold bind at 1. rewrite HrunS. unfold ret.
  eexists _, w', new, newS. split; [reflexivity|].
  cbn [successful_hits failed_hits error_messages dry_run].
  rewrite length_map, length_app, LV, LI, LF, LnS.
  repeat split; trivial.
  - rewrite HS, H. now rewrite app_assoc.
  - destruct (filter_seq_partition p (List.length events) _ _ MV MI) as (L & _).
    rewrite !length_map in L. now rewrite <- LV, <- LI.
Qed.

(** *** [__init__] and configuration errors *)

Lemma payload_type_exclusive pt :
  pyval_eq_str pt FIREBASE = true -> pyval_eq_str pt GTAG = true -> False.
Proof.
  destruct pt; cbn; try discriminate.
  intros H1 H2. apply String.eqb_eq in H1, H2. subst. discriminate H2.
Qed.

Lemma init_outcome config w r w' :
  __init__ py_str config w = (r, w') ->
  w' = w /\ match r with
            | Ok self => constructed self
            | Raise e => exists msg, e = DataOutConnectorValueError (Some msg) None
            end.
Proof.
  destruct r as [self|e].
  - apply init_constructed.
  - unfold __init__, _validate_credentials, _build_api_url, bind, getattr, ret, raise.
    cbn [dict_set dict_get String.eqb Ascii.eqb Bool.eqb].
    intros H.
    repeat (match type of H with
            | context [if ?b then _ else _] => destruct b eqn:?
            end; cbn [dict_set dict_get String.eqb Ascii.eqb Bool.eqb negb orb] in H);
      try discriminate.
    all: try (exfalso; eapply payload_type_exclusive; eassumption).
    all: injection H as <- <-; split; [reflexivity | eexists; reflexivity].
Qed.

(** *** Claims on the validation stage *)

(** C3. For a destination that [__init__] accepted and a sandbox whose
    answers are well formed, [_get_valid_and_invalid_events] returns two
    lists that partition the indices of the batch: their lengths add up to
    the number of events, every index below it is in exactly one of the
    lists, no other index is in either, and in each list the indices
    increase strictly (the order of the input). *)
Theorem validation_stage_partitions config w0 self w0' events w :
  __init__ py_str config w0 = (Ok self, w0') ->
  well_formed_sandbox (url_attr self "validate_url") w ->
  exists valid invalid w',
    _get_valid_and_invalid_events py_str error_value default_error_num self events w
    = (Ok (valid, invalid), w')
    /\ (List.length valid + List.length invalid = List.length events)%nat
    /\ (forall k, (k < List.length events)%nat ->
                  (In k (map fst valid) /\ ~ In k (map fst invalid))
                  \/ (~ In k (map fst valid) /\ In k (map fst invalid)))
    /\ (forall k, In k (map fst valid) \/ In k (map fst invalid) ->
                  (k < List.length events)%nat)
    /\ StronglySorted lt (map fst valid)
    /\ StronglySorted lt (map fst invalid).
Proof.
  intros Hinit Hwf. apply init_constructed in Hinit as [_ Hc].
  destruct (c_urls Hc) as (q & _ & Hu). unfold url_attr in Hwf. rewrite Hu in Hwf.
  destruct (validate_events_run self _ Hc Hu events 0%nat [] [] w Hwf)
    as (V & I & w' & new & p & Hrun & _ & _ & _ & _ & _ & _ & MV & MI).
  exists V, I, w'. split; [exact Hrun|].
  destruct (filter_seq_partition p (List.length events) _ _ MV MI)
    as (L & Hex & Hb & SV & SI).
  rewrite !length_map in L. repeat split; trivial.
Qed.

Lemma error_num_for_member reply code :
  error_num_for error_value reply code
  = if unparseable reply then error_value code else VErrorId code.
Proof.
  destruct reply as [|r]; [reflexivity|]. cbn [error_num_for unparseable].
  destruct (status_code r =? 200); [|reflexivity].
  destruct (json_body r); reflexivity.
Qed.

(** C4, as the code has it.  On an answer of the sandbox of the shape the
    interface fixes, the validator ([_send_validate_request], then
    [_parse_validate_result]) makes the one request and does what the six
    cases of the specification say: it raises nothing for a valid outcome,
    and for an invalid one it raises a [DataOutConnectorValueError]; its
    [error_num] is the code of the case, but for a 200 answer whose body is
    not JSON, where the theorem does not say which [error_num] it carries.
    The code of a diagnostic is the classification of the first message
    alone. *)
Theorem validator_follows_spec self payload event url w outcome :
  dict_get self "validate_url" = Some (VStr url) ->
  let reply := net w (history w) (validate_request url payload) in
  let run := bind (_send_validate_request self payload)
                  (_parse_validate_result error_value event) w in
  validator_spec reply = Some outcome ->
  exists w',
    same_but_log (record_exchange w (validate_request url payload)) w'
    /\ match outcome with
       | Valid => run = (Ok tt, w')
       | Invalid code =>
           if unparseable reply
           then exists error_num,
                  run = (Raise (DataOutConnectorValueError None (Some error_num)), w')
           else run = (Raise (DataOutConnectorValueError None (Some (VErrorId code))), w')
       end.
Proof.
  intros Hu reply run H.
  destruct (validator_run self payload event url w outcome Hu H) as (w' & Hs & Hrun).
  exists w'. split; [exact Hs|]. fold reply run in Hrun.
  destruct outcome as [|code]; [exact Hrun|].
  rewrite error_num_for_member in Hrun.
  destruct (unparseable reply); [eexists|]; exact Hrun.
Qed.

Lemma find_keys_some {B} (f : string -> bool) (t : list (string * B)) n :
  find f (map fst t) = Some n -> Exists (fun entry => f (fst entry) = true) t.
Proof.
  induction t as [|[k v] t IH]; cbn [map fst find]; [discriminate|].
  destruct (f k) eqn:E.
  - intros _. now constructor.
  - intros H. constructor 2. now apply IH.
Qed.

Lemma find_keys_none {B} (f : string -> bool) (t : list (string * B)) :
  find f (map fst t) = None -> Forall (fun entry => f (fst entry) = false) t.
Proof.
  induction t as [|[k v] t IH]; cbn [map fst find]; [constructor|].
  destruct (f k) eqn:E; [discriminate|]. intros H. constructor; auto.
Qed.

(** C5. On a diagnostic whose field path and description are strings,
    [_parse_validate_result] raises a [DataOutConnectorValueError] with
    exactly one code: the code of the first entry of [_ERROR_TYPES] whose
    name equals the field path or occurs in the description, and the generic
    code when no entry matches.  In the first case nothing is logged, in the
    second the diagnostic is logged first; no other error is raised. *)
Theorem classifier_first_match_or_generic event r w d m rest field_path description :
  status_code r = 200 ->
  json_body r = Some (VDict d) ->
  dict_get d "validationMessages" = Some (VList (VDict m :: rest)) ->
  dict_get_default m "fieldPath" (VStr "") = VStr field_path ->
  dict_get_default m "description" (VStr "") = VStr description ->
  exists code w',
    _parse_validate_result error_value event r w
    = (Raise (DataOutConnectorValueError None (Some (VErrorId code))), w')
    /\ classified field_path description code
    /\ (forall code', classified field_path description code' -> code' = code)
    /\ (Exists (fun entry => entry_matches field_path description (fst entry)) _ERROR_TYPES ->
        w' = w)
    /\ (Forall (fun entry => ~ entry_matches field_path description (fst entry)) _ERROR_TYPES ->
        code = GA4_HOOK_ERROR_INVALID_VALUES
        /\ w' = record_log w (unmatched_record field_path description)).
Proof.
  intros Hs Hj Hd Hf Hdesc.
  exists (classify_spec field_path description). eexists.
  split; [eapply parse_diagnostic_run; eassumption|].
  split; [apply classify_spec_classified|].
  split; [intros code' H; now apply classified_unique|].
  destruct (find (entry_matchesb field_path description) (map fst _ERROR_TYPES))
    as [n|] eqn:E.
  - split; [reflexivity|]. intros Hall. exfalso.
    apply find_keys_some in E. apply Exists_exists in E as (entry & Hin & Hm).
    rewrite Forall_forall in Hall. apply (Hall entry Hin).
    now apply entry_matchesb_iff.
  - apply find_keys_none in E. split.
    + intros Hex. exfalso. apply Exists_exists in Hex as (entry & Hin & Hm).
      rewrite Forall_forall in E. specialize (E entry Hin).
      apply entry_matchesb_iff in Hm. congruence.
    + intros _. split; [|reflexivity].
      symmetry. apply classified_unique. right. split; [|reflexivity].
      eapply Forall_impl; [|exact E]. intros x. apply entry_matchesb_false.
Qed.

(** *** Claims on the sender *)

(** C6, where the code departs from it. A destination built by [__init__]
    from a configuration whose [debug] flag is set has no attribute [log]:
    [_send_payload] raises [AttributeError] and leaves the world as it was,
    so it neither records the request nor returns. *)
Theorem send_payload_debug_raises config w0 self w0' payload w :
  __init__ py_str config w0 = (Ok self, w0') ->
  truthy (dict_get_none config "debug") = true ->
  _send_payload py_str self payload w = (Raise AttributeError, w).
Proof.
  intros Hinit Hd. pose proof (init_debug _ _ _ _ Hinit) as Hdebug.
  apply init_constructed in Hinit as [_ Hc].
  eapply send_payload_debug_no_logger; [exact Hdebug | | exact (c_log Hc)].
  now rewrite truthy_py_or_false.
Qed.

(** What the debug branch does for an object that has a logger: the
    request is logged and nothing is posted. *)
Lemma send_payload_debug_with_logger self payload debug name url w :
  dict_get self "debug" = Some debug -> truthy debug = true ->
  dict_get self "log" = Some (VLogger name) ->
  dict_get self "post_url" = Some url ->
  exists record,
    _send_payload py_str self payload w = (Ok tt, record_log w record).
Proof.
  intros Hd Ht Hl Hu. unfold _send_payload, bind, getattr.
  rewrite Hd. unfold ret. rewrite Ht, Hl, Hu. cbn [method_info].
  eexists. reflexivity.
Qed.

(** Without the [debug] flag: one POST to [post_url]; success exactly for
    a status in [200, 300), and otherwise the send failure with the
    retryable code. *)
Lemma send_payload_live config w0 self w0' payload w :
  __init__ py_str config w0 = (Ok self, w0') ->
  truthy (dict_get_none config "debug") = false ->
  let req := post_request (url_attr self "post_url") payload in
  _send_payload py_str self payload w =
  (match net w (history w) req with
   | Responded r =>
       if (200 <=? status_code r) && (status_code r <? 300) then Ok tt
       else Raise send_failure
   | ConnectionFailed => Raise send_failure
   end, record_exchange w req).
Proof.
  intros Hinit Hd. pose proof (init_debug _ _ _ _ Hinit) as Hdebug.
  apply init_constructed in Hinit as [_ Hc].
  destruct (c_urls Hc) as (q & Hp & _).
  unfold url_attr. rewrite Hp. cbv zeta.
  erewrite send_payload_run; [|exact Hdebug | now rewrite truthy_py_or_false | exact Hp].
  f_equal. destruct (net w _ _) as [|r]; [reflexivity|]. cbn [reply_send_failed].
  destruct (Z.ltb_spec (status_code r) 200), (Z.geb_spec (status_code r) 300),
    (Z.leb_spec 200 (status_code r)), (Z.ltb_spec (status_code r) 300);
    cbn; try reflexivity; lia.
Qed.

End Destination.
End GA4MPFacts.

(** ** The destination on concrete batches *)

Module GA4MPExamples.
Import GA4MP GA4MPFacts Examples.

Lemma init_gtag w :
  __init__ py_str config_gtag w = (Ok destination_gtag, w).
Proof. reflexivity. Qed.

Lemma init_gtag_debug w :
  __init__ py_str config_gtag_debug w = (Ok destination_gtag_debug, w).
Proof. reflexivity. Qed.

Lemma net_accepting_well_formed url status jitter :
  well_formed_sandbox url (world_of (net_accepting status) jitter).
Proof.
  intros h req _. cbn [net world_of]. unfold net_accepting.
  destruct (is_sandbox_url (req_url req)); [reflexivity|].
  unfold well_formed_reply. cbn [validator_spec status_code json_body].
  destruct (status >=? 500); [reflexivity|].
  destruct (negb (status =? 200)); reflexivity.
Qed.

Lemma net_checking_well_formed url jitter :
  well_formed_sandbox url (world_of net_checking_client_id jitter).
Proof.
  intros h req _. cbn [net world_of]. unfold net_checking_client_id.
  destruct (is_sandbox_url (req_url req)); [|reflexivity].
  destruct (has_empty_client_id req); reflexivity.
Qed.

(** Scenario A: three events pass validation and are sent. *)
Example scenario_A :
  fst (run_send_data destination_gtag [event "c1"; event "c2"; event "c3"] false
         (world_of (net_accepting 200) no_jitter))
  = Ok (mkRunResult 3 0 [] false).
Proof. vm_compute. reflexivity. Qed.

(** Scenario B: the event with an empty [client_id] is rejected. *)
Example scenario_B :
  fst (run_send_data destination_gtag [event "c1"; event ""; event "c3"] false
         (world_of net_checking_client_id no_jitter))
  = Ok (mkRunResult 2 1 ["ErrorNameIDMap.GA4_HOOK_ERROR_VALUE_REQUIRED_CLIENT_ID"] false).
Proof. vm_compute. reflexivity. Qed.

(** C1, where the code departs from it (scenario C of the specification).
    One event passes validation and its production POST is answered 503:
    the result counts the event as a successful hit and as a failed hit, so
    the two counters add up to 2 for a batch of 1. *)
Theorem failed_send_counted_twice :
  exists rr,
    fst (run_send_data destination_gtag [event "c1"] false
           (world_of (net_accepting 503) no_jitter)) = Ok rr
    /\ successful_hits rr = 1
    /\ failed_hits rr = 1
    /\ error_messages rr = ["ErrorNameIDMap.RETRIABLE_GA_HOOK_ERROR_HTTP_ERROR"]
    /\ successful_hits rr + failed_hits rr <> Z.of_nat (List.length [event "c1"]).
Proof.
  eexists. split; [vm_compute; reflexivity|]. cbn. repeat split. discriminate.
Qed.

(** C2 fails as stated: the sandbox answers 200 with a JSON object that
    has no [validationMessages], and a live run of two events raises the
    [KeyError] of [_parse_validate_result] instead of returning a result. *)
Lemma live_run_does_not_return :
  fst (run_send_data destination_gtag [event "c1"; event "c2"] false
         (world_of net_without_key no_jitter))
  = Raise KeyError.
Proof. vm_compute. reflexivity. Qed.

Lemma validation_stage_partitions_witness :
  exists valid invalid w',
    _get_valid_and_invalid_events py_str error_value default_error_num
      destination_gtag [event "c1"; event ""]
      (world_of net_checking_client_id no_jitter) = (Ok (valid, invalid), w')
    /\ (List.length valid + List.length invalid = 2)%nat.
Proof.
  destruct (validation_stage_partitions py_str error_value default_error_num
              config_gtag (world_of (net_accepting 200) no_jitter)
              destination_gtag (world_of (net_accepting 200) no_jitter)
              [event "c1"; event ""] (world_of net_checking_client_id no_jitter)
              (init_gtag _) (net_checking_well_formed _ _))
    as (valid & invalid & w' & Hrun & L & _).
  exists valid, invalid, w'. split; [exact Hrun | exact L].
Defined.

(** C4 fails as stated: the sandbox answers 200 with a JSON object that
    has no [validationMessages], none of the six cases, and the validator
    raises a [KeyError], which is no classified failure. *)
Lemma validator_unclassified_answer :
  fst (bind (_send_validate_request destination_gtag (event "c1"))
            (_parse_validate_result error_value (event "c1"))
            (world_of net_without_key no_jitter))
  = Raise KeyError.
Proof. vm_compute. reflexivity. Qed.

Lemma validator_follows_spec_witness :
  exists w',
    bind (_send_validate_request destination_gtag (event ""))
         (_parse_validate_result error_value (event ""))
         (world_of net_checking_client_id no_jitter)
    = (Raise (DataOutConnectorValueError None
                (Some (VErrorId GA4_HOOK_ERROR_VALUE_REQUIRED_CLIENT_ID))), w').
Proof.
  destruct (validator_follows_spec error_value destination_gtag (event "") (event "")
              (url_attr destination_gtag "validate_url")
              (world_of net_checking_client_id no_jitter)
              (Invalid GA4_HOOK_ERROR_VALUE_REQUIRED_CLIENT_ID) eq_refl eq_refl)
    as (w' & _ & Hrun).
  exists w'. exact Hrun.
Defined.

(** A 200 response whose body is not JSON: the retryable code, passed as
    the [value] of the member. *)
Example unreadable_body_is_retryable :
  fst (_parse_validate_result error_value (event "") (mkResponse 200 None)
         (world_of net_checking_client_id no_jitter))
  = Raise (DataOutConnectorValueError None
             (Some (error_value RETRIABLE_GA4_HOOK_ERROR_HTTP_ERROR))).
Proof. reflexivity. Qed.

Lemma classifier_first_match_or_generic_witness :
  exists code w',
    _parse_validate_result error_value (event "")
      (mkResponse 200 (Some (one_message "events.params" "Unknown field events.params.items")))
      (world_of net_checking_client_id no_jitter)
    = (Raise (DataOutConnectorValueError None (Some (VErrorId code))), w')
    /\ classified "events.params" "Unknown field events.params.items" code.
Proof.
  destruct (classifier_first_match_or_generic error_value (event "")
              (mkResponse 200
                 (Some (one_message "events.params" "Unknown field events.params.items")))
              (world_of net_checking_client_id no_jitter)
              _ _ _ "events.params" "Unknown field events.params.items"
              eq_refl eq_refl eq_refl eq_refl eq_refl)
    as (code & w' & Hrun & Hc & _).
  exists code, w'. split; [exact Hrun | exact Hc].
Defined.

(** The table's order decides: the description names [events.params.items],
    the field path is [events.params], and the entry [events] comes first. *)
Example classifier_takes_first_entry :
  classify_spec "events.params" "Unknown field events.params.items"
  = GA4_HOOK_ERROR_VALUE_INVALID_EVENTS.
Proof. reflexivity. Qed.

(** Scenario E: a diagnostic on a field the table does not know. *)
Example scenario_E :
  _parse_validate_result error_value (event "")
    (mkResponse 200 (Some (one_message "campaign" "Unknown campaign.")))
    (world_of net_checking_client_id no_jitter)
  = (Raise (DataOutConnectorValueError None (Some (VErrorId GA4_HOOK_ERROR_INVALID_VALUES))),
     record_log (world_of net_checking_client_id no_jitter)
                (unmatched_record "campaign" "Unknown campaign.")).
Proof. reflexivity. Qed.

Lemma send_payload_debug_raises_witness :
  _send_payload py_str destination_gtag_debug (event "c1")
    (world_of (net_accepting 200) no_jitter)
  = (Raise AttributeError, world_of (net_accepting 200) no_jitter).
Proof.
  exact (send_payload_debug_raises py_str config_gtag_debug
           (world_of (net_accepting 200) no_jitter) destination_gtag_debug
           (world_of (net_accepting 200) no_jitter) (event "c1")
           (world_of (net_accepting 200) no_jitter) (init_gtag_debug _) eq_refl).
Defined.

(** In a live run of a destination in debug mode the [AttributeError] of
    [_send_payload] is not among the exceptions [send_data] handles. *)
Example debug_live_run_raises :
  fst (run_send_data destination_gtag_debug [event "c1"] false
         (world_of (net_accepting 200) no_jitter))
  = Raise AttributeError.
Proof. vm_compute. reflexivity. Qed.

(** C9 fails as stated: the sandbox answers 200 with a JSON object that
    has no [validationMessages]; the [KeyError] of
    [_parse_validate_result] is not a [DataOutConnectorValueError] and
    leaves [send_data]. *)
Lemma missing_key_escapes :
  fst (run_send_data destination_gtag [event "c1"] false
         (world_of net_without_key no_jitter))
  = Raise KeyError.
Proof. vm_compute. reflexivity. Qed.

End GA4MPExamples.

(** * Binary64 arithmetic: a product by a power of two

    The facts of Rocq's specification of floating point that the waits of
    [_get_request] rest on. *)

Module FloatFacts.

Lemma dbl_S j q : dbl (S j) q = xO (dbl j q).
Proof. reflexivity. Qed.

Lemma dbl_add i j q : dbl (i + j) q = dbl i (dbl j q).
Proof. unfold dbl. apply Nat.iter_add. Qed.

Lemma dbl_digits j q : Zpos (digits2_pos (dbl j q)) = Zpos (digits2_pos q) + Z.of_nat j.
Proof.
  induction j as [|j IH]; [cbn; lia|].
  rewrite dbl_S. cbn [digits2_pos]. lia.
Qed.

Lemma dbl_lt j q : (dbl j q < dbl (S j) q)%positive.
Proof. rewrite dbl_S. lia. Qed.

Lemma iter_pos_nat {A} (f : A -> A) p x : iter_pos f p x = Nat.iter (Pos.to_nat p) f x.
Proof.
  revert x. induction p as [p IH|p IH|]; intro x; cbn [iter_pos].
  - rewrite !IH, Pos2Nat.inj_xI.
    replace (S (2 * Pos.to_nat p)) with (Pos.to_nat p + (Pos.to_nat p + 1))%nat by lia.
    rewrite !Nat.iter_add. reflexivity.
  - rewrite !IH, Pos2Nat.inj_xO.
    replace (2 * Pos.to_nat p)%nat with (Pos.to_nat p + Pos.to_nat p)%nat by lia.
    rewrite Nat.iter_add. reflexivity.
  - reflexivity.
Qed.

Lemma shr_dbl j q :
  Nat.iter j shr_1 {| shr_m := Zpos (dbl j q); shr_r := false; shr_s := false |}
  = {| shr_m := Zpos q; shr_r := false; shr_s := false |}.
Proof.
  induction j as [|j IH]; [reflexivity|].
  rewrite Nat.iter_succ_r. rewrite dbl_S. cbn [shr_1 orb]. apply IH.
Qed.

Lemma shr_dbl_part (n : Z) (j : nat) q E :
  0 <= n <= Z.of_nat j ->
  shr {| shr_m := Zpos (dbl j q); shr_r := false; shr_s := false |} E n
  = ({| shr_m := Zpos (dbl (j - Z.to_nat n) q); shr_r := false; shr_s := false |}, E + n).
Proof.
  intros Hn. destruct n as [|p|p]; [| |lia].
  - cbn [shr]. rewrite Nat.sub_0_r, Z.add_0_r. reflexivity.
  - cbn [shr]. rewrite iter_pos_nat.
    replace j with (Pos.to_nat p + (j - Pos.to_nat p))%nat at 1 by lia.
    rewrite dbl_add, shr_dbl. rewrite Z2Nat.inj_pos. reflexivity.
Qed.

Lemma fexp64_eq x : fexp64 x = Z.max (x - 53) (-1074).
Proof. reflexivity. Qed.

Lemma round_shifted (q : positive) (j : nat) (E : Z) :
  let n := fexp64 (Zpos (digits2_pos q) + Z.of_nat j + E) - E in
  0 <= n <= Z.of_nat j ->
  binary_round_aux prec emax false (Zpos (dbl j q)) E loc_Exact
  = if E + n <=? 971 then S754_finite false (dbl (j - Z.to_nat n) q) (E + n)
    else S754_infinity false.
Proof.
  intros n Hn. unfold binary_round_aux, shr_fexp.
  cbn [Zdigits2 shr_record_of_loc]. rewrite dbl_digits.
  fold fexp64. fold n. rewrite (shr_dbl_part n j q E Hn).
  cbn [shr_m loc_of_shr_record round_nearest_even Zdigits2 shr_record_of_loc].
  rewrite dbl_digits. fold fexp64.
  replace (fexp64 (Zpos (digits2_pos q) + Z.of_nat (j - Z.to_nat n) + (E + n)) - (E + n))
    with 0.
  2:{ replace (Zpos (digits2_pos q) + Z.of_nat (j - Z.to_nat n) + (E + n))
        with (Zpos (digits2_pos q) + Z.of_nat j + E) by lia.
      unfold n. lia. }
  cbn [shr shr_m]. reflexivity.
Qed.

Lemma pow2_dbl (n : nat) : 2 ^ Z.of_nat n = Zpos (dbl n 1).
Proof.
  induction n as [|n IH]; [reflexivity|].
  rewrite Nat2Z.inj_succ, Z.pow_succ_r, IH, dbl_S by lia. reflexivity.
Qed.

Lemma normalize_pow2_small :
  forallb (fun n => match binary_normalize prec emax (2 ^ Z.of_nat n) 0 false with
                    | S754_finite false m e => Pos.eqb m (dbl 52 1) && Z.eqb e (Z.of_nat n - 52)
                    | _ => false
                    end) (seq 0 52) = true.
Proof. vm_compute. reflexivity. Qed.

Lemma normalize_pow2 (k : Z) :
  0 <= k ->
  binary_normalize prec emax (2 ^ k) 0 false
  = if k <=? 1023 then pow2_sf k else S754_infinity false.
Proof.
  intros Hk. destruct (Z_lt_le_dec k 52) as [Hlt|Hge].
  - pose proof normalize_pow2_small as H. rewrite forallb_forall in H.
    specialize (H (Z.to_nat k)). rewrite Z2Nat.id in H by lia.
    destruct (k <=? 1023) eqn:Hle; [|lia].
    destruct (binary_normalize prec emax (2 ^ k) 0 false) as [| | |[|] m e];
      try (discriminate H; apply in_seq; lia).
    assert (Hin : In (Z.to_nat k) (seq 0 52)) by (apply in_seq; lia).
    specialize (H Hin). apply andb_prop in H. destruct H as [Hm He].
    apply Pos.eqb_eq in Hm. apply Z.eqb_eq in He. subst. reflexivity.
  - rewrite <- (Z2Nat.id k) at 1 by lia. rewrite pow2_dbl.
    cbn [binary_normalize]. unfold binary_round.
    rewrite dbl_digits. cbn [digits2_pos].
    replace (SpecFloat.fexp prec emax (1 + Z.of_nat (Z.to_nat k) + 0)) with (k - 52)
      by (change (SpecFloat.fexp prec emax) with fexp64; rewrite fexp64_eq; lia).
    unfold shl_align. destruct (k - 52 - 0) eqn:Hd; [| |lia].
    + rewrite round_shifted by (cbn [digits2_pos]; rewrite fexp64_eq; lia).
      cbn [digits2_pos]. rewrite fexp64_eq.
      replace (Z.max (1 + Z.of_nat (Z.to_nat k) + 0 - 53) (-1074) - 0) with 0 by lia.
      assert (k = 52) as -> by lia. reflexivity.
    + rewrite round_shifted by (cbn [digits2_pos]; rewrite fexp64_eq; lia).
      cbn [digits2_pos]. rewrite fexp64_eq.
      replace (Z.max (1 + Z.of_nat (Z.to_nat k) + 0 - 53) (-1074) - 0) with (k - 52) by lia.
      replace (Z.to_nat k - Z.to_nat (k - 52))%nat with 52%nat by lia.
      replace (0 + (k - 52) <=? 971) with (k <=? 1023).
      2:{ destruct (k <=? 1023) eqn:H1, (0 + (k - 52) <=? 971) eqn:H2; lia. }
      unfold pow2_sf. rewrite Z.add_0_l. reflexivity.
Qed.

Lemma pow2_sf_valid k : 0 <= k <= 1023 -> valid_binary (pow2_sf k) = true.
Proof.
  intros Hk. unfold pow2_sf, valid_binary, SpecFloat.valid_binary, bounded, canonical_mantissa.
  rewrite dbl_digits. cbn [digits2_pos]. change (SpecFloat.fexp prec emax) with fexp64.
  rewrite fexp64_eq. apply andb_true_intro. split.
  - apply Z.eqb_eq. lia.
  - apply Z.leb_le. change (emax - prec) with 971. lia.
Qed.

(** What [bounded] says of a mantissa and its exponent. *)
Lemma bounded_inv m e :
  bounded prec emax m e = true ->
  e <= 971 /\ ((Zpos (digits2_pos m) = 53 /\ -1074 <= e)
               \/ (Zpos (digits2_pos m) < 53 /\ e = -1074)).
Proof.
  unfold bounded, canonical_mantissa. intros H. apply andb_prop in H.
  destruct H as [Hc He]. apply Z.eqb_eq in Hc. apply Z.leb_le in He.
  change (SpecFloat.fexp prec emax) with fexp64 in Hc. rewrite fexp64_eq in Hc.
  change (emax - prec) with 971 in He. lia.
Qed.

Lemma mul_pow2_sf m e k :
  bounded prec emax m e = true -> 0 <= k ->
  let E := e + (k - 52) in
  let n := fexp64 (Zpos (digits2_pos m) + 52 + E) - E in
  0 <= n <= 52
  /\ SFmul prec emax (S754_finite false m e) (pow2_sf k)
     = if E + n <=? 971 then S754_finite false (dbl (52 - Z.to_nat n) m) (E + n)
       else S754_infinity false.
Proof.
  intros Hb Hk E n. apply bounded_inv in Hb. destruct Hb as [He Hd].
  assert (Hn : 0 <= n <= 52) by (unfold n, E; rewrite fexp64_eq; lia).
  split; [exact Hn|].
  unfold pow2_sf. cbn [SFmul xorb].
  replace (m * dbl 52 1)%positive with (dbl 52 m)
    by (rewrite Pos.mul_comm; reflexivity).
  apply (round_shifted m 52 E). exact Hn.
Qed.

Lemma SFmul_pow2_monotone x k :
  valid_binary x = true ->
  SFleb (S754_zero false) x = true -> 0 <= k ->
  SFleb (SFmul prec emax x (pow2_sf k)) (SFmul prec emax x (pow2_sf (k + 1))) = true.
Proof.
  intros Hv Hx Hk. destruct x as [s|s| |s m e].
  - reflexivity.
  - destruct s; [discriminate Hx|]. reflexivity.
  - discriminate Hx.
  - destruct s; [discriminate Hx|]. cbn [valid_binary] in Hv.
    destruct (mul_pow2_sf m e k Hv Hk) as [Hn ->].
    destruct (mul_pow2_sf m e (k + 1) Hv ltac:(lia)) as [Hn' ->].
    apply bounded_inv in Hv. destruct Hv as [He Hd].
    rewrite !fexp64_eq in *.
    set (n := Z.max (Z.pos (digits2_pos m) + 52 + (e + (k - 52)) - 53) (-1074) - (e + (k - 52))) in *.
    set (n' := Z.max (Z.pos (digits2_pos m) + 52 + (e + (k + 1 - 52)) - 53) (-1074) - (e + (k + 1 - 52))) in *.
    destruct (e + (k - 52) + n <=? 971) eqn:H1, (e + (k + 1 - 52) + n' <=? 971) eqn:H2;
      try reflexivity; [|exfalso; lia].
    unfold SFleb, SFcompare.
    destruct (Z.compare_spec (e + (k - 52) + n) (e + (k + 1 - 52) + n')) as [Heq|Hlt|Hgt];
      [|reflexivity|exfalso; lia].
    assert (Hnn : n = n' + 1) by lia.
    replace (52 - Z.to_nat n')%nat with (S (52 - Z.to_nat n)) by lia.
    fold (Pos.compare (dbl (52 - Z.to_nat n) m) (dbl (S (52 - Z.to_nat n)) m)).
    rewrite (proj2 (Pos.compare_lt_iff _ _) (dbl_lt _ _)). reflexivity.
Qed.

(** [float(2 ** k)] is [2.0 ** k] up to [2.0 ** 1023] and an
    [OverflowError] beyond. *)
Lemma float_of_int_pow2 k p :
  0 <= k -> float_of_int (2 ^ k) = Ok p -> k <= 1023 /\ Prim2SF p = pow2_sf k.
Proof.
  intros Hk. unfold float_of_int. rewrite (normalize_pow2 k Hk).
  destruct (Z.leb_spec k 1023) as [Hle|Hgt].
  - pose proof (Prim2SF_SF2Prim (pow2_sf k) (pow2_sf_valid k (conj Hk Hle))) as Hsf.
    set (f := SF2Prim (pow2_sf k)) in *.
    destruct (is_infinity f); [discriminate|].
    intros H. injection H as <-. split; [exact Hle | exact Hsf].
  - vm_compute. discriminate.
Qed.

(** The product of a [float] that is not negative by [2.0 ** k] does not
    exceed its product by [2.0 ** (k + 1)]: rounding, underflow to a
    subnormal and overflow to infinity keep the order. *)
Lemma mul_pow2_monotone f p q k :
  (0 <=? f)%float = true -> 0 <= k ->
  Prim2SF p = pow2_sf k -> Prim2SF q = pow2_sf (k + 1) ->
  (f * p <=? f * q)%float = true.
Proof.
  intros Hf Hk Hp Hq. rewrite leb_spec in Hf |- *.
  rewrite !mul_spec, Hp, Hq. unfold SF64mul.
  apply SFmul_pow2_monotone; [apply Prim2SF_valid | exact Hf | exact Hk].
Qed.

End FloatFacts.
Import FloatFacts.

(** ** The Airflow client *)

Module ClientsFacts.
Import Clients.
Local Open Scope py_scope.

Lemma last_default_irrelevant {A} (l : list A) x d d' :
  last (x :: l) d = last (x :: l) d'.
Proof.
  revert x. induction l as [|y l IH]; intros x; [reflexivity|].
  change (last (y :: l) d = last (y :: l) d'). apply IH.
Qed.

(** On an [int] base the waits without the jitter are exact. *)
Lemma backoff_int z k : 0 <= k -> backoff (NInt z) k = Ok (NInt (z * 2 ^ k)).
Proof.
  intros Hk. unfold backoff, pow2.
  destruct (Z.ltb_spec k 0) as [Hneg|_]; [lia | reflexivity].
Qed.

Lemma backoff_int_monotone z k : 0 <= z -> 0 <= k -> z * 2 ^ k <= z * 2 ^ (k + 1).
Proof.
  intros Hz Hk. rewrite Z.pow_add_r, Z.pow_1_r by lia.
  assert (0 < 2 ^ k) by (apply Z.pow_pos_nonneg; lia). nia.
Qed.

(** On a [float] base the wait without the jitter is the product of the
    base by [2.0 ** k], rounded. *)
Lemma backoff_float f k a :
  0 <= k -> backoff (NFloat f) k = Ok a ->
  exists p, Prim2SF p = pow2_sf k /\ a = NFloat (f * p).
Proof.
  intros Hk. unfold backoff, pow2.
  destruct (Z.ltb_spec k 0) as [Hneg|_]; [lia|].
  cbn [num_mul to_float]. destruct (float_of_int (2 ^ k)) as [p|e] eqn:Hp; [|discriminate].
  intros [= <-]. exists p. split; [|reflexivity].
  apply (float_of_int_pow2 k p Hk Hp).
Qed.

(** On a base that is not negative, an [int] or a [float], the waits
    without the jitter do not decrease. *)
Lemma backoff_monotone base k a b :
  non_negative base = true -> 0 <= k ->
  backoff base k = Ok a -> backoff base (k + 1) = Ok b ->
  num_leb a b = true.
Proof.
  intros Hbase Hk Ha Hb. destruct base as [z|f]; cbn [non_negative] in Hbase.
  - rewrite backoff_int in Ha, Hb by lia.
    injection Ha as <-. injection Hb as <-. cbn [num_leb].
    apply Z.leb_le, backoff_int_monotone; lia.
  - destruct (backoff_float f k a Hk Ha) as (p & Hp & ->).
    destruct (backoff_float f (k + 1) b ltac:(lia) Hb) as (q & Hq & ->).
    cbn [num_leb]. apply (mul_pow2_monotone f p q k); assumption.
Qed.

(** The fuel of the loop is enough: more of it changes nothing. *)
Lemma get_request_loop_fuel url status_forcelist max_retries base :
  forall fuel retries_left response w,
    (Z.to_nat retries_left <= fuel)%nat ->
    get_request_loop fuel url status_forcelist max_retries base retries_left response w
    = get_request_loop (Z.to_nat retries_left) url status_forcelist max_retries base
        retries_left response w.
Proof.
  induction fuel as [|fuel IH]; intros rl response w Hle.
  - replace (Z.to_nat rl) with 0%nat by lia. reflexivity.
  - destruct (Z.to_nat rl) as [|k] eqn:Ek.
    + cbn [get_request_loop]. destruct (Z.gtb_spec rl 0) as [Hpos|_]; [lia | reflexivity].
    + cbn [get_request_loop].
      destruct ((rl >? 0) && in_forcelist (status_code response) status_forcelist);
        [|reflexivity].
      unfold bind, lift.
      destruct (num_mul base (pow2 (max_retries - rl))) as [b|e]; [|reflexivity].
      destruct (random_uniform w) as [[j|e] w1]; [|reflexivity].
      destruct (num_add_float b j) as [d|e]; [|reflexivity].
      destruct (time_sleep d w1) as [[u|e] w2]; [|reflexivity].
      destruct (client_get url w2) as [[r|e] w3]; [|reflexivity].
      rewrite IH by lia. replace k with (Z.to_nat (rl - 1)) by lia. reflexivity.
Qed.

(** One turn of the loop, when the wait is one Python computes and
    [time.sleep] accepts, and the server answers. *)
Lemma get_request_loop_step fuel url status_forcelist max_retries base rl response w d r :
  rl > 0 ->
  in_forcelist (status_code response) status_forcelist = true ->
  wait base (max_retries - rl) (uniform w (draws w)) = Ok d ->
  sleep_error d = None ->
  net w (history w) (get_of url) = Responded r ->
  get_request_loop (S fuel) url status_forcelist max_retries base rl response w
  = get_request_loop fuel url status_forcelist max_retries base (rl - 1) r
      (mkWorld (net w) (history w ++ [(get_of url, Responded r)]) (log w)
               (uniform w) (S (draws w)) (sleeps w ++ [d])).
Proof.
  intros Hpos Ein Hd Hacc Er. cbn [get_request_loop].
  destruct (Z.gtb_spec rl 0) as [_|Hneg]; [|lia]. rewrite Ein. cbn [andb].
  unfold wait, backoff in Hd.
  destruct (num_mul base (pow2 (max_retries - rl))) as [b|e]; [|discriminate Hd].
  unfold bind at 1, lift at 1.
  unfold bind at 1, random_uniform.
  unfold bind at 1, lift at 1. rewrite Hd.
  unfold bind at 1, time_sleep. rewrite Hacc.
  unfold bind at 1, client_get, send_request.
  cbn [draws sleeps net history log uniform]. fold (get_of url). rewrite Er.
  reflexivity.
Qed.

Lemma get_request_loop_run url status_forcelist max_retries base :
  forall fuel retries_left response w,
    fuel = Z.to_nat retries_left ->
    answers w ->
    (forall k, (k < fuel)%nat ->
       exists d, wait base (max_retries - retries_left + Z.of_nat k)
                   (uniform w (draws w + k)%nat) = Ok d
                 /\ sleep_error d = None) ->
    exists n new waits response' w',
      get_request_loop fuel url status_forcelist max_retries base retries_left response w
      = (Ok response', w')
      /\ (n <= fuel)%nat
      /\ net w' = net w /\ uniform w' = uniform w /\ log w' = log w
      /\ history w' = (history w ++ new)%list
      /\ List.length new = n
      /\ Forall (fun ex => fst ex = get_of url) new
      /\ draws w' = (draws w + n)%nat
      /\ sleeps w' = (sleeps w ++ waits)%list
      /\ map Ok waits
         = map (fun k => wait base (max_retries - retries_left + Z.of_nat k)
                           (uniform w (draws w + k)%nat)) (seq 0 n)
      /\ last (map snd new) (Responded response) = Responded response'
      /\ Forall (not_ready status_forcelist)
                (removelast (Responded response :: map snd new))
      /\ (in_forcelist (status_code response') status_forcelist = false \/ n = fuel).
Proof.
  induction fuel as [|fuel IH]; intros rl response w Hf Ha Hw.
  - exists 0%nat, [], [], response, w. cbn [get_request_loop].
    destruct (Z.gtb_spec rl 0) as [Hpos|_]; [lia|]. cbn [andb].
    cbn. rewrite !app_nil_r, Nat.add_0_r. repeat split; auto.
  - destruct (in_forcelist (status_code response) status_forcelist) eqn:Ein.
    2:{ exists 0%nat, [], [], response, w. cbn [get_request_loop]. rewrite Ein, andb_false_r.
        cbn. rewrite !app_nil_r, Nat.add_0_r. repeat split; auto. lia. }
    destruct (Hw 0%nat ltac:(lia)) as (d & Hd & Hacc).
    rewrite Z.add_0_r, Nat.add_0_r in Hd.
    destruct (net w (history w) (get_of url)) as [|r] eqn:Er;
      [exfalso; exact (Ha _ _ Er)|].
    rewrite (get_request_loop_step fuel url status_forcelist max_retries base rl
               response w d r ltac:(lia) Ein Hd Hacc Er).
    set (w3 := mkWorld (net w) (history w ++ [(get_of url, Responded r)]) (log w)
                       (uniform w) (S (draws w)) (sleeps w ++ [d])).
    destruct (IH (rl - 1) r w3) as (n & new & waits & r' & w' & Hrun & Hn & N & U & L & H
                                     & Ln & Fg & D & S' & W & La & Hnr & Hstop).
    { lia. }
    { exact Ha. }
    { intros k Hk. destruct (Hw (S k) ltac:(lia)) as (dk & Hdk & Hak).
      exists dk. split; [|exact Hak]. cbn [w3 uniform draws].
      replace (max_retries - (rl - 1) + Z.of_nat k)
        with (max_retries - rl + Z.of_nat (S k)) by lia.
      replace (S (draws w) + k)%nat with (draws w + S k)%nat by lia. exact Hdk. }
    cbn [w3 net uniform log history draws sleeps] in N, U, L, H, D, S', W.
    exists (S n), ((get_of url, Responded r) :: new), (d :: waits), r', w'.
    split; [exact Hrun|]. split; [lia|]. repeat split; trivial.
    + rewrite H, <- app_assoc. reflexivity.
    + cbn [List.length]. now rewrite Ln.
    + constructor; [reflexivity | exact Fg].
    + rewrite D. lia.
    + rewrite S', <- app_assoc. reflexivity.
    + cbn [seq map]. f_equal.
      * rewrite Z.add_0_r, Nat.add_0_r. symmetry. exact Hd.
      * rewrite W, <- seq_shift, map_map. apply map_ext. intros k.
        replace (max_retries - (rl - 1) + Z.of_nat k)
          with (max_retries - rl + Z.of_nat (S k)) by lia.
        replace (S (draws w) + k)%nat with (draws w + S k)%nat by lia.
        reflexivity.
    + cbn [map snd]. destruct (map snd new) as [|r0 l]; [exact La|].
      change (last (r0 :: l) (Responded response) = Responded r').
      rewrite (last_default_irrelevant l r0 _ (Responded r)). exact La.
    + cbn [map snd removelast]. constructor; [|exact Hnr].
      exists response. split; [reflexivity | exact Ein].
    + destruct Hstop as [Hstop|Hstop]; [now left | right; lia].
Qed.

(** [_get_request] when the server answers and every wait it may have to
    make is a duration Python computes and [time.sleep] accepts. *)
Lemma get_request_run url status_forcelist max_retries base w :
  answers w ->
  waits_accepted base (fun k => uniform w (draws w + k)%nat) (Z.to_nat max_retries) ->
  exists retries new waits response w',
    _get_request url status_forcelist max_retries base w = (Ok response, w')
    /\ Z.of_nat retries <= Z.max 0 max_retries
    /\ history w' = (history w ++ new)%list
    /\ List.length new = S retries
    /\ Forall (fun ex => fst ex = get_of url) new
    /\ Forall (not_ready status_forcelist) (removelast (map snd new))
    /\ sleeps w' = (sleeps w ++ waits)%list
    /\ map Ok waits
       = map (fun k => wait base (Z.of_nat k) (uniform w (draws w + k)%nat))
             (seq 0 retries)
    /\ last (map snd new) ConnectionFailed = Responded response
    /\ (in_forcelist (status_code response) status_forcelist = false
        \/ Z.of_nat retries = Z.max 0 max_retries).
Proof.
  intros Ha Hw. unfold _get_request, bind at 1, client_get, send_request.
  fold (get_of url).
  destruct (net w (history w) (get_of url)) as [|r] eqn:Er;
    [exfalso; exact (Ha _ _ Er)|].
  set (w1 := mkWorld (net w) (history w ++ [(get_of url, Responded r)]) (log w)
                     (uniform w) (draws w) (sleeps w)).
  destruct (get_request_loop_run url status_forcelist max_retries base
              (Z.to_nat max_retries) max_retries r w1 eq_refl Ha)
    as (n & new & waits & r' & w' & Hrun & Hn & N & U & L & H & Ln & Fg & D & S' & W
        & La & Hnr & Hstop).
  { intros k Hk. destruct (Hw k Hk) as (d & Hd & Hacc). exists d. split; [|exact Hacc].
    cbn [w1 uniform draws].
    replace (max_retries - max_retries + Z.of_nat k) with (Z.of_nat k) by lia.
    exact Hd. }
  cbn [w1 net uniform log history draws sleeps] in N, U, L, H, D, S', W.
  exists n, ((get_of url, Responded r) :: new), waits, r', w'.
  split; [exact Hrun|]. split; [lia|]. repeat split.
  - rewrite H, <- app_assoc. reflexivity.
  - cbn [List.length]. now rewrite Ln.
  - constructor; [reflexivity | exact Fg].
  - exact Hnr.
  - exact S'.
  - rewrite W. apply map_ext. intros k.
    replace (max_retries - max_retries + Z.of_nat k) with (Z.of_nat k) by lia.
    reflexivity.
  - cbn [map snd]. destruct (map snd new) as [|r0 l]; [exact La|].
    change (last (r0 :: l) ConnectionFailed = Responded r').
    rewrite (last_default_irrelevant l r0 _ (Responded r)). exact La.
  - destruct Hstop as [Hstop|Hstop]; [now left | right; lia].
Qed.

(** C8, as the code has it.  When the server answers every request and
    every wait the call may have to make is a duration that Python computes
    and [time.sleep] accepts, [_get_request] returns a response and raises
    nothing.  It makes one request and then [retries] more, at most
    [max_retries] of them; every answer but the last had a status of the
    not-ready list, so a retry follows a not-ready answer only; before the
    retry number [k] (from 0) it sleeps [backoff_in_seconds * 2**k] plus the
    [k]-th draw, as Python computes it; on a base that is not negative, an
    [int] or a [float], the waits without the jitter do not decrease, and
    on an [int] base they are exact.
    The response returned is the last one received, as it is, and either its
    status is not in the list or the budget of retries is used up. *)
Theorem get_request_bounded_backoff url status_forcelist max_retries base w :
  answers w ->
  waits_accepted base (fun k => uniform w (draws w + k)%nat) (Z.to_nat max_retries) ->
  exists retries new waits response w',
    _get_request url status_forcelist max_retries base w = (Ok response, w')
    /\ Z.of_nat retries <= Z.max 0 max_retries
    /\ history w' = (history w ++ new)%list
    /\ List.length new = S retries
    /\ Forall (fun ex => fst ex = get_of url) new
    /\ Forall (not_ready status_forcelist) (removelast (map snd new))
    /\ sleeps w' = (sleeps w ++ waits)%list
    /\ map Ok waits
       = map (fun k => wait base (Z.of_nat k) (uniform w (draws w + k)%nat))
             (seq 0 retries)
    /\ (forall k a b, non_negative base = true -> 0 <= k ->
          backoff base k = Ok a -> backoff base (k + 1) = Ok b ->
          num_leb a b = true)
    /\ (forall z k, base = NInt z -> 0 <= z -> 0 <= k ->
          backoff base k = Ok (NInt (z * 2 ^ k))
          /\ backoff base (k + 1) = Ok (NInt (z * 2 ^ (k + 1)))
          /\ z * 2 ^ k <= z * 2 ^ (k + 1))
    /\ last (map snd new) ConnectionFailed = Responded response
    /\ (in_forcelist (status_code response) status_forcelist = false
        \/ Z.of_nat retries = Z.max 0 max_retries).
Proof.
  intros Ha Hw.
  destruct (get_request_run url status_forcelist max_retries base w Ha Hw)
    as (retries & new & waits & response & w' & Hrun & Hle & Hh & Hlen & Hall & Hnr & Hs
        & Hwaits & Hlast & Hstop).
  exists retries, new, waits, response, w'.
  repeat (split; [assumption|]).
  split; [intros k a b; apply backoff_monotone|].
  split; [|split; assumption].
  intros z k -> Hz Hk. split; [apply backoff_int; exact Hk|].
  split; [apply backoff_int; lia | apply backoff_int_monotone; assumption].
Qed.

(** With an empty list of not-ready statuses there is one request and no
    sleep: what [_get_dag_run_xcom] relies on. *)
Lemma get_request_no_retry url max_retries base w r :
  net w (history w) (get_of url) = Responded r ->
  _get_request url [] max_retries base w = (Ok r, record_exchange w (get_of url)).
Proof.
  intros Er. unfold _get_request, bind, client_get, send_request.
  fold (get_of url). rewrite Er. unfold record_exchange. rewrite Er.
  destruct (Z.to_nat max_retries); cbn [get_request_loop in_forcelist existsb];
    rewrite andb_false_r; reflexivity.
Qed.

Section AirflowClient.

Variable py_str : pyval -> string.
Variable literal_eval : string -> result pyval.

(** C10, as the code has it. For the first of the runs still to visit,
    whose result artifact the server delivers as a JSON object:
    when the [value] of the artifact is absent or empty, the run gets the
    empty [RunResult]; when it is a string that [ast.literal_eval] reads,
    the run gets the [RunResult] built from what was read; and when it is a
    string that [ast.literal_eval] refuses, the error of the parse leaves
    [list_dag_runs] and no run log is built. *)
Theorem run_result_default_or_parse_error activation_by_dag_id fields rest run_logs
    dag_id dag_run_id activation r body w :
  literal_eval "{}" = Ok (VDict []) ->
  dict_get fields "dag_id" = Some (VStr dag_id) ->
  dict_get fields "dag_run_id" = Some dag_run_id ->
  activation_get activation_by_dag_id dag_id = Some activation ->
  net w (history w) (get_of (xcom_url py_str (VStr dag_id) dag_run_id "run_result"))
  = Responded r ->
  json_body r = Some (VDict body) ->
  let w1 := record_exchange w
              (get_of (xcom_url py_str (VStr dag_id) dag_run_id "run_result")) in
  let value := dict_get_none body "value" in
  let finish (rr : RunResult) :=
    (run_log <- _build_run_log_response activation (VDict fields) rr ;;
     list_dag_runs_loop py_str literal_eval activation_by_dag_id rest
       (run_logs ++ [run_log])%list) in
  let visit :=
    list_dag_runs_loop py_str literal_eval activation_by_dag_id
      (VDict fields :: rest) run_logs w in
  (truthy value = false -> visit = finish RunResult_default w1)
  /\ (forall s v, value = VStr s -> s <> "" -> literal_eval s = Ok v ->
                  visit = (rr <- RunResult_of v ;; finish rr) w1)
  /\ (forall s e, value = VStr s -> s <> "" -> literal_eval s = Raise e ->
                  visit = (Raise e, w1)).
Proof.
  intros Hempty Hid Hrun Hact Er Hj w1 value finish visit.
  assert (Hstart :
    visit =
    (run_result <- ast_literal_eval literal_eval (py_or value (VStr "{}")) ;;
     activation' <- activation_getitem activation_by_dag_id (VStr dag_id) ;;
     run_result <- RunResult_of run_result ;;
     run_log <- _build_run_log_response activation' (VDict fields) run_result ;;
     list_dag_runs_loop py_str literal_eval activation_by_dag_id rest
       (run_logs ++ [run_log])%list) w1).
  { unfold visit. cbn [list_dag_runs_loop].
    unfold bind at 1, getitem_str at 1. rewrite Hid. unfold ret at 1.
    unfold bind at 1, getitem_str at 1. rewrite Hrun. unfold ret at 1.
    unfold bind at 1, _get_dag_run_xcom, bind at 1.
    fold (xcom_url py_str (VStr dag_id) dag_run_id "run_result").
    rewrite (get_request_no_retry _ _ _ _ _ Er). fold w1. unfold ret at 1.
    unfold bind at 1, response_json. rewrite Hj. unfold ret at 1.
    unfold bind at 1. cbn [method_get]. unfold ret at 1.
    reflexivity. }
  rewrite Hstart. clear Hstart. repeat split.
  - intros Hv. unfold py_or. rewrite Hv. cbn [ast_literal_eval].
    unfold bind at 1, lift. rewrite Hempty.
    unfold bind at 1. cbn [activation_getitem]. rewrite Hact. unfold ret at 1.
    unfold bind at 1. cbn [RunResult_of RunResult_kwargs lift]. reflexivity.
  - intros s v Hv Hs Hparse. unfold py_or. rewrite Hv. cbn [truthy].
    destruct (String.eqb_spec s "") as [->|_]; [contradiction|]. cbn [negb ast_literal_eval].
    unfold bind at 1, lift. rewrite Hparse.
    unfold bind at 1. cbn [activation_getitem]. rewrite Hact. unfold ret at 1.
    reflexivity.
  - intros s e Hv Hs Hparse. unfold py_or. rewrite Hv. cbn [truthy].
    destruct (String.eqb_spec s "") as [->|_]; [contradiction|]. cbn [negb ast_literal_eval].
    unfold bind at 1, lift. rewrite Hparse. reflexivity.
Qed.

End AirflowClient.

End ClientsFacts.

(** ** The client on concrete servers *)

Module ClientsExamples.
Import Clients ClientsFacts Examples.

Lemma net_not_ready_thrice_answers jitter :
  answers (world_of net_not_ready_thrice jitter).
Proof.
  intros h req. cbn [net world_of]. unfold net_not_ready_thrice.
  destruct (List.length h <? 3)%nat; discriminate.
Qed.

(** Scenario D: three times 404, then 200: three sleeps of 1, 2 and 4
    (the jitter is 0 here), four requests, and the 200 response returned. *)
Example scenario_D :
  exists w',
    _get_request "http://airflow-webserver:8080/api/v1/x" [404] 3 (NInt 1)
      (world_of net_not_ready_thrice no_jitter)
    = (Ok (mkResponse 200 (Some (VDict [("value", VStr "{}")]))), w')
    /\ sleeps w' = [1; 2; 4]%float
    /\ List.length (history w') = 4%nat.
Proof. eexists. split; [vm_compute; reflexivity|]. split; reflexivity. Qed.

(** A budget that runs out: the server stays at 404 and the last 404
    response is returned, with no exception. *)
Example budget_exhausted :
  fst (_get_request "u" [404] 2 (NInt 1)
         (world_of (fun _ _ => Responded (mkResponse 404 None)) no_jitter))
  = Ok (mkResponse 404 None).
Proof. vm_compute. reflexivity. Qed.

(** The waits are floating-point values: a base of 0.1 doubled and a draw
    of 0.1 make 0.30000000000000004. *)
Example float_backoff :
  sleeps (snd (_get_request "u" [404] 2 (NFloat 0x1.999999999999ap-4)
                 (world_of (fun _ _ => Responded (mkResponse 404 None))
                           (fun _ => 0x1.999999999999ap-4%float))))
  = [0x1.999999999999ap-3; 0x1.3333333333334p-2]%float.
Proof. vm_compute. reflexivity. Qed.

(** On a [float] base the waits without the jitter are rounded products:
    0.1 doubles to 0.2, the largest [float] doubles to infinity, and a
    power of two beyond the [float]s is an [OverflowError]. *)
Example float_backoff_values :
  backoff (NFloat 0x1.999999999999ap-4) 1 = Ok (NFloat 0x1.999999999999ap-3)
  /\ backoff (NFloat 0x1.fffffffffffffp1023) 1 = Ok (NFloat infinity)
  /\ backoff (NFloat 1) 1024 = Raise OverflowError.
Proof. repeat split; vm_compute; reflexivity. Qed.

(** A negative wait is refused by [time.sleep]. *)
Example negative_backoff_raises :
  fst (_get_request "u" [404] 3 (NInt (-1)) (world_of net_not_ready_thrice no_jitter))
  = Raise ValueError.
Proof. vm_compute. reflexivity. Qed.

(** C8 fails as stated: with a base of [10 ** 10] the first wait is beyond
    what [time.sleep] accepts, and the [OverflowError] leaves
    [_get_request] after the first not-ready answer, where the claim has it
    return the last response. *)
Lemma huge_backoff_raises :
  fst (_get_request "u" [404] 3 (NInt (10 ^ 10))
         (world_of net_not_ready_thrice no_jitter))
  = Raise OverflowError.
Proof. vm_compute. reflexivity. Qed.

Lemma scenario_waits_accepted :
  waits_accepted (NInt 1) (fun k => no_jitter k) 3.
Proof.
  intros k Hk. destruct k as [|[|[|k]]]; [| | |lia].
  - exists 1%float. split; reflexivity.
  - exists 2%float. split; reflexivity.
  - exists 4%float. split; reflexivity.
Qed.

Lemma get_request_bounded_backoff_witness :
  exists retries response w',
    _get_request "u" [404] 3 (NInt 1) (world_of net_not_ready_thrice no_jitter)
    = (Ok response, w')
    /\ Z.of_nat retries <= 3
    /\ List.length (sleeps w') = retries.
Proof.
  destruct (get_request_bounded_backoff "u" [404] 3 (NInt 1)
              (world_of net_not_ready_thrice no_jitter)
              (net_not_ready_thrice_answers _) scenario_waits_accepted)
    as (retries & new & waits & response & w' & Hrun & Hle & _ & _ & _ & _ & Hs & Hw & _).
  exists retries, response, w'. split; [exact Hrun|]. split; [exact Hle|].
  rewrite Hs. cbn [sleeps world_of app].
  rewrite <- (length_map (@Ok float) waits), Hw. now rewrite length_map, length_seq.
Defined.

(** The artifact of a finished run is read into its [RunResult]. *)
Example artifact_parsed :
  fst (run_list_dag_runs (world_of (net_airflow (artifact (VStr result_literal))) no_jitter))
  = Ok (mkRunLogsResponse
          [mkRunLog "nightly" (VStr "warehouse") (VStr "ga4") (VStr "@daily")
                    (VStr "success") (VStr "2023-05-01T00:00:00Z") (VStr "manual")
                    (mkRunResult 3 1 ["e"] false)]
          (VInt 1)).
Proof. vm_compute. reflexivity. Qed.

(** An artifact without a value gives the empty result. *)
Example artifact_absent :
  fst (run_list_dag_runs (world_of (net_airflow (VDict [])) no_jitter))
  = Ok (mkRunLogsResponse
          [mkRunLog "nightly" (VStr "warehouse") (VStr "ga4") (VStr "@daily")
                    (VStr "success") (VStr "2023-05-01T00:00:00Z") (VStr "manual")
                    RunResult_default]
          (VInt 1)).
Proof. vm_compute. reflexivity. Qed.

(** C10 fails as stated: the value of the artifact is the text of a
    [RunResult] instance, which is no literal; the [ValueError] of
    [ast.literal_eval] leaves [list_dag_runs] instead of an empty result. *)
Lemma unparseable_artifact_propagates :
  fst (run_list_dag_runs (world_of (net_airflow (artifact (VStr result_repr))) no_jitter))
  = Raise ValueError.
Proof. vm_compute. reflexivity. Qed.

Lemma run_result_default_or_parse_error_witness :
  list_dag_runs_loop py_str literal_eval activations [one_run] []
    (world_of (net_airflow (artifact (VStr result_repr))) no_jitter)
  = (Raise ValueError,
     record_exchange (world_of (net_airflow (artifact (VStr result_repr))) no_jitter)
       (get_of (xcom_url py_str (VStr "ga4_dag") (VStr "manual_1") "run_result"))).
Proof.
  refine (proj2 (proj2
    (run_result_default_or_parse_error py_str literal_eval activations
       [("dag_id", VStr "ga4_dag"); ("dag_run_id", VStr "manual_1");
        ("state", VStr "success"); ("end_date", VStr "2023-05-01T00:00:00Z");
        ("run_type", VStr "manual")]
       [] [] "ga4_dag" (VStr "manual_1") _
       (mkResponse 200 (Some (artifact (VStr result_repr))))
       [("value", VStr result_repr)]
       (world_of (net_airflow (artifact (VStr result_repr))) no_jitter)
       eq_refl eq_refl eq_refl eq_refl eq_refl eq_refl))
    result_repr ValueError eq_refl _ eq_refl).
  discriminate.
Defined.

End ClientsExamples.

(** * The rest of the code *)

(** ** Dictionaries *)

Module DictFacts.

Lemma dict_get_set_same d k v : dict_get (dict_set d k v) k = Some v.
Proof.
  induction d as [|[k' v'] d IH]; cbn [dict_set dict_get].
  - now rewrite String.eqb_refl.
  - destruct (String.eqb_spec k' k) as [->|N]; cbn [dict_get].
    + now rewrite String.eqb_refl.
    + destruct (String.eqb_spec k' k); [contradiction | exact IH].
Qed.

Lemma dict_get_set_other d k v k' :
  k <> k' -> dict_get (dict_set d k v) k' = dict_get d k'.
Proof.
  intros N. induction d as [|[k0 v0] d IH]; cbn [dict_set dict_get].
  - destruct (String.eqb_spec k k'); [contradiction | reflexivity].
  - destruct (String.eqb_spec k0 k) as [->|N0]; cbn [dict_get].
    + destruct (String.eqb_spec k k'); [contradiction | reflexivity].
    + destruct (String.eqb_spec k0 k'); [reflexivity | exact IH].
Qed.

Lemma dict_get_none_notin d k : ~ In k (map fst d) -> dict_get d k = None.
Proof.
  induction d as [|[k' v'] d IH]; cbn [dict_get map fst In]; [reflexivity|].
  intros N. destruct (String.eqb_spec k' k) as [E|_]; [tauto|]. apply IH. tauto.
Qed.

Lemma dict_set_keys_new d k v :
  ~ In k (map fst d) -> map fst (dict_set d k v) = (map fst d ++ [k])%list.
Proof.
  induction d as [|[k' v'] d IH]; cbn [dict_set map fst In app]; [reflexivity|].
  intros N. destruct (String.eqb_spec k' k) as [E|_]; [tauto|].
  cbn [map fst]. rewrite IH by tauto. reflexivity.
Qed.

End DictFacts.
Import DictFacts.

(** ** [dags/utils.py] *)

Module UtilsFacts.

(** X1. [RunResult.__add__] is associative, [RunResult()] is its identity
    on both sides, and the counters and the dry-run flag of a sum do not
    depend on the order of the operands (the messages do). *)
Theorem RunResult_add_monoid :
  (forall a b c,
      RunResult_add (RunResult_add a b) c = RunResult_add a (RunResult_add b c))
  /\ (forall a, RunResult_add RunResult_default a = a
                /\ RunResult_add a RunResult_default = a)
  /\ (forall a b,
         successful_hits (RunResult_add a b) = successful_hits (RunResult_add b a)
         /\ failed_hits (RunResult_add a b) = failed_hits (RunResult_add b a)
         /\ dry_run (RunResult_add a b) = dry_run (RunResult_add b a)).
Proof.
  repeat split.
  - intros [s1 f1 e1 d1] [s2 f2 e2 d2] [s3 f3 e3 d3]. unfold RunResult_add. cbn.
    now rewrite !Z.add_assoc, app_assoc, orb_assoc.
  - destruct a as [s f e d]. reflexivity.
  - destruct a as [s f e d]. unfold RunResult_add, RunResult_default. cbn.
    now rewrite !Z.add_0_r, app_nil_r, orb_false_r.
  - cbn. apply Z.add_comm.
  - cbn. apply Z.add_comm.
  - cbn. apply orb_comm.
Qed.

Lemma parse_row_run fields : forall i row d,
  NoDup fields ->
  (forall f, In f fields -> ~ In f (map fst d)) ->
  (i + List.length fields <= List.length row)%nat ->
  exists d',
    parse_row fields i row d = Ok d'
    /\ map fst d' = (map fst d ++ fields)%list
    /\ (forall k f, nth_error fields k = Some f -> dict_get d' f = nth_error row (i + k))
    /\ (forall f, ~ In f fields -> dict_get d' f = dict_get d f).
Proof.
  induction fields as [|field rest IH]; intros i row d Hnd Hfresh Hlen.
  - exists d. cbn [parse_row]. rewrite app_nil_r. repeat split; trivial.
    intros [|k] f H; discriminate H.
  - cbn [parse_row]. cbn [List.length] in Hlen.
    destruct (nth_error row i) as [v|] eqn:Ev.
    2:{ apply nth_error_None in Ev. lia. }
    inversion Hnd as [|? ? Hnotin Hnd']; subst.
    destruct (IH (S i) row (dict_set d field v) Hnd') as (d' & Hrun & Hk & Hget & Hother).
    + intros f Hf. rewrite dict_set_keys_new by (apply Hfresh; now left).
      rewrite in_app_iff. intros [Hin|[->|[]]]; [|contradiction].
      exact (Hfresh f (or_intror Hf) Hin).
    + lia.
    + exists d'. split; [exact Hrun|]. repeat split.
      * rewrite Hk, dict_set_keys_new by (apply Hfresh; now left).
        now rewrite <- app_assoc.
      * intros [|k] f Hf; cbn [nth_error] in Hf.
        -- injection Hf as <-. rewrite Hother by exact Hnotin.
           rewrite dict_get_set_same, Nat.add_0_r. now symmetry.
        -- rewrite (Hget k f Hf). f_equal. lia.
      * intros f Hf. rewrite Hother by (intros H; apply Hf; now right).
        apply dict_get_set_other. intros ->. apply Hf. now left.
Qed.

Lemma parse_row_short fields : forall i row d,
  (i <= List.length row)%nat ->
  (List.length row < i + List.length fields)%nat ->
  parse_row fields i row d = Raise IndexError.
Proof.
  induction fields as [|field rest IH]; intros i row d Hi Hlen;
    cbn [List.length] in Hlen.
  - lia.
  - cbn [parse_row]. destruct (nth_error row i) as [v|] eqn:Ev; [|reflexivity].
    assert (i < List.length row)%nat by (apply nth_error_Some; congruence).
    apply IH; lia.
Qed.

Lemma parse_rows_ok fields : forall rows events,
  NoDup fields ->
  (forall row, In row rows -> (List.length fields <= List.length row)%nat) ->
  exists new,
    parse_rows fields rows events = Ok (events ++ new)%list
    /\ Forall2 (fun row event =>
                  map fst event = fields
                  /\ forall k f, nth_error fields k = Some f ->
                                 dict_get event f = nth_error row k)
               rows new.
Proof.
  induction rows as [|row rows IH]; intros events Hnd Hlen.
  - exists []. cbn. rewrite app_nil_r. split; [reflexivity | constructor].
  - cbn [parse_rows].
    destruct (parse_row_run fields 0 row [] Hnd) as (d & Hrun & Hk & Hget & _).
    + intros f _ [].
    + cbn. apply Hlen. now left.
    + rewrite Hrun.
      destruct (IH (events ++ [d])%list Hnd) as (new & Hrows & Hall).
      * intros r Hr. apply Hlen. now right.
      * exists (d :: new). rewrite Hrows, <- app_assoc. split; [reflexivity|].
        constructor; [|exact Hall]. split; [exact Hk | exact Hget].
Qed.

Lemma parse_rows_short fields : forall rows events,
  Exists (fun row => (List.length row < List.length fields)%nat) rows ->
  parse_rows fields rows events = Raise IndexError.
Proof.
  induction rows as [|row rows IH]; intros events Hex; [inversion Hex|].
  cbn [parse_rows].
  destruct (Nat.lt_ge_cases (List.length row) (List.length fields)) as [Hs|Hl].
  - rewrite parse_row_short; [reflexivity | lia | exact Hs].
  - destruct (parse_row fields 0 row []) as [d|e] eqn:E.
    + apply IH. inversion Hex; subst; [lia | assumption].
    + assert (H : forall fs i r d0 e0, parse_row fs i r d0 = Raise e0 -> e0 = IndexError).
      { clear. induction fs as [|f fs IHf]; intros i r d0 e0; cbn [parse_row];
          [discriminate|].
        destruct (nth_error r i); [apply IHf | now intros [= <-]]. }
      now rewrite (H _ _ _ _ _ E).
Qed.

(** X2. [_parse_data] turns each row into a dict when every row has at
    least as many entries as there are fields: for distinct field names the
    result has one dict per row, in order, whose keys are the fields in
    order and whose value at the [k]-th field is the [k]-th entry of the row
    (further entries are dropped).  A row with fewer entries than fields
    makes it raise [IndexError]. *)
Theorem parse_data_by_position fields rows :
  (NoDup fields ->
   (forall row, In row rows -> (List.length fields <= List.length row)%nat) ->
   exists events,
     _parse_data fields rows = Ok events
     /\ Forall2 (fun row event =>
                   map fst event = fields
                   /\ forall k f, nth_error fields k = Some f ->
                                  dict_get event f = nth_error row k)
                rows events)
  /\ (Exists (fun row => (List.length row < List.length fields)%nat) rows ->
      _parse_data fields rows = Raise IndexError).
Proof.
  split.
  - intros Hnd Hlen. destruct (parse_rows_ok fields rows [] Hnd Hlen) as (new & H & Hall).
    exists new. split; [exact H | exact Hall].
  - apply parse_rows_short.
Qed.

End UtilsFacts.

(** ** The destination: construction, payloads and fields *)

Module GA4MPMoreFacts.
Import GA4MP GA4MPFacts.
Local Open Scope py_scope.

Section Destination.

Variable py_str : pyval -> string.
Variable error_value : ErrorNameIDMap -> pyval.
Variable default_error_num : pyval.

(** X3. [Destination(config)] raises a configuration error, and touches
    nothing of the world, exactly in four cases, checked in this order: no
    API secret; a payload type that is neither [firebase] nor [gtag];
    [firebase] without an app id; [gtag] without a measurement id.  Every
    other configuration gives a destination; no other exception is raised. *)
Theorem init_accepts_or_names_the_error config w :
  match config_error py_str config with
  | Some msg =>
      __init__ py_str config w = (Raise (DataOutConnectorValueError (Some msg) None), w)
  | None => exists self, __init__ py_str config w = (Ok self, w)
  end.
Proof.
  unfold config_error, __init__, _validate_credentials, _build_api_url,
    bind, getattr, ret, raise.
  cbn [dict_set dict_get String.eqb Ascii.eqb Bool.eqb].
  destruct (pyval_eq_str (dict_get_none config "payload_type") FIREBASE) eqn:Ef;
    destruct (pyval_eq_str (dict_get_none config "payload_type") GTAG) eqn:Eg;
    try (exfalso; eapply payload_type_exclusive; eassumption);
    cbn [negb orb andb dict_set dict_get String.eqb Ascii.eqb Bool.eqb];
    rewrite ?Ef, ?Eg;
    cbn [negb orb andb dict_set dict_get String.eqb Ascii.eqb Bool.eqb];
    repeat (match goal with
            | |- context [truthy ?x] => destruct (truthy x)
            end;
            cbn [negb orb andb dict_set dict_get String.eqb Ascii.eqb Bool.eqb];
            rewrite ?Ef, ?Eg;
            cbn [negb orb andb dict_set dict_get String.eqb Ascii.eqb Bool.eqb]);
    first [reflexivity | eexists; reflexivity].
Qed.

(** What [__init__] stores on the destination it returns. *)
Lemma init_attrs config w self w' :
  __init__ py_str config w = (Ok self, w') ->
  dict_get self "config" = Some (VDict config)
  /\ dict_get self "payload_type" = Some (dict_get_none config "payload_type")
  /\ dict_get self "api_secret" = Some (dict_get_none config "api_secret")
  /\ dict_get self "non_personalized_ads"
     = Some (py_or (dict_get_none config "non_personalized_ads") (VBool false))
  /\ dict_get self "user_properties"
     = Some (py_or (dict_get_none config "user_properties") VNone)
  /\ dict_get self "debug" = Some (py_or (dict_get_none config "debug") (VBool false))
  /\ dict_get self "post_url"
     = Some (VStr (_GA_EVENT_POST_URL ++ "?" ++ query_of py_str config))
  /\ dict_get self "validate_url"
     = Some (VStr (_GA_EVENT_VALIDATION_URL ++ "?" ++ query_of py_str config))
  /\ (pyval_eq_str (dict_get_none config "payload_type") FIREBASE
      || pyval_eq_str (dict_get_none config "payload_type") GTAG) = true.
Proof.
  unfold __init__, _validate_credentials, _build_api_url, bind, getattr, ret, raise,
    query_of.
  cbn [dict_set dict_get String.eqb Ascii.eqb Bool.eqb].
  intros H.
  repeat (match type of H with
          | context [if ?b then _ else _] => destruct b eqn:?
          end; cbn [dict_set dict_get String.eqb Ascii.eqb Bool.eqb negb orb] in H);
    try discriminate.
  all: injection H as <- <-.
  all: cbn [dict_get String.eqb Ascii.eqb Bool.eqb].
  all: repeat match goal with
         | E : pyval_eq_str _ _ = _ |- _ => rewrite E
         end.
  all: repeat split; reflexivity.
Qed.

(** X4. On a destination [__init__] returns, [post_url] and [validate_url]
    are the production and the sandbox base URL followed by the same query
    string, which holds the API secret and, for [gtag], the measurement id,
    otherwise the Firebase app id; [non_personalized_ads] and [debug] are
    [False] and [user_properties] is [None] when the configuration leaves
    them out or gives a false value. *)
Theorem init_urls_and_defaults config w self w' :
  __init__ py_str config w = (Ok self, w') ->
  url_attr self "post_url" = _GA_EVENT_POST_URL ++ "?" ++ query_of py_str config
  /\ url_attr self "validate_url"
     = _GA_EVENT_VALIDATION_URL ++ "?" ++ query_of py_str config
  /\ (forall flag, flag = "non_personalized_ads" \/ flag = "debug" ->
                   dict_get self flag
                   = Some (if truthy (dict_get_none config flag)
                           then dict_get_none config flag else VBool false))
  /\ dict_get self "user_properties"
     = Some (if truthy (dict_get_none config "user_properties")
             then dict_get_none config "user_properties" else VNone).
Proof.
  intros H. apply init_attrs in H as (_ & _ & _ & Hn & Hu & Hd & Hp & Hv & _).
  unfold url_attr. rewrite Hp, Hv. repeat split; trivial.
  intros flag [-> | ->]; assumption.
Qed.

(** The payload of an event, key by key. *)
Lemma build_payload_run config w0 self w0' event w :
  __init__ py_str config w0 = (Ok self, w0') ->
  let user_properties := py_or (dict_get_none config "user_properties") VNone in
  build_payload py_str self event w =
  (Ok ([(identity_field config,
         if pyval_eq_str (dict_get_none config "payload_type") FIREBASE
         then dict_get_default event "app_instance_id" (VStr "")
         else VStr (py_str (dict_get_default event "client_id" (VStr ""))));
        ("user_id", VStr (py_str (dict_get_default event "user_id" (VStr ""))));
        ("non_personalized_ads",
         py_or (dict_get_none config "non_personalized_ads") (VBool false))]
       ++ (if truthy user_properties then [("user_properties", user_properties)] else [])
       ++ [("events",
            VList [VDict [("name", dict_get_default event "event_name" (VStr ""));
                          ("params",
                           VDict [("engagement_time_msec",
                                   dict_get_default event "engagement_time_msec" (VStr ""));
                                  ("session_id",
                                   dict_get_default event "session_id" (VStr ""))])]])])%list,
   w).
Proof.
  intros H. apply init_attrs in H as (_ & Hpt & _ & Hn & Hu & _ & _ & _ & Hok).
  unfold build_payload, bind, getattr, identity_field. rewrite Hpt, Hn, Hu. unfold ret.
  destruct (pyval_eq_str (dict_get_none config "payload_type") FIREBASE) eqn:Ef.
  - destruct (truthy (py_or (dict_get_none config "user_properties") VNone));
      reflexivity.
  - cbn [orb] in Hok. rewrite Hok.
    destruct (truthy (py_or (dict_get_none config "user_properties") VNone));
      reflexivity.
Qed.

Lemma payload_has_one_identity_aux config w0 self w0' event w :
  __init__ py_str config w0 = (Ok self, w0') ->
  exists payload,
    build_payload py_str self event w = (Ok payload, w)
    /\ dict_get payload "validationBehavior" = None.
Proof.
  intros H. eexists. split; [apply (build_payload_run _ _ _ _ event w H)|].
  unfold identity_field, py_or.
  destruct (pyval_eq_str (dict_get_none config "payload_type") FIREBASE);
    destruct (truthy (dict_get_none config "user_properties")) eqn:Eu;
    cbn [truthy]; rewrite ?Eu; reflexivity.
Qed.

(** X5. The payload built for an event has exactly one identity field,
    the one of the destination's scheme ([app_instance_id] for [firebase],
    [client_id] for [gtag]), never the other one, and no
    [validationBehavior] marker; its keys are the identity field, [user_id],
    [non_personalized_ads], [user_properties] when the destination has some,
    and [events], in this order.  Building it changes nothing in the world. *)
Theorem payload_has_one_identity config w0 self w0' event w :
  __init__ py_str config w0 = (Ok self, w0') ->
  exists payload,
    build_payload py_str self event w = (Ok payload, w)
    /\ map fst payload
       = ([identity_field config; "user_id"; "non_personalized_ads"]
          ++ (if truthy (dict_get_none config "user_properties")
              then ["user_properties"] else [])
          ++ ["events"])%list
    /\ dict_get payload (other_identity_field config) = None
    /\ dict_get payload "validationBehavior" = None.
Proof.
  intros H. eexists. split; [apply (build_payload_run _ _ _ _ event w H)|].
  unfold identity_field, other_identity_field, py_or.
  destruct (pyval_eq_str (dict_get_none config "payload_type") FIREBASE);
    destruct (truthy (dict_get_none config "user_properties")) eqn:Eu;
    cbn [truthy]; rewrite ?Eu; repeat split; reflexivity.
Qed.

Lemma fields_run config w0 self w0' w :
  __init__ py_str config w0 = (Ok self, w0') ->
  fields self w
  = (Ok [identity_field config; "user_id"; "event_name"; "engagement_time_msec";
         "session_id"], w).
Proof.
  intros H. apply init_attrs in H as (_ & Hpt & _).
  unfold fields, bind, getattr, identity_field. rewrite Hpt. unfold ret.
  destruct (pyval_eq_str (dict_get_none config "payload_type") FIREBASE); reflexivity.
Qed.

(** X6. [fields] names five distinct columns, and they are all the payload
    builder reads of an event: two events that agree on these columns give
    the same payload. *)
Theorem fields_are_what_the_payload_reads config w0 self w0' w :
  __init__ py_str config w0 = (Ok self, w0') ->
  exists columns,
    fields self w = (Ok columns, w)
    /\ List.length columns = 5%nat
    /\ NoDup columns
    /\ forall event1 event2,
         (forall column, In column columns ->
                         dict_get event1 column = dict_get event2 column) ->
         build_payload py_str self event1 w = build_payload py_str self event2 w.
Proof.
  intros H. eexists. split; [apply (fields_run _ _ _ _ w H)|].
  split; [reflexivity|]. split.
  - unfold identity_field.
    destruct (pyval_eq_str (dict_get_none config "payload_type") FIREBASE);
      repeat constructor; cbn; intuition discriminate.
  - intros e1 e2 Hagree.
    rewrite (build_payload_run _ _ _ _ e1 w H), (build_payload_run _ _ _ _ e2 w H).
    assert (Hd : forall column,
               In column [identity_field config; "user_id"; "event_name";
                          "engagement_time_msec"; "session_id"] ->
               dict_get_default e1 column (VStr "") = dict_get_default e2 column (VStr "")).
    { intros c Hc. unfold dict_get_default. now rewrite (Hagree c Hc). }
    unfold identity_field in *.
    destruct (pyval_eq_str (dict_get_none config "payload_type") FIREBASE);
      rewrite (Hd "user_id"), (Hd "event_name"), (Hd "engagement_time_msec"),
        (Hd "session_id") by (cbn; tauto).
    + rewrite (Hd "app_instance_id") by (cbn; tauto). reflexivity.
    + rewrite (Hd "client_id") by (cbn; tauto). reflexivity.
Qed.

(** *** The exchanges of a run, request by request *)

Lemma validate_events_trace self url :
  constructed self ->
  dict_get self "validate_url" = Some (VStr url) ->
  forall events i valid invalid w,
    well_formed_sandbox url w ->
    exists payloads replies w',
      validate_events py_str error_value default_error_num self i events valid invalid w
      = (Ok ((valid ++ fst (verdicts error_value i payloads replies))%list,
             (invalid ++ snd (verdicts error_value i payloads replies))%list), w')
      /\ net w' = net w
      /\ history w'
         = (history w ++ combine (map (validate_request url) payloads) replies)%list
      /\ List.length replies = List.length payloads
      /\ Forall2 (fun event payload =>
                    forall w0, build_payload py_str self event w0 = (Ok payload, w0))
                 events payloads
      /\ Forall (fun reply => well_formed_reply reply = true) replies.
Proof.
  intros Hc Hu. induction events as [|event rest IH]; intros i valid invalid w Hwf.
  - exists [], [], w. cbn. rewrite !app_nil_r. repeat split; constructor.
  - cbn [validate_events].
    destruct (build_payload_ok py_str self event Hc) as (payload & Hp).
    unfold bind at 1. rewrite Hp.
    set (req := validate_request url payload).
    pose proof (Hwf (history w) req eq_refl) as Hr. unfold well_formed_reply in Hr.
    destruct (validator_spec (net w (history w) req)) as [outcome|] eqn:Eo;
      [clear Hr | discriminate Hr].
    destruct (@validate_try_run error_value default_error_num self url payload event i
                valid invalid w outcome Hu Eo) as (w1 & Htry & (N1 & H1 & _)).
    fold req in H1. cbn [record_exchange net history] in N1, H1.
    assert (Hwf1 : well_formed_sandbox url w1).
    { intros h r Hr. rewrite N1. now apply Hwf. }
    unfold bind at 1. rewrite Htry.
    destruct outcome as [|code]; cbn [fst snd].
    + destruct (IH (S i) (valid ++ [(i, payload)])%list invalid w1 Hwf1)
        as (ps & rs & w' & Hrun & N & H & Ln & Hb & Hwell).
      rewrite Hrun.
      exists (payload :: ps), (net w (history w) req :: rs), w'.
      cbn [verdicts]. rewrite Eo. cbn [fst snd map combine List.length].
      rewrite <- app_assoc. repeat split; trivial.
      * congruence.
      * rewrite H, H1, <- app_assoc. reflexivity.
      * now rewrite Ln.
      * constructor; [exact Hp | exact Hb].
      * constructor; [unfold well_formed_reply; now rewrite Eo | exact Hwell].
    + destruct (IH (S i) valid
                  (invalid ++ [(i, error_num_for error_value (net w (history w) req) code)])%list
                  w1 Hwf1)
        as (ps & rs & w' & Hrun & N & H & Ln & Hb & Hwell).
      fold req. rewrite Hrun.
      exists (payload :: ps), (net w (history w) req :: rs), w'.
      cbn [verdicts]. rewrite Eo. cbn [fst snd map combine List.length].
      rewrite <- app_assoc. repeat split; trivial.
      * congruence.
      * rewrite H, H1, <- app_assoc. reflexivity.
      * now rewrite Ln.
      * constructor; [exact Hp | exact Hb].
      * constructor; [unfold well_formed_reply; now rewrite Eo | exact Hwell].
Qed.

Lemma send_events_trace self url debug :
  dict_get self "debug" = Some debug -> truthy debug = false ->
  dict_get self "post_url" = Some (VStr url) ->
  forall valid invalid w,
    exists replies w',
      send_events py_str default_error_num self valid invalid w
      = (Ok (invalid ++ send_verdicts valid replies)%list, w')
      /\ net w' = net w
      /\ history w'
         = (history w
            ++ combine (map (fun valid_event => post_request url (snd valid_event)) valid)
                       replies)%list
      /\ List.length replies = List.length valid.
Proof.
  intros Hd Ht Hu. induction valid as [|[i payload] rest IH]; intros invalid w.
  - exists [], w. cbn. rewrite !app_nil_r. repeat split.
  - cbn [send_events snd fst]. unfold bind at 1, try_except, bind at 1.
    rewrite (send_payload_run py_str self payload url debug w Hd Ht Hu).
    set (req := post_request url payload).
    set (w1 := record_exchange w req).
    destruct (reply_send_failed (net w (history w) req)) eqn:Ef.
    + cbn [send_failure error_num_of]. unfold ret at 1.
      destruct (IH (invalid ++ [(i, VErrorId RETRIABLE_GA_HOOK_ERROR_HTTP_ERROR)])%list w1)
        as (rs & w' & Hrun & N & H & Ln).
      rewrite Hrun. exists (net w (history w) req :: rs), w'.
      cbn [send_verdicts fst snd map combine List.length]. rewrite Ef, <- app_assoc.
      repeat split; trivial.
      * rewrite H. cbn [w1 record_exchange history]. now rewrite <- app_assoc.
      * now rewrite Ln.
    + unfold ret at 1.
      destruct (IH invalid w1) as (rs & w' & Hrun & N & H & Ln).
      rewrite Hrun. exists (net w (history w) req :: rs), w'.
      cbn [send_verdicts fst snd map combine List.length]. rewrite Ef.
      repeat split; trivial.
      * rewrite H. cbn [w1 record_exchange history]. now rewrite <- app_assoc.
      * now rewrite Ln.
Qed.




Lemma validated_verdicts : forall payloads replies i,
  map snd (fst (verdicts error_value i payloads replies)) = validated payloads replies.
Proof.
  unfold validated.
  induction payloads as [|p ps IH]; intros [|r rs] i; cbn [verdicts combine filter map];
    try reflexivity.
  unfold reply_valid at 1. cbn [snd].
  destruct (validator_spec r) as [[|code]|]; cbn [fst snd map]; rewrite ?IH; reflexivity.
Qed.

(** X8. In a live run the sandbox gets one request per event, in order,
    each the event's payload with the [validationBehavior] marker added;
    then production gets exactly the payloads the sandbox found valid, in
    the same order and without the marker.  Nothing else is requested: a
    payload the sandbox rejected is never posted to production. *)
Theorem production_gets_the_validated_payloads config w0 self w0' events w :
  __init__ py_str config w0 = (Ok self, w0') ->
  truthy (dict_get_none config "debug") = false ->
  well_formed_sandbox (url_attr self "validate_url") w ->
  exists payloads sandbox_replies production_replies rr w',
    send_data py_str error_value default_error_num self events false w = (Ok rr, w')
    /\ Forall2 (fun event payload =>
                  forall w0, build_payload py_str self event w0 = (Ok payload, w0))
               events payloads
    /\ List.length sandbox_replies = List.length events
    /\ List.length production_replies
       = List.length (validated payloads sandbox_replies)
    /\ history w'
       = (history w
          ++ combine (map (validate_request (url_attr self "validate_url")) payloads)
                     sandbox_replies
          ++ combine (map (post_request (url_attr self "post_url"))
                          (validated payloads sandbox_replies))
                     production_replies)%list
    /\ Forall (fun payload => dict_get payload "validationBehavior" = None) payloads.
Proof.
  intros Hinit Hd Hwf. pose proof (init_debug _ _ _ _ _ Hinit) as Hdebug.
  pose proof Hinit as Hinit'.
  apply init_constructed in Hinit as [_ Hc].
  destruct (c_urls Hc) as (q & Hp & Hu). unfold url_attr in *. rewrite Hu in Hwf.
  rewrite Hp, Hu.
  assert (Ht : truthy (py_or (dict_get_none config "debug") (VBool false)) = false)
    by now rewrite truthy_py_or_false.
  destruct (validate_events_trace self _ Hc Hu events 0%nat [] [] w Hwf)
    as (ps & rs & w1 & Hrun & _ & H1 & Ln & Hb & _).
  cbn [app] in Hrun.
  set (V := fst (verdicts error_value 0 ps rs)) in *.
  set (I := snd (verdicts error_value 0 ps rs)) in *.
  destruct (send_events_trace self _ _ Hdebug Ht Hp V I w1)
    as (rs' & w' & HrunS & _ & H2 & Ln').
  exists ps, rs, rs'. eexists. exists w'. split.
  { unfold send_data, bind at 1, _get_valid_and_invalid_events. rewrite Hrun.
    cbn [negb fst snd]. unfold bind at 1. rewrite HrunS. reflexivity. }
  split; [exact Hb|].
  split; [rewrite Ln; symmetry; eapply Forall2_length; exact Hb|].
  split; [rewrite Ln'; unfold V; now rewrite <- (validated_verdicts ps rs 0%nat), length_map|].
  split.
  - rewrite H2, H1, <- app_assoc. do 2 f_equal.
    rewrite <- (validated_verdicts ps rs 0%nat), map_map. reflexivity.
  - clear - Hb Hinit'. induction Hb as [|event payload evs ps Hbuilt _ IH]; constructor;
      [|exact IH].
    destruct (payload_has_one_identity_aux config w0 self w0' event w0 Hinit')
      as (p' & Hp' & Hmark).
    rewrite Hbuilt in Hp'. injection Hp' as ->. exact Hmark.
Qed.

(** X9. [Destination.validate] makes exactly one request, a POST of its
    probe payload to the sandbox URL, whatever comes back.  It never looks at
    the status code: with a JSON object whose [validationMessages] is a list,
    the result is valid with no messages when the list is empty, and invalid
    with the list as it is otherwise.  A connection failure leaves as the
    retryable [DataOutConnectorValueError] and a body that is not JSON as a
    [JSONDecodeError]; neither becomes a [ValidationResult]. *)
Theorem validate_reads_only_the_body config w0 self w0' timestamp_micros w :
  __init__ py_str config w0 = (Ok self, w0') ->
  let req := mkRequest POST (url_attr self "validate_url")
               (Some (VDict (validation_probe config timestamp_micros))) in
  let reply := net w (history w) req in
  snd (validate self timestamp_micros w) = record_exchange w req
  /\ (reply = ConnectionFailed ->
      fst (validate self timestamp_micros w)
      = Raise (DataOutConnectorValueError None
                 (Some (VErrorId RETRIABLE_GA4_HOOK_ERROR_HTTP_ERROR))))
  /\ (forall status, reply = Responded (mkResponse status None) ->
                     fst (validate self timestamp_micros w) = Raise JSONDecodeError)
  /\ (forall status d msgs,
         reply = Responded (mkResponse status (Some (VDict d))) ->
         dict_get d "validationMessages" = Some (VList msgs) ->
         fst (validate self timestamp_micros w)
         = Ok match msgs with
              | [] => mkValidationResult true (VList [])
              | _ :: _ => mkValidationResult false (VList msgs)
              end).
Proof.
  intros Hinit req reply. apply init_attrs in Hinit as (_ & Hpt & _ & _ & _ & _ & _ & Hv & _).
  assert (Hrun :
    validate self timestamp_micros w
    = (match reply with
       | ConnectionFailed =>
           Raise (DataOutConnectorValueError None
                    (Some (VErrorId RETRIABLE_GA4_HOOK_ERROR_HTTP_ERROR)))
       | Responded r =>
           fst ((validation_response <- response_json r ;;
                 validation_messages <- getitem_str validation_response "validationMessages" ;;
                 n <- py_len validation_messages ;;
                 if n <? 1
                 then ret (mkValidationResult true (VList []))
                 else ret (mkValidationResult false validation_messages))
                  (record_exchange w req))
       end, record_exchange w req)).
  { unfold validate, bind at 1, getattr at 1. rewrite Hpt. unfold ret at 1.
    unfold bind at 1.
    erewrite send_validate_run by exact Hv.
    assert (Hreq : forall payload,
               payload = validation_probe config timestamp_micros ->
               validate_request (_GA_EVENT_VALIDATION_URL ++ "?" ++ query_of py_str config)
                                payload = req).
    { intros payload ->. unfold req, url_attr, validate_request, validation_probe.
      rewrite Hv. now destruct (pyval_eq_str _ GTAG). }
    rewrite Hreq by (unfold validation_probe; now destruct (pyval_eq_str _ GTAG)).
    fold reply. destruct reply as [|r]; [reflexivity|].
    unfold bind, response_json, getitem_str, py_len, ret, raise.
    destruct (json_body r) as [[| | | | |d| |]|]; try reflexivity.
    destruct (dict_get d "validationMessages") as [[| | |s|l|d'| |]|]; try reflexivity.
    - destruct (Z.of_nat (String.length s) <? 1); reflexivity.
    - destruct (Z.of_nat (List.length l) <? 1); reflexivity.
    - destruct (Z.of_nat (List.length d') <? 1); reflexivity. }
  rewrite Hrun. cbn [fst snd]. split; [reflexivity|]. repeat split.
  - intros ->. reflexivity.
  - intros status ->. reflexivity.
  - intros status d msgs -> Hd. unfold bind, response_json, getitem_str. cbn [json_body].
    unfold ret. rewrite Hd. cbn [py_len]. unfold ret.
    destruct msgs as [|m msgs]; [reflexivity|]. cbn [List.length].
    destruct (Z.ltb_spec (Z.of_nat (S (List.length msgs))) 1); [lia | reflexivity].
Qed.

(** X10. A source row read under the columns of [fields] ends up in the
    payload by position: the first entry is the identity ([str] of it for
    [gtag]), the second, through [str], the [user_id], the third the name of
    the event, the fourth and fifth its two parameters; entries beyond the
    fifth are dropped. *)
Theorem row_reaches_the_payload_by_position config w0 self w0' w c0 c1 c2 c3 c4 more :
  __init__ py_str config w0 = (Ok self, w0') ->
  exists columns event payload,
    fields self w = (Ok columns, w)
    /\ _parse_data columns [(c0 :: c1 :: c2 :: c3 :: c4 :: more)%list] = Ok [event]
    /\ build_payload py_str self event w = (Ok payload, w)
    /\ dict_get payload (identity_field config)
       = Some (if pyval_eq_str (dict_get_none config "payload_type") FIREBASE
               then c0 else VStr (py_str c0))
    /\ dict_get payload "user_id" = Some (VStr (py_str c1))
    /\ dict_get payload "events"
       = Some (VList [VDict [("name", c2);
                             ("params", VDict [("engagement_time_msec", c3);
                                               ("session_id", c4)])]]).
Proof.
  intros H. pose proof (fields_run _ _ _ _ w H) as Hf.
  pose proof (fun event => build_payload_run _ _ _ _ event w H) as Hb.
  unfold identity_field in *.
  destruct (pyval_eq_str (dict_get_none config "payload_type") FIREBASE) eqn:Ef.
  all: eexists; eexists; eexists.
  all: split; [exact Hf|]; split; [reflexivity|]; split; [apply Hb|].
  all: destruct (truthy (py_or (dict_get_none config "user_properties") VNone));
    repeat split; reflexivity.
Qed.

(** *** [send_data], its exchanges and its counters *)

Lemma verdicts_counts : forall payloads replies i,
  List.length replies = List.length payloads ->
  List.length (fst (verdicts error_value i payloads replies))
  = List.length (filter reply_valid replies)
  /\ List.length (snd (verdicts error_value i payloads replies))
     = List.length (filter reply_invalid replies).
Proof.
  induction payloads as [|p ps IH]; intros [|r rs] i Hlen; try discriminate Hlen;
    [split; reflexivity|].
  destruct (IH rs (S i)) as [HV HI]; [cbn in Hlen; lia|].
  cbn [verdicts filter].
  change (reply_valid r)
    with (match validator_spec r with Some Valid => true | _ => false end).
  change (reply_invalid r)
    with (match validator_spec r with Some (Invalid _) => true | _ => false end).
  destruct (validator_spec r) as [[|code]|]; cbn [fst snd List.length];
    rewrite ?HV, ?HI; split; reflexivity.
Qed.

Lemma send_verdicts_count : forall valid replies,
  List.length replies = List.length valid ->
  List.length (send_verdicts valid replies)
  = List.length (filter reply_send_failed replies).
Proof.
  induction valid as [|v vs IH]; intros [|r rs] Hlen; try discriminate Hlen;
    [reflexivity|].
  cbn [send_verdicts filter].
  destruct (reply_send_failed r); cbn [List.length]; rewrite IH; trivial;
    cbn in Hlen; lia.
Qed.

Lemma well_formed_partition replies :
  Forall (fun reply => well_formed_reply reply = true) replies ->
  (List.length (filter reply_valid replies) + List.length (filter reply_invalid replies)
   = List.length replies)%nat.
Proof.
  induction 1 as [|r rs Hr _ IH]; [reflexivity|].
  cbn [filter]. unfold well_formed_reply in Hr.
  change (reply_valid r)
    with (match validator_spec r with Some Valid => true | _ => false end).
  change (reply_invalid r)
    with (match validator_spec r with Some (Invalid _) => true | _ => false end).
  destruct (validator_spec r) as [[|code]|]; [| |discriminate Hr];
    cbn [List.length]; lia.
Qed.

Lemma send_verdicts_nil valid : send_verdicts valid [] = [].
Proof. destruct valid; reflexivity. Qed.

(** A run of [send_data] on a destination [__init__] accepted, in a dry
    run or with [debug] off, when the sandbox's answers are well formed: the
    result and the exchanges, read off the answers. *)
Lemma send_data_trace config w0 self w0' events dry w :
  __init__ py_str config w0 = (Ok self, w0') ->
  dry = true \/ truthy (dict_get_none config "debug") = false ->
  well_formed_sandbox (url_attr self "validate_url") w ->
  exists payloads sandbox_replies production_replies w',
    let valid := fst (verdicts error_value 0 payloads sandbox_replies) in
    let invalid := (snd (verdicts error_value 0 payloads sandbox_replies)
                    ++ send_verdicts valid production_replies)%list in
    send_data py_str error_value default_error_num self events dry w
    = (Ok (mkRunResult (Z.of_nat (List.length valid)) (Z.of_nat (List.length invalid))
                       (map (fun error => py_str (snd error)) invalid) dry), w')
    /\ Forall2 (fun event payload =>
                  forall w0, build_payload py_str self event w0 = (Ok payload, w0))
               events payloads
    /\ List.length sandbox_replies = List.length events
    /\ Forall (fun reply => well_formed_reply reply = true) sandbox_replies
    /\ List.length production_replies = (if dry then 0%nat else List.length valid)
    /\ history w'
       = (history w
          ++ combine (map (validate_request (url_attr self "validate_url")) payloads)
                     sandbox_replies
          ++ combine (map (post_request (url_attr self "post_url"))
                          (validated payloads sandbox_replies))
                     production_replies)%list.
Proof.
  intros Hinit Hmode Hwf. pose proof (init_debug _ _ _ _ _ Hinit) as Hdebug.
  apply init_constructed in Hinit as [_ Hc].
  destruct (c_urls Hc) as (q & Hp & Hu). unfold url_attr in *. rewrite Hu in Hwf.
  rewrite Hp, Hu.
  destruct (validate_events_trace self _ Hc Hu events 0%nat [] [] w Hwf)
    as (ps & rs & w1 & Hrun & _ & H1 & Ln & Hb & Hwell).
  cbn [app] in Hrun.
  assert (Hlen : List.length rs = List.length events).
  { rewrite Ln. symmetry. eapply Forall2_length. exact Hb. }
  destruct dry.
  - exists ps, rs, [], w1. cbv zeta. rewrite send_verdicts_nil, app_nil_r. split.
    { unfold send_data, bind at 1, _get_valid_and_invalid_events. rewrite Hrun.
      reflexivity. }
    split; [exact Hb|]. split; [exact Hlen|]. split; [exact Hwell|]. split; [reflexivity|].
    rewrite H1. destruct (map _ (validated ps rs)); cbn [combine]; now rewrite app_nil_r.
  - destruct Hmode as [Hmode|Hd]; [discriminate Hmode|].
    assert (Ht : truthy (py_or (dict_get_none config "debug") (VBool false)) = false)
      by now rewrite truthy_py_or_false.
    destruct (send_events_trace self _ _ Hdebug Ht Hp
                (fst (verdicts error_value 0 ps rs)) (snd (verdicts error_value 0 ps rs)) w1)
      as (rs' & w' & HrunS & _ & H2 & Ln').
    exists ps, rs, rs', w'. cbv zeta. split.
    { unfold send_data, bind at 1, _get_valid_and_invalid_events. rewrite Hrun.
      cbn [negb fst snd]. unfold bind at 1. rewrite HrunS. reflexivity. }
    split; [exact Hb|]. split; [exact Hlen|]. split; [exact Hwell|]. split; [exact Ln'|].
    rewrite H2, H1, <- app_assoc. do 2 f_equal.
    rewrite <- (validated_verdicts ps rs 0%nat), map_map. reflexivity.
Qed.

(** The loops go through their lists in order: a list in two parts is the
    first part, then the second from where the first ended. *)
Lemma validate_events_app self : forall pre post i valid invalid w,
  validate_events py_str error_value default_error_num self i (pre ++ post) valid invalid w
  = match validate_events py_str error_value default_error_num self i pre valid invalid w
    with
    | (Ok lists, w1) =>
        validate_events py_str error_value default_error_num self
          (i + List.length pre) post (fst lists) (snd lists) w1
    | (Raise e, w1) => (Raise e, w1)
    end.
Proof.
  induction pre as [|event pre IH]; intros post i valid invalid w.
  - cbn. rewrite Nat.add_0_r. reflexivity.
  - cbn [app validate_events List.length]. unfold bind.
    destruct (build_payload py_str self event w) as [[payload|e] w1]; [|reflexivity].
    match goal with
    | |- context [try_except ?c ?h w1] => destruct (try_except c h w1) as [[lists|e] w2]
    end; [|reflexivity].
    rewrite IH. replace (S i + List.length pre)%nat with (i + S (List.length pre))%nat by lia.
    reflexivity.
Qed.

Lemma send_events_app self : forall sent rest invalid w,
  send_events py_str default_error_num self (sent ++ rest) invalid w
  = match send_events py_str default_error_num self sent invalid w with
    | (Ok invalid', w1) => send_events py_str default_error_num self rest invalid' w1
    | (Raise e, w1) => (Raise e, w1)
    end.
Proof.
  induction sent as [|valid_event sent IH]; intros rest invalid w; [reflexivity|].
  cbn [app send_events]. unfold bind.
  match goal with
  | |- context [try_except ?c ?h w] => destruct (try_except c h w) as [[invalid'|e] w1]
  end; [|reflexivity].
  apply IH.
Qed.


(** C2, as the code has it.  Without [dry_run], for a destination whose
    [debug] flag is off and a sandbox whose answers are well formed,
    [send_data] returns a result after one request to the sandbox for each
    event, with the payload of the event, and one POST to production for
    each event the sandbox found valid, failed or not, and nothing else.
    [successful_hits] is the number of events the sandbox found valid and
    [failed_hits] the number of events it rejected plus the number of
    production POSTs that failed; the two add up to the number of events
    plus the number of failed POSTs. *)
Theorem live_run_counts config w0 self w0' events w :
  __init__ py_str config w0 = (Ok self, w0') ->
  truthy (dict_get_none config "debug") = false ->
  well_formed_sandbox (url_attr self "validate_url") w ->
  exists payloads sandbox_replies production_replies rr w',
    send_data py_str error_value default_error_num self events false w = (Ok rr, w')
    /\ Forall2 (fun event payload =>
                  forall w0, build_payload py_str self event w0 = (Ok payload, w0))
               events payloads
    /\ List.length sandbox_replies = List.length events
    /\ history w'
       = (history w
          ++ combine (map (validate_request (url_attr self "validate_url")) payloads)
                     sandbox_replies
          ++ combine (map (post_request (url_attr self "post_url"))
                          (validated payloads sandbox_replies))
                     production_replies)%list
    /\ let passed := List.length (filter reply_valid sandbox_replies) in
       let rejected := List.length (filter reply_invalid sandbox_replies) in
       let unsent := List.length (filter reply_send_failed production_replies) in
       (passed + rejected = List.length events)%nat
       /\ List.length production_replies = passed
       /\ successful_hits rr = Z.of_nat passed
       /\ failed_hits rr = Z.of_nat rejected + Z.of_nat unsent
       /\ successful_hits rr + failed_hits rr
          = Z.of_nat (List.length events) + Z.of_nat unsent
       /\ dry_run rr = false.
Proof.
  intros Hinit Hd Hwf.
  destruct (send_data_trace config w0 self w0' events false w Hinit (or_intror Hd) Hwf)
    as (ps & rs & rs' & w' & Hrun & Hb & Hlen & Hwell & Hlen' & Hh).
  cbv zeta in Hrun.
  assert (Hps : List.length rs = List.length ps).
  { rewrite Hlen. eapply Forall2_length. exact Hb. }
  destruct (verdicts_counts ps rs 0%nat Hps) as [HV HI].
  pose proof (send_verdicts_count _ _ Hlen') as HF.
  pose proof (well_formed_partition rs Hwell) as Hpart. rewrite Hlen in Hpart.
  eexists ps, rs, rs', _, w'. split; [exact Hrun|].
  cbn [successful_hits failed_hits dry_run]. cbv zeta.
  split; [exact Hb|]. split; [exact Hlen|]. split; [exact Hh|].
  rewrite length_app, HV, HI, HF.
  split; [exact Hpart|]. split; [rewrite Hlen', HV; reflexivity|].
  split; [reflexivity|]. split; [lia|]. split; [lia | reflexivity].
Qed.

(** C9, as the code has it.  [__init__] touches nothing of the world and,
    when it refuses a configuration, raises a [DataOutConnectorValueError]
    with a message.  For a destination it accepted:

    - with a sandbox whose answers are well formed and any answers of
      production, in a dry run or with the [debug] flag off, [send_data]
      returns a result after one request to the sandbox for each event and,
      in a live run, one to production for each event found valid; every
      rejection and every failed POST is an entry of the invalid list:
      counted in [failed_hits], with its code in [error_messages];
    - an exception of the validator that is not a
      [DataOutConnectorValueError] is not caught: it leaves [send_data] at
      the first event that raises it;
    - an exception of the sender that is of neither [DataOutConnector]
      class is not caught either. *)
Theorem classified_errors_are_folded config w0 events dry w :
  (forall r w0',
      __init__ py_str config w0 = (r, w0') ->
      w0' = w0 /\ match r with
                  | Ok self => constructed self
                  | Raise e => exists msg, e = DataOutConnectorValueError (Some msg) None
                  end)
  /\ (forall self w0',
         __init__ py_str config w0 = (Ok self, w0') ->
         (dry = true \/ truthy (dict_get_none config "debug") = false ->
          well_formed_sandbox (url_attr self "validate_url") w ->
          exists payloads sandbox_replies production_replies rr w',
            send_data py_str error_value default_error_num self events dry w = (Ok rr, w')
            /\ Forall2 (fun event payload =>
                          forall w0, build_payload py_str self event w0 = (Ok payload, w0))
                       events payloads
            /\ List.length sandbox_replies = List.length events
            /\ List.length production_replies
               = (if dry then 0%nat
                  else List.length (filter reply_valid sandbox_replies))
            /\ history w'
               = (history w
                  ++ combine (map (validate_request (url_attr self "validate_url"))
                                  payloads)
                             sandbox_replies
                  ++ combine (map (post_request (url_attr self "post_url"))
                                  (validated payloads sandbox_replies))
                             production_replies)%list
            /\ failed_hits rr
               = Z.of_nat (List.length (filter reply_invalid sandbox_replies)
                           + List.length (filter reply_send_failed production_replies))
            /\ error_messages rr
               = map (fun entry => py_str (snd entry))
                     (snd (verdicts error_value 0 payloads sandbox_replies)
                      ++ send_verdicts (fst (verdicts error_value 0 payloads sandbox_replies))
                                       production_replies)
            /\ Z.of_nat (List.length (error_messages rr)) = failed_hits rr)
         /\ (forall pre event post valid invalid w1 payload e w2,
                events = (pre ++ event :: post)%list ->
                _get_valid_and_invalid_events py_str error_value default_error_num
                  self pre w = (Ok (valid, invalid), w1) ->
                build_payload py_str self event w1 = (Ok payload, w1) ->
                bind (_send_validate_request self payload)
                     (_parse_validate_result error_value event) w1 = (Raise e, w2) ->
                (forall msg error_num, e <> DataOutConnectorValueError msg error_num) ->
                send_data py_str error_value default_error_num self events dry w
                = (Raise e, w2))
         /\ (forall valid invalid w1 sent i payload rest invalid' w2 e w3,
                dry = false ->
                _get_valid_and_invalid_events py_str error_value default_error_num
                  self events w = (Ok (valid, invalid), w1) ->
                valid = (sent ++ (i, payload) :: rest)%list ->
                send_events py_str default_error_num self sent invalid w1
                = (Ok invalid', w2) ->
                _send_payload py_str self payload w2 = (Raise e, w3) ->
                (forall msg error_num,
                    e <> DataOutConnectorValueError msg error_num
                    /\ e <> DataOutConnectorSendUnsuccessfulError msg error_num) ->
                send_data py_str error_value default_error_num self events dry w
                = (Raise e, w3))).
Proof.
  split; [intros r w0'; apply init_outcome|].
  intros self w0' Hinit. split; [|split].
  - intros Hmode Hwf.
    destruct (send_data_trace config w0 self w0' events dry w Hinit Hmode Hwf)
      as (ps & rs & rs' & w' & Hrun & Hb & Hlen & Hwell & Hlen' & Hh).
    cbv zeta in Hrun.
    assert (Hps : List.length rs = List.length ps).
    { rewrite Hlen. eapply Forall2_length. exact Hb. }
    destruct (verdicts_counts ps rs 0%nat Hps) as [HV HI].
    assert (HF : List.length (send_verdicts (fst (verdicts error_value 0 ps rs)) rs')
                 = List.length (filter reply_send_failed rs')).
    { destruct dry.
      - destruct rs'; [|discriminate Hlen']. now rewrite send_verdicts_nil.
      - apply send_verdicts_count. exact Hlen'. }
    eexists ps, rs, rs', _, w'. split; [exact Hrun|].
    cbn [failed_hits error_messages].
    split; [exact Hb|]. split; [exact Hlen|].
    split; [rewrite Hlen', HV; reflexivity|]. split; [exact Hh|].
    split; [now rewrite length_app, HI, HF|]. split; [reflexivity|].
    now rewrite length_map.
  - intros pre event post valid invalid w1 payload e w2 -> Hpre Hbuild Hval Hne.
    unfold _get_valid_and_invalid_events in Hpre.
    unfold send_data, _get_valid_and_invalid_events. unfold bind at 1.
    rewrite validate_events_app, Hpre. cbn [validate_events fst snd].
    unfold bind at 1. rewrite Hbuild.
    unfold bind at 1, try_except. rewrite bind_assoc. unfold bind at 1. rewrite Hval.
    destruct e; try reflexivity. exfalso. eapply Hne. reflexivity.
  - intros valid invalid w1 sent i payload rest invalid' w2 e w3 -> Hval -> Hsent Hsend
           Hne.
    unfold _get_valid_and_invalid_events in Hval.
    unfold send_data, _get_valid_and_invalid_events. unfold bind at 1. rewrite Hval.
    cbn [negb fst snd]. unfold bind at 1. rewrite send_events_app, Hsent.
    cbn [send_events fst snd]. unfold bind at 1, try_except, bind at 1. rewrite Hsend.
    destruct e; try reflexivity; exfalso;
      [destruct (Hne msg error_num) as [H _] | destruct (Hne msg error_num) as [_ H]];
      apply H; reflexivity.
Qed.

End Destination.
End GA4MPMoreFacts.

(** ** The Airflow client: fetching, waiting and run logs *)

Module ClientsMoreFacts.
Import Clients ClientsFacts.
Local Open Scope py_scope.

Lemma get_request_once url max_retries base w :
  _get_request url [] max_retries base w
  = (match net w (history w) (get_of url) with
     | ConnectionFailed => Raise ConnectionError
     | Responded r => Ok r
     end, record_exchange w (get_of url)).
Proof.
  unfold _get_request, bind, client_get, send_request. fold (get_of url).
  unfold record_exchange.
  destruct (net w (history w) (get_of url)) as [|r]; [reflexivity|].
  destruct (Z.to_nat max_retries); cbn [get_request_loop in_forcelist existsb];
    rewrite andb_false_r; reflexivity.
Qed.

(** *** Strings cut at a separator *)

Lemma append_assoc (a b c : string) : (a ++ b) ++ c = a ++ (b ++ c).
Proof. induction a as [|x a IH]; cbn; [reflexivity | now rewrite IH]. Qed.

Lemma rev_string_acc s : forall acc, rev_string acc s = rev_string "" s ++ acc.
Proof.
  induction s as [|c s IH]; intros acc; cbn [rev_string]; [reflexivity|].
  rewrite (IH (String c acc)), (IH (String c "")).
  now rewrite append_assoc.
Qed.

Lemma append_empty_r s : s ++ "" = s.
Proof. induction s as [|c s IH]; cbn; [reflexivity | now rewrite IH]. Qed.

Lemma split_go_skip sep : forall t rest cur,
  split_go sep (String.length t) cur (t ++ rest) = split_go sep 0 cur rest.
Proof.
  induction t as [|c t IH]; intros rest cur; cbn [String.length append].
  - reflexivity.
  - cbn [split_go]. apply IH.
Qed.

Lemma split_go_no_separator sep : forall s cur,
  str_contains sep s = false ->
  split_go sep 0 cur s = [rev_string "" cur ++ s].
Proof.
  induction s as [|c s IH]; intros cur H; cbn [split_go].
  - now rewrite append_empty_r.
  - cbn [str_contains] in H. apply orb_false_iff in H as [Hp Hs].
    rewrite Hp, (IH _ Hs). cbn [rev_string]. rewrite (rev_string_acc cur (String c "")).
    now rewrite append_assoc.
Qed.

Lemma str_split_after_separator sep name :
  sep <> "" -> str_contains sep name = false ->
  str_split (sep ++ name) sep = [""; name].
Proof.
  intros Hne Hno. unfold str_split. destruct sep as [|a sep']; [contradiction|].
  cbn [append split_go].
  assert (Hp : String.prefix (String a sep') (String a (sep' ++ name)) = true).
  { apply prefix_iff. now exists name. }
  rewrite Hp. cbn [rev_string].
  replace (String.length (String a sep') - 1)%nat with (String.length sep')
    by (cbn [String.length]; lia).
  rewrite split_go_skip. now rewrite split_go_no_separator.
Qed.

Lemma str_split_no_separator sep s :
  str_contains sep s = false -> str_split s sep = [s].
Proof. intros H. unfold str_split. now rewrite split_go_no_separator. Qed.

Section AirflowClient.

Variable py_str : pyval -> string.
Variable literal_eval : string -> result pyval.
Variable py_lower : string -> string.
Variable ValidationResult_new : pydict -> result ValidationResult.

Lemma get_dag_run_xcom_run dag_id dag_run_id xcom_key w :
  _get_dag_run_xcom py_str dag_id dag_run_id xcom_key w
  = (match net w (history w) (get_of (xcom_url py_str dag_id dag_run_id xcom_key)) with
     | ConnectionFailed => Raise ConnectionError
     | Responded r => Ok r
     end, record_exchange w (get_of (xcom_url py_str dag_id dag_run_id xcom_key))).
Proof.
  unfold _get_dag_run_xcom.
  fold (xcom_url py_str dag_id dag_run_id xcom_key).
  unfold bind. rewrite get_request_once.
  destruct (net w (history w) _); reflexivity.
Qed.

(** X12. [_get_dag_run_xcom] asks once and never waits: whatever the
    status of the answer, also 404, it is returned at once, with one GET in
    the history, no sleep and no random draw; a connection failure is
    raised as it is. *)
Theorem xcom_fetch_asks_once dag_id dag_run_id xcom_key w :
  let req := get_of (xcom_url py_str dag_id dag_run_id xcom_key) in
  _get_dag_run_xcom py_str dag_id dag_run_id xcom_key w
  = (match net w (history w) req with
     | ConnectionFailed => Raise ConnectionError
     | Responded r => Ok r
     end, record_exchange w req).
Proof.
  cbv zeta. apply get_dag_run_xcom_run.
Qed.

(** X13. A run log names the source and the destination by what follows
    [#/sources/] and [#/destinations/] in the activation's references, and
    puts [Missing] for an empty name and for a run without a state, an end
    date or a run type, and [None] for an activation without a schedule; the
    run result is passed through and the world is left alone.  A reference
    that does not contain its separator makes it raise [IndexError]. *)
Theorem run_log_names_and_defaults activation run_fields run_result w
    source_ref destination_ref :
  dict_get (source activation) "$ref" = Some (VStr source_ref) ->
  dict_get (destination activation) "$ref" = Some (VStr destination_ref) ->
  (forall source_name destination_name,
      source_ref = "#/sources/" ++ source_name ->
      str_contains "#/sources/" source_name = false ->
      destination_ref = "#/destinations/" ++ destination_name ->
      str_contains "#/destinations/" destination_name = false ->
      _build_run_log_response activation (VDict run_fields) run_result w
      = (Ok (mkRunLog (name activation)
                      (or_missing (VStr source_name))
                      (or_missing (VStr destination_name))
                      (py_or (schedule activation) (VStr "None"))
                      (or_missing (dict_get_none run_fields "state"))
                      (or_missing (dict_get_none run_fields "end_date"))
                      (or_missing (dict_get_none run_fields "run_type"))
                      run_result), w))
  /\ (str_contains "#/sources/" source_ref = false ->
      _build_run_log_response activation (VDict run_fields) run_result w
      = (Raise IndexError, w)).
Proof.
  intros Hs Hd. split.
  - intros s d -> Hns -> Hnd.
    unfold _build_run_log_response, bind, getitem_str. rewrite Hs, Hd. unfold ret.
    cbn [split_second].
    rewrite (str_split_after_separator "#/sources/" s) by (trivial; discriminate).
    rewrite (str_split_after_separator "#/destinations/" d) by (trivial; discriminate).
    reflexivity.
  - intros Hno. unfold _build_run_log_response, bind at 1, getitem_str at 1.
    rewrite Hs. unfold ret at 1. unfold bind at 1. cbn [split_second].
    rewrite (str_split_no_separator "#/sources/" source_ref Hno). reflexivity.
Qed.

(** *** The run list *)

Lemma bind_keeps_world {A B : Type} (c : M A) (f : A -> M B) :
  (forall w, snd (c w) = w) -> (forall a w, snd (f a w) = w) ->
  forall w, snd (bind c f w) = w.
Proof.
  intros Hc Hf w. unfold bind. specialize (Hc w).
  destruct (c w) as [[a|e] w1]; cbn [snd] in *; subst w1; [apply Hf | reflexivity].
Qed.

Lemma getitem_str_keeps_world v k w : snd (getitem_str v k w) = w.
Proof.
  unfold getitem_str. destruct v; try reflexivity.
  destruct (dict_get d k); reflexivity.
Qed.

Lemma method_get_keeps_world v k default w : snd (method_get v k default w) = w.
Proof. unfold method_get. destruct v; reflexivity. Qed.

Lemma split_second_keeps_world v sep w : snd (split_second v sep w) = w.
Proof.
  unfold split_second. destruct v; try reflexivity.
  destruct (nth_error _ _); reflexivity.
Qed.

Lemma build_run_log_pure activation run run_result w :
  snd (_build_run_log_response activation run run_result w) = w.
Proof.
  revert w. unfold _build_run_log_response.
  repeat (apply bind_keeps_world;
          [intro; first [apply getitem_str_keeps_world | apply method_get_keeps_world
                        | apply split_second_keeps_world] | intros ?]).
  reflexivity.
Qed.

(** One turn of the loop of [list_dag_runs]: it fails before any request,
    or makes the one GET for the run's result and then fails or goes on with
    one more run log. *)
Lemma list_dag_runs_loop_step activation_by_dag_id run rest run_logs w :
  (exists e,
      list_dag_runs_loop py_str literal_eval activation_by_dag_id (run :: rest) run_logs w
      = (Raise e, w))
  \/ (exists req,
         run_request py_str run = Some req
         /\ ((exists e,
                 list_dag_runs_loop py_str literal_eval activation_by_dag_id (run :: rest)
                   run_logs w = (Raise e, record_exchange w req))
             \/ (exists run_log,
                    list_dag_runs_loop py_str literal_eval activation_by_dag_id
                      (run :: rest) run_logs w
                    = list_dag_runs_loop py_str literal_eval activation_by_dag_id rest
                        (run_logs ++ [run_log])%list (record_exchange w req)))).
Proof.
  remember (list_dag_runs_loop py_str literal_eval activation_by_dag_id (run :: rest)
              run_logs w) as out eqn:Hout.
  cbn [list_dag_runs_loop] in Hout.
  unfold bind at 1, getitem_str at 1 in Hout.
  destruct run as [| | | | |fields| |]; try (left; eexists; exact Hout).
  destruct (dict_get fields "dag_id") as [dag_id|] eqn:Eid; [|left; eexists; exact Hout].
  unfold ret at 1 in Hout. unfold bind at 1, getitem_str at 1 in Hout.
  destruct (dict_get fields "dag_run_id") as [dag_run_id|] eqn:Erun;
    [|left; eexists; exact Hout].
  unfold ret at 1 in Hout.
  right. exists (get_of (xcom_url py_str dag_id dag_run_id "run_result")).
  split; [unfold run_request; rewrite Eid, Erun; reflexivity|].
  unfold bind at 1 in Hout. rewrite get_dag_run_xcom_run in Hout.
  set (w1 := record_exchange w _) in *.
  destruct (net w (history w) _) as [|r]; [left; eexists; exact Hout|].
  unfold bind at 1, response_json in Hout.
  destruct (json_body r) as [body|]; [|left; eexists; exact Hout].
  unfold ret at 1 in Hout. unfold bind at 1, method_get in Hout.
  destruct body as [| | | | |d| |]; try (left; eexists; exact Hout).
  unfold ret at 1 in Hout. unfold bind at 1, ast_literal_eval in Hout.
  destruct (py_or (dict_get_default d "value" VNone) (VStr "{}")) as [| | |s| | | |];
    try (left; eexists; exact Hout).
  unfold lift at 1 in Hout.
  destruct (literal_eval s) as [v|e]; [|left; eexists; exact Hout].
  unfold bind at 1, activation_getitem in Hout.
  destruct dag_id as [| | |id| | | |]; try (left; eexists; exact Hout).
  destruct (activation_get activation_by_dag_id id) as [activation|];
    [|left; eexists; exact Hout].
  unfold ret at 1 in Hout. unfold bind at 1, RunResult_of in Hout.
  destruct v as [| | | | |kwargs| |]; try (left; eexists; exact Hout).
  unfold lift at 1 in Hout.
  destruct (RunResult_kwargs kwargs RunResult_default) as [rr|e];
    [|left; eexists; exact Hout].
  unfold bind at 1 in Hout.
  pose proof (build_run_log_pure activation (VDict fields) rr w1) as Hpure.
  destruct (_build_run_log_response activation (VDict fields) rr w1) as [[run_log|e] w2];
    cbn [snd] in Hpure; subst w2.
  - right. exists run_log. exact Hout.
  - left. eexists. exact Hout.
Qed.

Lemma run_request_get run req :
  run_request py_str run = Some req -> req_method req = GET /\ req_json req = None.
Proof.
  unfold run_request. destruct run; try discriminate.
  destruct (dict_get d "dag_id"); [|discriminate].
  destruct (dict_get d "dag_run_id"); [|discriminate].
  intros H. injection H as <-. split; reflexivity.
Qed.

(** The loop visits the runs in order: the requests it makes are those of
    the first runs of the list, one each, and of all of them when it
    returns. *)
Lemma list_dag_runs_loop_shape activation_by_dag_id : forall runs run_logs w r w',
  list_dag_runs_loop py_str literal_eval activation_by_dag_id runs run_logs w = (r, w') ->
  sleeps w' = sleeps w /\ draws w' = draws w
  /\ exists gets,
      history w' = (history w ++ gets)%list
      /\ (List.length gets <= List.length runs)%nat
      /\ Forall2 (fun run ex => run_request py_str run = Some (fst ex))
                 (firstn (List.length gets) runs) gets
      /\ (forall out, r = Ok out ->
                      List.length gets = List.length runs
                      /\ List.length out = (List.length run_logs + List.length runs)%nat)
      /\ (forall e, r = Raise e -> runs <> []).
Proof.
  induction runs as [|run rest IH]; intros run_logs w r w' H.
  - cbn in H. injection H as <- <-. split; [reflexivity|]. split; [reflexivity|].
    exists []. rewrite app_nil_r. split; [reflexivity|]. split; [cbn; lia|].
    split; [cbn; constructor|]. split; [|discriminate].
    intros out H. injection H as <-. cbn. split; lia.
  - destruct (list_dag_runs_loop_step activation_by_dag_id run rest run_logs w)
      as [(e & He) | (req & Hreq & [(e & He) | (run_log & He)])];
      rewrite He in H.
    + injection H as <- <-. split; [reflexivity|]. split; [reflexivity|].
      exists []. rewrite app_nil_r. split; [reflexivity|]. split; [cbn; lia|].
      split; [cbn; constructor|]. split; discriminate.
    + injection H as <- <-. split; [reflexivity|]. split; [reflexivity|].
      exists [(req, net w (history w) req)].
      split; [reflexivity|]. split; [cbn; lia|].
      split; [cbn; repeat constructor; exact Hreq|]. split; discriminate.
    + apply IH in H as (S' & D & gets & Hh & Hlen & Htie & Hok & _).
      cbn [record_exchange sleeps draws history] in S', D, Hh.
      split; [exact S'|]. split; [exact D|].
      exists ((req, net w (history w) req) :: gets).
      split; [rewrite Hh, <- app_assoc; reflexivity|].
      split; [cbn [List.length]; lia|].
      split; [cbn [List.length firstn]; constructor; [exact Hreq | exact Htie]|].
      split; [|discriminate].
      intros out Hr. destruct (Hok out Hr) as [Hg Ho]. split.
      * cbn [List.length]. lia.
      * rewrite Ho, length_app. cbn [List.length]. lia.
Qed.

(** X14. Whatever the server answers and however it ends, [list_dag_runs]
    never sleeps and draws no random number; it opens with the one POST of
    the run list (ids of the activations, newest first, offset and limit).
    When the answer is a JSON object, it goes through the runs listed
    under [dag_runs] in order and makes no request but the GET for the result
    of each run it reaches, at most one per run; when it returns, it made
    the GET of every run and returns one run log per run, together with the
    [total_entries] of the run list as it came.  When the answer is no JSON
    object it raises and asks for nothing more. *)
Theorem list_dag_runs_requests activation_by_dag_id offset limit w r w' :
  list_dag_runs py_str literal_eval activation_by_dag_id offset limit w = (r, w') ->
  let opening := run_list_request activation_by_dag_id offset limit in
  sleeps w' = sleeps w /\ draws w' = draws w
  /\ exists gets,
      history w' = (history w ++ (opening, net w (history w) opening) :: gets)%list
      /\ Forall (fun ex => req_method (fst ex) = GET /\ req_json (fst ex) = None) gets
      /\ match net w (history w) opening with
         | Responded {| json_body := Some (VDict body) |} =>
             let runs := listed_runs body in
             (List.length gets <= List.length runs)%nat
             /\ Forall2 (fun run ex => run_request py_str run = Some (fst ex))
                        (firstn (List.length gets) runs) gets
             /\ forall response, r = Ok response ->
                  List.length gets = List.length runs
                  /\ List.length (run_logs response) = List.length runs
                  /\ total_entries response = dict_get_none body "total_entries"
         | _ => gets = [] /\ exists e, r = Raise e
         end.
Proof.
  intros H opening. unfold list_dag_runs, _post_request, client_post in H.
  fold (run_list_request activation_by_dag_id offset limit) in H. fold opening in H.
  unfold bind at 1, send_request in H.
  set (w1 := mkWorld (net w) (history w ++ [(opening, net w (history w) opening)])
                     (log w) (uniform w) (draws w) (sleeps w)) in H.
  assert (Hfail : forall e, r = Raise e -> w' = w1 ->
            sleeps w' = sleeps w /\ draws w' = draws w
            /\ exists gets,
                history w' = (history w ++ (opening, net w (history w) opening) :: gets)%list
                /\ Forall (fun ex => req_method (fst ex) = GET /\ req_json (fst ex) = None)
                          gets
                /\ gets = [] /\ exists e, r = Raise e).
  { intros e -> ->. split; [reflexivity|]. split; [reflexivity|]. exists [].
    split; [reflexivity|]. split; [constructor|]. split; [reflexivity|].
    eexists; reflexivity. }
  destruct (net w (history w) opening) as [|[status [body|]]] eqn:El.
  { injection H as <- <-. now apply (Hfail ConnectionError). }
  2:{ injection H as <- <-. now apply (Hfail JSONDecodeError). }
  unfold bind at 1, response_json in H. cbn [json_body] in H.
  unfold ret at 1 in H. unfold bind at 1, method_get in H.
  destruct body as [| | | | |body| |];
    try (injection H as <- <-; now apply (Hfail AttributeError)).
  clear Hfail.
  unfold ret at 1 in H. unfold bind at 1 in H. unfold ret at 1 in H.
  unfold bind at 1 in H.
  assert (Hiter : py_iter (dict_get_default body "dag_runs" VNone) w1
                  = (Ok (listed_runs body), w1)
                  \/ (py_iter (dict_get_default body "dag_runs" VNone) w1
                      = (Raise TypeError, w1) /\ listed_runs body = [])).
  { unfold py_iter, listed_runs.
    destruct (dict_get_default body "dag_runs" VNone); auto. }
  destruct Hiter as [Hiter | [Hiter Hnone]]; rewrite Hiter in H.
  2:{ injection H as <- <-. split; [reflexivity|]. split; [reflexivity|].
      exists []. rewrite Hnone. split; [reflexivity|]. split; [constructor|].
      cbv zeta. split; [cbn; lia|]. split; [cbn; constructor | discriminate]. }
  unfold bind at 1 in H.
  destruct (list_dag_runs_loop py_str literal_eval activation_by_dag_id (listed_runs body)
              [] w1) as [[out|e] w2] eqn:Eloop.
  all: apply list_dag_runs_loop_shape in Eloop as (S' & D & gets & Hh & Hlen & Htie & Hok
                                                   & _).
  all: unfold w1 in S', D, Hh; cbn [sleeps draws history] in S', D, Hh.
  all: injection H as <- <-.
  all: split; [exact S'|]; split; [exact D|].
  all: exists gets; split; [rewrite Hh, <- app_assoc; reflexivity|].
  all: split;
    [clear - Htie; revert Htie; generalize (firstn (List.length gets) (listed_runs body));
     intros l Htie; induction Htie as [|run ex l gets Hreq _ IH]; constructor;
     [exact (run_request_get _ _ Hreq) | exact IH]|].
  all: cbv zeta; split; [exact Hlen|]; split; [exact Htie|].
  all: intros response Hr; try discriminate Hr.
  injection Hr as <-. cbn [run_logs total_entries].
  destruct (Hok out eq_refl) as [Hg Ho]. repeat split; [exact Hg | exact Ho].
Qed.

(** *** Validation of a source or a destination *)

Lemma default_waits_accepted w :
  Forall (fun d => sleep_error d = None) (default_waits w) ->
  waits_accepted default_backoff_in_seconds (fun k => uniform w (draws w + k)%nat)
    (Z.to_nat default_max_retries).
Proof.
  intros H k Hk. unfold default_waits in H.
  inversion_clear H as [|? ? H0 H']. inversion_clear H' as [|? ? H1 H''].
  inversion_clear H'' as [|? ? H2 _].
  change (Z.to_nat default_max_retries) with 3%nat in Hk.
  destruct k as [|[|[|k]]]; [| | |lia]; eexists; (split; [reflexivity|]); assumption.
Qed.

Lemma default_waits_firstn w retries waits :
  (retries <= 3)%nat ->
  map Ok waits
  = map (fun k => wait default_backoff_in_seconds (Z.of_nat k)
                    (uniform w (draws w + k)%nat)) (seq 0 retries) ->
  waits = firstn retries (default_waits w).
Proof.
  intros Hle H. apply (f_equal (map (fun r => match r with Ok d => d | Raise _ => 0%float end)))
    in H.
  rewrite !map_map in H. rewrite map_id in H. rewrite H.
  destruct retries as [|[|[|[|n]]]]; [reflexivity .. | lia].
Qed.

(** X15. [_validate_target] opens with one POST that starts a run of
    [validate_<class in lower case>] and carries the name and the
    configuration of the target under [conf].  When the server answers every
    request, the run's id comes back and the three waits it may make are
    durations [time.sleep] accepts, it then asks for the [return_value] of
    that run, once and then up to three more times, each time after an
    answer of status 404 and a sleep of 1, 2 and 4 seconds plus the jitter,
    and makes no other request.  A last status other than 200 gives the
    verdict [is_valid=False] with the message that the target is
    unavailable, and the body of that response is not read; a status of 200
    whose value is the literal of a dict gives that dict to
    [ValidationResult]. *)
Theorem validate_target_asks_then_reads now_date target_class target_name target_config
    triggered content dag_run_id w :
  answers w ->
  Forall (fun d => sleep_error d = None) (default_waits w) ->
  let opening :=
    validation_trigger py_lower now_date target_class target_name target_config in
  let url := validation_result_url py_str py_lower target_class dag_run_id in
  net w (history w) opening = Responded triggered ->
  json_body triggered = Some (VDict content) ->
  dict_get content "dag_run_id" = Some dag_run_id ->
  exists retries gets xcom_response r w',
    _validate_target py_str literal_eval py_lower ValidationResult_new
      now_date target_class target_name target_config w = (r, w')
    /\ (retries <= 3)%nat
    /\ history w' = (history w ++ (opening, Responded triggered) :: gets)%list
    /\ List.length gets = S retries
    /\ Forall (fun ex => fst ex = get_of url) gets
    /\ Forall (fun reply => exists not_found,
                   reply = Responded not_found /\ status_code not_found = 404)
              (removelast (map snd gets))
    /\ last (map snd gets) ConnectionFailed = Responded xcom_response
    /\ sleeps w' = (sleeps w ++ firstn retries (default_waits w))%list
    /\ (status_code xcom_response = 404 -> retries = 3%nat)
    /\ (status_code xcom_response <> 200 ->
        r = ValidationResult_new (unavailable target_name))
    /\ (forall body literal kwargs,
          status_code xcom_response = 200 ->
          json_body xcom_response = Some (VDict body) ->
          dict_get body "value" = Some (VStr literal) ->
          literal_eval literal = Ok (VDict kwargs) ->
          r = ValidationResult_new kwargs).
Proof.
  intros Ha Hw opening url Hnet Hjson Hid.
  unfold _validate_target, trigger, _post_request, client_post.
  unfold bind at 1, send_request.
  change (mkRequest POST _ _) with opening. rewrite Hnet.
  set (w1 := mkWorld (net w) (history w ++ [(opening, Responded triggered)]) (log w)
                     (uniform w) (draws w) (sleeps w)).
  unfold bind at 1, response_json. rewrite Hjson. unfold ret at 1.
  unfold bind at 1, getitem_str. rewrite Hid. unfold ret at 1.
  change (base_url ++ "/dags/" ++ ("validate_" ++ py_lower target_class) ++ "/dagRuns/"
            ++ py_str dag_run_id ++ "/taskInstances/"
            ++ ("validate_" ++ py_lower target_class) ++ "/xcomEntries/return_value")
    with url.
  destruct (get_request_run url default_status_forcelist default_max_retries
              default_backoff_in_seconds w1 Ha (default_waits_accepted w Hw))
    as (retries & gets & waits & xcom & w' & Hrun & Hle & Hh & Hlen & Hall & Hnr & Hs
        & Hwaits & Hlast & Hstop).
  unfold w1 in Hh, Hs, Hwaits. cbn [history sleeps draws uniform] in Hh, Hs, Hwaits.
  unfold default_max_retries in Hle, Hstop. unfold default_status_forcelist in Hstop, Hnr.
  apply default_waits_firstn in Hwaits; [subst waits | lia].
  unfold bind at 1. rewrite Hrun.
  match goal with
  | |- context [(if ?b then ?x else ?y) w'] => set (rest := if b then x else y)
  end.
  assert (Hpure : snd (rest w') = w').
  { unfold rest. destruct (negb (status_code xcom =? 200)); [reflexivity|].
    generalize w'.
    apply bind_keeps_world;
      [intro; unfold response_json; destruct (json_body xcom); reflexivity | intros body].
    apply bind_keeps_world; [intro; apply getitem_str_keeps_world | intros value].
    apply bind_keeps_world;
      [intro; unfold ast_literal_eval; destruct value; reflexivity | intros v ?].
    destruct v; reflexivity. }
  exists retries, gets, xcom, (fst (rest w')), w'.
  split.
  { destruct (rest w') as [r w2]. cbn [snd] in Hpure. subst w2. reflexivity. }
  split; [lia|]. split; [rewrite Hh, <- app_assoc; reflexivity|].
  split; [exact Hlen|]. split; [exact Hall|].
  split.
  { eapply Forall_impl; [|exact Hnr]. intros reply (r404 & -> & Hin).
    exists r404. split; [reflexivity|].
    cbn [in_forcelist existsb] in Hin. rewrite orb_false_r in Hin.
    symmetry. apply Z.eqb_eq. rewrite Z.eqb_sym. exact Hin. }
  split; [exact Hlast|].
  split; [exact Hs|]. split; [|split].
  - intros H404. destruct Hstop as [Hstop|Hstop]; [|lia].
    cbn [in_forcelist existsb] in Hstop. rewrite H404 in Hstop. discriminate Hstop.
  - intros Hne. apply Z.eqb_neq in Hne. unfold rest. rewrite Hne. reflexivity.
  - intros body literal kwargs H200 Hbody Hvalue Hlit.
    unfold rest. rewrite H200. cbn [Z.eqb Pos.eqb negb].
    unfold bind at 1, response_json. rewrite Hbody. unfold ret at 1.
    unfold bind at 1, getitem_str. rewrite Hvalue. unfold ret at 1.
    unfold bind at 1, ast_literal_eval, lift at 1. rewrite Hlit. reflexivity.
Qed.

(** X16. Without the id of a started run there is no verdict: when the
    opening POST of [_validate_target] fails, or its answer is no JSON
    object with a [dag_run_id], the call raises after that one request, asks
    for no result and does not sleep. *)
Theorem validate_target_needs_a_run now_date target_class target_name target_config w :
  let opening :=
    validation_trigger py_lower now_date target_class target_name target_config in
  (forall triggered content dag_run_id,
      net w (history w) opening = Responded triggered ->
      json_body triggered = Some (VDict content) ->
      dict_get content "dag_run_id" = Some dag_run_id -> False) ->
  exists e,
    _validate_target py_str literal_eval py_lower ValidationResult_new
      now_date target_class target_name target_config w
    = (Raise e, record_exchange w opening).
Proof.
  intros opening Hno.
  unfold _validate_target, trigger, _post_request, client_post.
  unfold bind at 1, send_request.
  change (mkRequest POST _ _) with opening. unfold record_exchange.
  destruct (net w (history w) opening) as [|triggered] eqn:Hnet;
    [eexists; reflexivity|].
  unfold bind at 1, response_json.
  destruct (json_body triggered) as [content|] eqn:Hjson; [|eexists; reflexivity].
  unfold ret at 1. unfold bind at 1, getitem_str.
  destruct content as [| | | | |content| |]; try (eexists; reflexivity).
  destruct (dict_get content "dag_run_id") as [dag_run_id|] eqn:Hid;
    [|eexists; reflexivity].
  destruct (Hno triggered content dag_run_id eq_refl Hjson Hid).
Qed.

End AirflowClient.
End ClientsMoreFacts.

(** ** The rest of the code on concrete inputs *)

Module UtilsMoreExamples.
Import Utils UtilsFacts MoreExamples.

Lemma parse_data_by_position_witness :
  exists events,
    _parse_data ["client_id"; "user_id"] [[VStr "c1"; VStr "u1"; VInt 7]] = Ok events
    /\ List.length events = 1%nat.
Proof.
  destruct (proj1 (parse_data_by_position ["client_id"; "user_id"]
                     [[VStr "c1"; VStr "u1"; VInt 7]]))
    as (events & Hrun & Hall).
  - repeat constructor; cbn; intuition discriminate.
  - intros r [<-|[]]. cbn. lia.
  - exists events. split; [exact Hrun|]. exact (eq_sym (Forall2_length Hall)).
Defined.

End UtilsMoreExamples.

Module GA4MPMoreExamples.
Import GA4MP GA4MPFacts GA4MPMoreFacts Utils Examples MoreExamples.

Lemma init_urls_and_defaults_witness :
  url_attr destination_gtag "post_url"
  = _GA_EVENT_POST_URL ++ "?" ++ query_of py_str config_gtag
  /\ dict_get destination_gtag "debug" = Some (VBool false).
Proof.
  destruct (init_urls_and_defaults py_str config_gtag
              (world_of (net_accepting 200) no_jitter) destination_gtag _
              (GA4MPExamples.init_gtag _)) as (Hp & _ & Hf & _).
  split; [exact Hp|]. exact (Hf "debug" (or_intror eq_refl)).
Defined.

Lemma payload_has_one_identity_witness :
  exists payload,
    build_payload py_str destination_gtag (event "c1")
      (world_of (net_accepting 200) no_jitter)
    = (Ok payload, world_of (net_accepting 200) no_jitter)
    /\ dict_get payload "app_instance_id" = None.
Proof.
  destruct (payload_has_one_identity py_str config_gtag
              (world_of (net_accepting 200) no_jitter) destination_gtag _
              (event "c1") (world_of (net_accepting 200) no_jitter)
              (GA4MPExamples.init_gtag _)) as (payload & Hrun & _ & Hother & _).
  exists payload. split; [exact Hrun | exact Hother].
Defined.

Lemma fields_are_what_the_payload_reads_witness :
  exists columns,
    fields destination_gtag (world_of (net_accepting 200) no_jitter)
    = (Ok columns, world_of (net_accepting 200) no_jitter)
    /\ List.length columns = 5%nat.
Proof.
  destruct (fields_are_what_the_payload_reads py_str config_gtag
              (world_of (net_accepting 200) no_jitter) destination_gtag _
              (world_of (net_accepting 200) no_jitter)
              (GA4MPExamples.init_gtag _)) as (columns & Hrun & Hlen & _).
  exists columns. split; [exact Hrun | exact Hlen].
Defined.


Lemma production_gets_the_validated_payloads_witness :
  exists (payloads : list pydict) (sandbox_replies : list Reply) rr w',
    run_send_data destination_gtag [event "c1"; event ""] false
      (world_of net_checking_client_id no_jitter) = (Ok rr, w')
    /\ List.length sandbox_replies = 2%nat
    /\ Forall (fun payload => dict_get payload "validationBehavior" = None) payloads.
Proof.
  destruct (production_gets_the_validated_payloads py_str error_value default_error_num
              config_gtag (world_of (net_accepting 200) no_jitter)
              destination_gtag (world_of (net_accepting 200) no_jitter)
              [event "c1"; event ""] (world_of net_checking_client_id no_jitter)
              (GA4MPExamples.init_gtag _) eq_refl
              (GA4MPExamples.net_checking_well_formed _ _))
    as (payloads & sandbox_replies & production_replies & rr & w' & Hrun & _ & Hlen & _
        & _ & Hclean).
  exists payloads, sandbox_replies, rr, w'.
  split; [exact Hrun|]. split; [exact Hlen | exact Hclean].
Defined.

Lemma validate_reads_only_the_body_witness :
  snd (validate destination_gtag 1700000000000000 (world_of (net_accepting 200) no_jitter))
  = record_exchange (world_of (net_accepting 200) no_jitter)
      (mkRequest POST (url_attr destination_gtag "validate_url")
         (Some (VDict (validation_probe config_gtag 1700000000000000)))).
Proof.
  exact (proj1 (validate_reads_only_the_body py_str config_gtag
                  (world_of (net_accepting 200) no_jitter) destination_gtag _
                  1700000000000000 (world_of (net_accepting 200) no_jitter)
                  (GA4MPExamples.init_gtag _))).
Defined.

Lemma row_reaches_the_payload_by_position_witness :
  exists columns event payload,
    fields destination_gtag (world_of (net_accepting 200) no_jitter)
    = (Ok columns, world_of (net_accepting 200) no_jitter)
    /\ _parse_data columns [row] = Ok [event]
    /\ build_payload py_str destination_gtag event (world_of (net_accepting 200) no_jitter)
       = (Ok payload, world_of (net_accepting 200) no_jitter)
    /\ dict_get payload "user_id" = Some (VStr "u1").
Proof.
  destruct (row_reaches_the_payload_by_position py_str config_gtag
              (world_of (net_accepting 200) no_jitter) destination_gtag _
              (world_of (net_accepting 200) no_jitter)
              (VStr "c1") (VStr "u1") (VStr "purchase") (VInt 100) (VStr "42") []
              (GA4MPExamples.init_gtag _))
    as (columns & event & payload & Hf & Hp & Hb & _ & Hu & _).
  exists columns, event, payload.
  split; [exact Hf|]. split; [exact Hp|]. split; [exact Hb | exact Hu].
Defined.


Lemma live_run_counts_witness :
  exists rr w',
    run_send_data destination_gtag [event "c1"; event "c2"] false
      (world_of (net_accepting 503) no_jitter) = (Ok rr, w')
    /\ successful_hits rr = 2
    /\ failed_hits rr = 2
    /\ successful_hits rr + failed_hits rr = 2 + 2.
Proof.
  destruct (live_run_counts py_str error_value default_error_num
              config_gtag (world_of (net_accepting 200) no_jitter)
              destination_gtag (world_of (net_accepting 200) no_jitter)
              [event "c1"; event "c2"] (world_of (net_accepting 503) no_jitter)
              (GA4MPExamples.init_gtag _) eq_refl
              (GA4MPExamples.net_accepting_well_formed _ _ _))
    as (ps & rs & rs' & rr & w' & Hrun & _).
  exists rr, w'. split; [exact Hrun|].
  assert (Hrr : rr = match fst (run_send_data destination_gtag [event "c1"; event "c2"]
                                  false (world_of (net_accepting 503) no_jitter)) with
                     | Ok rr => rr
                     | Raise _ => rr
                     end)
    by (unfold run_send_data; rewrite Hrun; reflexivity).
  rewrite Hrr. vm_compute. repeat split.
Defined.

Lemma classified_errors_are_folded_witness :
  (exists rr w',
      run_send_data destination_gtag [event "c1"; event "c2"] false
        (world_of (net_accepting 503) no_jitter) = (Ok rr, w')
      /\ Z.of_nat (List.length (error_messages rr)) = failed_hits rr)
  /\ fst (run_send_data destination_gtag [event "c1"] true
            (world_of net_without_key no_jitter))
     = Raise KeyError.
Proof.
  split.
  - destruct (classified_errors_are_folded py_str error_value default_error_num
                config_gtag (world_of (net_accepting 200) no_jitter)
                [event "c1"; event "c2"] false (world_of (net_accepting 503) no_jitter))
      as (_ & Hrest).
    destruct (Hrest destination_gtag _ (GA4MPExamples.init_gtag _)) as (Hfold & _).
    destruct (Hfold (or_intror eq_refl) (GA4MPExamples.net_accepting_well_formed _ _ _))
      as (payloads & rs & rs' & rr & w' & Hrun & _ & _ & _ & _ & _ & _ & Hlen).
    exists rr, w'. split; [exact Hrun | exact Hlen].
  - destruct (classified_errors_are_folded py_str error_value default_error_num
                config_gtag (world_of (net_accepting 200) no_jitter)
                [event "c1"] true (world_of net_without_key no_jitter))
      as (_ & Hrest).
    destruct (Hrest destination_gtag _ (GA4MPExamples.init_gtag _)) as (_ & Hescape & _).
    unfold run_send_data.
    erewrite (Hescape [] (event "c1") [] [] [] (world_of net_without_key no_jitter)
                _ KeyError _ eq_refl eq_refl eq_refl);
      [reflexivity | reflexivity | discriminate].
Defined.

End GA4MPMoreExamples.

Module ClientsMoreExamples.
Import Clients ClientsFacts ClientsMoreFacts Examples MoreExamples.

Lemma run_log_names_and_defaults_witness :
  _build_run_log_response nightly (VDict [("state", VStr "success")]) RunResult_default
    (world_of net_down no_jitter)
  = (Ok (mkRunLog "nightly" (VStr "warehouse") (VStr "ga4") (VStr "@daily")
                  (VStr "success") (VStr "Missing") (VStr "Missing") RunResult_default),
     world_of net_down no_jitter).
Proof.
  exact (proj1 (run_log_names_and_defaults nightly [("state", VStr "success")]
                  RunResult_default (world_of net_down no_jitter)
                  "#/sources/warehouse" "#/destinations/ga4" eq_refl eq_refl)
           "warehouse" "ga4" eq_refl eq_refl eq_refl eq_refl).
Defined.

Lemma list_dag_runs_requests_witness :
  sleeps (snd (run_list_dag_runs
                 (world_of (net_airflow (artifact (VStr result_literal))) no_jitter)))
  = [].
Proof.
  exact (proj1 (list_dag_runs_requests py_str literal_eval activations 0 50
                  (world_of (net_airflow (artifact (VStr result_literal))) no_jitter)
                  _ _ (surjective_pairing _))).
Defined.

Lemma net_validation_answers jitter : answers (world_of net_validation jitter).
Proof.
  intros h req. cbn [net world_of]. unfold net_validation.
  destruct (req_method req); [destruct (List.length h <? 3)%nat|]; discriminate.
Qed.

Lemma net_validation_waits_accepted :
  Forall (fun d => sleep_error d = None) (default_waits (world_of net_validation no_jitter)).
Proof. repeat constructor. Qed.

Lemma validate_target_asks_then_reads_witness :
  exists retries r w',
    validate_source py_str literal_eval_verdict py_lower ValidationResult_new
      "2023-05-01T00:00:00Z" "warehouse" (VDict [])
      (world_of net_validation no_jitter) = (r, w')
    /\ (retries <= 3)%nat
    /\ List.length (sleeps w') = retries.
Proof.
  destruct (validate_target_asks_then_reads py_str literal_eval_verdict py_lower
              ValidationResult_new "2023-05-01T00:00:00Z" "Source" "warehouse" (VDict [])
              started_run [("dag_run_id", VStr "manual_7")] (VStr "manual_7")
              (world_of net_validation no_jitter)
              (net_validation_answers _) net_validation_waits_accepted
              eq_refl eq_refl eq_refl)
    as (retries & gets & xcom & r & w' & Hrun & Hle & _ & _ & _ & _ & _ & Hs & _).
  exists retries, r, w'. split; [exact Hrun|]. split; [exact Hle|].
  rewrite Hs. cbn [sleeps world_of app]. rewrite length_firstn. cbn [default_waits List.length].
  lia.
Defined.

Lemma validate_target_needs_a_run_witness :
  exists e,
    validate_destination py_str literal_eval py_lower ValidationResult_new
      "2023-05-01T00:00:00Z" "ga4" (VDict []) (world_of net_down no_jitter)
    = (Raise e,
       record_exchange (world_of net_down no_jitter)
         (validation_trigger py_lower "2023-05-01T00:00:00Z" "Destination" "ga4"
            (VDict []))).
Proof.
  exact (validate_target_needs_a_run py_str literal_eval py_lower ValidationResult_new
           "2023-05-01T00:00:00Z" "Destination" "ga4" (VDict [])
           (world_of net_down no_jitter)
           ltac:(intros triggered content dag_run_id H; discriminate H)).
Defined.

(** A source whose verdict is ready at the fourth request of the exchange:
    one POST, three GETs, two sleeps, and the verdict read from the literal. *)
Example validation_after_two_retries :
  exists w',
    validate_source py_str literal_eval_verdict py_lower ValidationResult_new
      "2023-05-01T00:00:00Z" "warehouse" (VDict [])
      (world_of net_validation no_jitter)
    = (Ok (mkValidationResult true (VList [])), w')
    /\ sleeps w' = [1; 2]%float
    /\ List.length (history w') = 4%nat.
Proof. eexists. split; [vm_compute; reflexivity|]. split; reflexivity. Qed.

End ClientsMoreExamples.
